(** * DairyPredict: production optimizer and forecast-model cache

    A shallow embedding of [utils/optimization.py] (class
    [ProductionOptimizer]) and of the model life cycle of
    [utils/forecasting.py] (class [DairyForecaster]).

    Numbers.  The Python code computes on binary floating point values,
    and the embedding has them twice.  Module [Binary64] computes as the
    interpreter does, on IEEE 754 binary64 values (the primitive floats)
    with the [round] of Python and of numpy; it carries the statements
    that fix the values a row reports.  The other modules idealise the
    floats as exact rationals ([Q]), with [round(x, n)] the rounding to
    the nearest multiple of [10^-n], ties to even; they carry the
    statements on control flow and on bounds.  Division is the only
    arithmetic operation of the optimizer that can raise, and it is
    modelled as such ([py_div]).

    Data frames.  A pandas frame is a list of rows, each with its index
    label; filtering keeps the labels, [iterrows] yields them, and
    [iloc] slices by position. *)

From Stdlib Require Import QArith Qround Qminmax Qabs ZArith Lia Lqa List String Ascii
  Permutation Sorted DecimalString Floats.
From stdpp Require Import gmap strings list.
Import ListNotations.

(** ** Python outcomes: a call returns a value or raises *)

Inductive outcome (A : Type) : Type :=
| Returned (a : A)
| Raised (msg : string).
Arguments Returned {A} a.
Arguments Raised {A} msg.

Definition bind {A B : Type} (c : outcome A) (k : A -> outcome B) : outcome B :=
  match c with
  | Returned a => k a
  | Raised msg => Raised msg
  end.

Notation "'let!' x ':=' c 'in' k" := (bind c (fun x => k))
  (at level 10, x name, c at level 100, k at level 200).

Definition returns {A : Type} (c : outcome A) : Prop :=
  exists a, c = Returned a.

(** ** Python arithmetic on idealised floats *)

Module PyNum.
Local Open Scope Q_scope.

(** [bool(x)] of a number: zero is falsy. *)
Definition truthy (x : Q) : bool := negb (Qeq_bool x 0).

(** [a / b]: raises [ZeroDivisionError] on a zero divisor. *)
Definition py_div (a b : Q) : outcome Q :=
  if Qeq_bool b 0 then Raised "ZeroDivisionError" else Returned (a / b).

(** [min(a, b)]: the second argument is taken only when it is strictly
    smaller. *)
Definition py_min (a b : Q) : Q := if Qle_bool a b then a else b.

(** [max(a, b)]: the second argument is taken only when it is strictly
    larger. *)
Definition py_max (a b : Q) : Q := if Qle_bool b a then a else b.

(** Nearest integer, ties to even. *)
Definition round_half_even (x : Q) : Z :=
  let f := Qfloor x in
  match Qcompare (x - inject_Z f) (1 # 2) with
  | Lt => f
  | Gt => (f + 1)%Z
  | Eq => if Z.even f then f else (f + 1)%Z
  end.

(** [round(x, ndigits)]. *)
Definition py_round (x : Q) (ndigits : nat) : Q :=
  let scale := (10 ^ Z.of_nat ndigits)%Z in
  Qmake (round_half_even (x * inject_Z scale)) (Z.to_pos scale).

(** [sum] of a column. *)
Definition py_sum (l : list Q) : Q := fold_left Qplus l 0.

End PyNum.
Export PyNum.

(** ** Data frames *)

Record Row : Type := mkRow {
  date : Z;                (* column 'date' (or 'ds'), as a day number *)
  product : string;        (* column 'product', when the frame has it *)
  predicted_demand : Q     (* column 'predicted_demand' (or 'yhat') *)
}.

Record DataFrame : Type := mkFrame {
  has_product_column : bool;     (* 'product' in forecasts.columns *)
  rows : list (nat * Row)        (* (index label, row), in frame order *)
}.

(** [pd.concat([...], ignore_index=True)] and a fresh frame number their
    rows 0, 1, 2, ... *)
Definition range_index (l : list Row) : list (nat * Row) :=
  combine (seq 0 (List.length l)) l.

(** [forecasts[forecasts['product'] == product].copy()] when the frame
    has a product column, [forecasts.copy()] otherwise.  Labels are kept. *)
Definition select_product (forecasts : DataFrame) (p : string) : list (nat * Row) :=
  if has_product_column forecasts
  then List.filter (fun lr => String.eqb (product (snd lr)) p) (rows forecasts)
  else rows forecasts.

(** [sort_values('date')]: ascending by date (insertion sort, so rows of
    equal date keep their order). *)
Fixpoint insert_by_date (x : nat * Row) (l : list (nat * Row)) : list (nat * Row) :=
  match l with
  | [] => [x]
  | y :: l' =>
      if (date (snd x) <? date (snd y))%Z then x :: y :: l'
      else y :: insert_by_date x l'
  end.

Definition sort_values (l : list (nat * Row)) : list (nat * Row) :=
  fold_right insert_by_date [] (rev l).

(** [d.get(key, fallback)] on a dict. *)
Definition dict_get {V : Type} (d : gmap string V) (key : string) (fallback : V) : V :=
  match d !! key with
  | Some v => v
  | None => fallback
  end.

(** ** [ProductionOptimizer] *)

Module Optimizer.
Local Open Scope Q_scope.
Local Open Scope string_scope.

(** Default capacity constraints (units per day). *)
Definition default_capacities : gmap string Q :=
  list_to_map
    [("Milk", 2000); ("Butter", 500); ("Cheese", 400); ("Yogurt", 800); ("Ghee", 300)].

(** Production costs (per unit). *)
Definition production_costs : gmap string Q :=
  list_to_map
    [("Milk", 15); ("Butter", 300); ("Cheese", 250); ("Yogurt", 50); ("Ghee", 400)].

(** Storage costs (per unit per day). *)
Definition storage_costs : gmap string Q :=
  list_to_map
    [("Milk", 1 # 2); ("Butter", 2); ("Cheese", 3); ("Yogurt", 1); ("Ghee", 5 # 2)].

(** Shelf life (days). *)
Definition shelf_life : gmap string nat :=
  list_to_map
    [("Milk", 5%nat); ("Butter", 30%nat); ("Cheese", 45%nat); ("Yogurt", 10%nat);
     ("Ghee", 90%nat)].

Definition price_estimates : gmap string Q :=
  list_to_map
    [("Milk", 25); ("Butter", 450); ("Cheese", 350); ("Yogurt", 80); ("Ghee", 600)].

(** Estimate average selling price for a product. *)
Definition _estimate_price (p : string) : Q := dict_get price_estimates p 100.

Record PlanRow : Type := mkPlanRow {
  plan_date : Z;
  forecasted_demand : Q;
  optimal_production : Q;
  capacity_utilization : Q;
  production_cost : Q;
  potential_revenue : Q;
  profit_margin : Q
}.

(** [custom_capacity or self.default_capacities.get(product, 1000)]:
    [None] and a zero number are both falsy. *)
Definition capacity_of (p : string) (custom_capacity : option Q) : Q :=
  match custom_capacity with
  | Some c => if truthy c then c else dict_get default_capacities p 1000
  | None => dict_get default_capacities p 1000
  end.

(** The body of the loop of [calculate_optimal_production], for one row. *)
Definition production_row (p : string) (safety_stock capacity : Q) (row : Row)
  : outcome PlanRow :=
  let forecast_demand := predicted_demand row in
  (* Add safety stock *)
  let adjusted_demand := forecast_demand * (1 + safety_stock) in
  (* Apply capacity constraint *)
  let production_qty := py_min adjusted_demand capacity in
  (* Calculate utilization *)
  let! ratio := py_div production_qty capacity in
  let utilization := ratio * 100 in
  (* Calculate costs *)
  let prod_cost := production_qty * dict_get production_costs p 0 in
  (* Calculate potential revenue (using average price) *)
  let avg_price := _estimate_price p in
  let revenue := production_qty * avg_price in
  let! margin :=
    if negb (Qle_bool revenue 0)
    then (let! m := py_div (revenue - prod_cost) revenue in
          Returned (py_round (m * 100) 1))
    else Returned 0 in
  Returned {| plan_date := date row;
              forecasted_demand := forecast_demand;
              optimal_production := py_round production_qty 0;
              capacity_utilization := py_round utilization 1;
              production_cost := py_round prod_cost 2;
              potential_revenue := py_round revenue 2;
              profit_margin := margin |}.

(** [for _, row in product_forecasts.iterrows(): ... append(...)]. *)
Fixpoint production_loop (p : string) (safety_stock capacity : Q)
    (todo : list (nat * Row)) (plan : list PlanRow) : outcome (list PlanRow) :=
  match todo with
  | [] => Returned plan
  | (_, row) :: rest =>
      let! r := production_row p safety_stock capacity row in
      production_loop p safety_stock capacity rest (plan ++ [r])
  end.

(** Calculate optimal production quantities based on forecasts.  The
    result is [None] where the Python returns [None]. *)
Definition calculate_optimal_production (forecasts : option DataFrame) (p : string)
    (safety_stock : Q) (custom_capacity : option Q)
  : outcome (option (list PlanRow)) :=
  match forecasts with
  | None => Returned None
  | Some df =>
      if (List.length (rows df) =? 0)%nat then Returned None
      else
        (* Get capacity constraint *)
        let capacity := capacity_of p custom_capacity in
        (* Get forecasts for the product *)
        let product_forecasts := select_product df p in
        if (List.length product_forecasts =? 0)%nat then Returned None
        else
          (* Sort by date *)
          let sorted := sort_values product_forecasts in
          let! plan := production_loop p safety_stock capacity sorted [] in
          Returned (Some plan)
  end.

(** The default of the [safety_stock] parameter. *)
Definition default_safety_stock : Q := 1 # 10.

(** *** Inventory *)

Record InventoryRow : Type := mkInventoryRow {
  inv_date : Z;
  current_inventory : Q;
  inv_forecasted_demand : Q;
  optimal_stock_level : Q;
  reorder_point : Q;
  recommended_order : Q;
  daily_storage_cost : Q;
  stock_status : string
}.

(** [frame.iloc[a:b]] for non-negative bounds: positions a, ..., b-1. *)
Definition iloc {A : Type} (l : list A) (a b : nat) : list A :=
  firstn (b - a) (skipn a l).

(** Calculate total demand for next N days. *)
Definition _calculate_future_demand (forecasts : list (nat * Row))
    (current_index days : nat) : Q :=
  let end_index := Nat.min (current_index + days) (List.length forecasts) in
  let future_data := iloc forecasts current_index end_index in
  py_sum (List.map (fun lr => predicted_demand (snd lr)) future_data).

(** Determine stock status based on levels. *)
Definition _get_stock_status (current_stock reorder optimal_stock : Q) : string :=
  if negb (Qle_bool reorder current_stock) then "Reorder Required"
  else if negb (Qle_bool current_stock optimal_stock) then "Overstock"
  else "Optimal".

(** The loop of [calculate_inventory_optimization]: [i] is the index
    label that [iterrows] yields, [current_stock] the running stock. *)
Fixpoint inventory_loop (product_forecasts : list (nat * Row))
    (shelf_life_days : nat) (storage_cost_per_day : Q)
    (todo : list (nat * Row)) (current_stock : Q) (inventory_plan : list InventoryRow)
  : list InventoryRow :=
  match todo with
  | [] => inventory_plan
  | (i, row) :: rest =>
      let demand := predicted_demand row in
      (* Calculate optimal stock level (considering shelf life) *)
      let future_demand := _calculate_future_demand product_forecasts i shelf_life_days in
      let optimal_stock := py_min future_demand (demand * inject_Z (Z.of_nat shelf_life_days)) in
      (* Calculate reorder point: 2 days safety stock *)
      let reorder := demand * 2 in
      (* Calculate recommended order quantity *)
      let order_qty :=
        if negb (Qle_bool reorder current_stock) then optimal_stock - current_stock
        else 0 in
      (* Update current stock *)
      let current_stock' := py_max 0 (current_stock + order_qty - demand) in
      (* Calculate storage cost *)
      let storage := current_stock' * storage_cost_per_day in
      inventory_loop product_forecasts shelf_life_days storage_cost_per_day rest
        current_stock'
        (inventory_plan ++
           [{| inv_date := date row;
               current_inventory := py_round current_stock' 0;
               inv_forecasted_demand := py_round demand 0;
               optimal_stock_level := py_round optimal_stock 0;
               reorder_point := py_round reorder 0;
               recommended_order := py_round order_qty 0;
               daily_storage_cost := py_round storage 2;
               stock_status := _get_stock_status current_stock' reorder optimal_stock |}])
  end.

(** Calculate optimal inventory levels to minimize waste and stockouts. *)
Definition calculate_inventory_optimization (forecasts : option DataFrame) (p : string)
    (current_inventory0 : Q) : option (list InventoryRow) :=
  match forecasts with
  | None => None
  | Some df =>
      if (List.length (rows df) =? 0)%nat then None
      else
        let product_forecasts := select_product df p in
        if (List.length product_forecasts =? 0)%nat then None
        else
          let shelf_life_days := dict_get shelf_life p 30%nat in
          let storage_cost_per_day := dict_get storage_costs p 1 in
          Some (inventory_loop product_forecasts shelf_life_days storage_cost_per_day
                  product_forecasts current_inventory0 [])
  end.

(** *** Summary *)

(** [column.mean()] of a non-empty column (pandas yields NaN, without
    raising, on an empty one; the summary only takes means of non-empty
    plans). *)
Definition mean (l : list Q) : Q := py_sum l / inject_Z (Z.of_nat (List.length l)).

(** Sample variance, the square of [column.std()]. *)
Definition sample_variance (l : list Q) : Q :=
  let m := mean l in
  py_sum (List.map (fun x => (x - m) * (x - m)) l)
    / inject_Z (Z.of_nat (List.length l) - 1).

(** [demand_mean > 0 and (demand_std / demand_mean) > 0.3].  The standard
    deviation is a square root; with a positive mean the test is the same
    as [variance > (0.3 * mean)^2].  On a single row pandas' [std] is NaN
    and the comparison is false. *)
Definition high_variability (l : list Q) : bool :=
  let m := mean l in
  negb (Qle_bool m 0)
  && (2 <=? List.length l)%nat
  && negb (Qle_bool (sample_variance l) (((3 # 10) * m) * ((3 # 10) * m))).

(** Generate recommendations based on production plan analysis. *)
Definition _generate_product_recommendations (production_plan : list PlanRow)
  : list string :=
  let avg_utilization := mean (List.map capacity_utilization production_plan) in
  let r1 :=
    if negb (Qle_bool 60 avg_utilization)
    then ["Consider increasing production capacity utilization or reducing fixed costs"]
    else if negb (Qle_bool avg_utilization 90)
    then ["Consider expanding production capacity to meet demand"]
    else [] in
  let r2 :=
    if negb (Qle_bool 20 (mean (List.map profit_margin production_plan)))
    then ["Review pricing strategy or production costs to improve margins"]
    else [] in
  let r3 :=
    if high_variability (List.map forecasted_demand production_plan)
    then ["High demand variability detected - consider flexible production scheduling"]
    else [] in
  r1 ++ r2 ++ r3.

Record ProductSummary : Type := mkProductSummary {
  total_forecasted_demand : Q;
  total_optimal_production : Q;
  avg_capacity_utilization : Q;
  total_production_cost : Q;
  total_potential_revenue : Q;
  avg_profit_margin : Q;
  capacity_constraint : option Q;      (* [None] stands for 'Unknown' *)
  recommendations : list string
}.

Record OverallMetrics : Type := mkOverall {
  overall_production_cost : Q;
  overall_potential_revenue : Q;
  overall_profit_margin : Q
}.

Record Summary : Type := mkSummary {
  total_products : nat;
  time_horizon_days : nat;
  optimization_date : string;
  products_analysis : gmap string ProductSummary;
  overall_metrics : OverallMetrics
}.

Definition summarize_plan (p : string) (production_plan : list PlanRow) : ProductSummary :=
  {| total_forecasted_demand := py_sum (List.map forecasted_demand production_plan);
     total_optimal_production := py_sum (List.map optimal_production production_plan);
     avg_capacity_utilization := mean (List.map capacity_utilization production_plan);
     total_production_cost := py_sum (List.map production_cost production_plan);
     total_potential_revenue := py_sum (List.map potential_revenue production_plan);
     avg_profit_margin := mean (List.map profit_margin production_plan);
     capacity_constraint := default_capacities !! p;
     recommendations := _generate_product_recommendations production_plan |}.

(** [for product in products: ...], threading the analysis dict and the
    two running totals. *)
Fixpoint summary_loop (forecasts : option DataFrame) (products : list string)
    (analysis : gmap string ProductSummary) (cost_total revenue_total : Q)
  : outcome (gmap string ProductSummary * Q * Q) :=
  match products with
  | [] => Returned (analysis, cost_total, revenue_total)
  | p :: rest =>
      let! production_plan :=
        calculate_optimal_production forecasts p default_safety_stock None in
      match production_plan with
      | Some (r :: plan) =>
          let product_summary := summarize_plan p (r :: plan) in
          summary_loop forecasts rest (<[p := product_summary]> analysis)
            (cost_total + total_production_cost product_summary)
            (revenue_total + total_potential_revenue product_summary)
      | _ => summary_loop forecasts rest analysis cost_total revenue_total
      end
  end.

(** The overall margin computed from the two totals. *)
Definition overall_margin (cost_total revenue_total : Q) : outcome Q :=
  if negb (Qle_bool revenue_total 0)
  then (let! m := py_div (revenue_total - cost_total) revenue_total in
        Returned (py_round (m * 100) 1))
  else Returned 0.

(** Generate comprehensive optimization summary.  [today] is the value
    of [datetime.now().strftime('%Y-%m-%d')]. *)
Definition generate_optimization_summary (today : string)
    (forecasts : option DataFrame) (products : list string) (time_horizon : nat)
  : outcome Summary :=
  let! acc := summary_loop forecasts products ∅ 0 0 in
  let '(analysis, cost_total, revenue_total) := acc in
  let! margin := overall_margin cost_total revenue_total in
  Returned {| total_products := List.length products;
              time_horizon_days := time_horizon;
              optimization_date := today;
              products_analysis := analysis;
              overall_metrics :=
                {| overall_production_cost := py_round cost_total 2;
                   overall_potential_revenue := py_round revenue_total 2;
                   overall_profit_margin := margin |} |}.

End Optimizer.


(** ** Python strings *)

Module PyStr.
Local Open Scope string_scope.

(** [s.replace(old, new)] for a non-empty [old]: occurrences are found
    from the left and do not overlap.  [skip] counts the characters of a
    matched occurrence that are still to be dropped. *)
Fixpoint replace_from (old new : string) (skip : nat) (s : string) : string :=
  match s with
  | EmptyString => EmptyString
  | String c rest =>
      match skip with
      | S k => replace_from old new k rest
      | O =>
          if String.prefix old s
          then new ++ replace_from old new (String.length old - 1) rest
          else String c (replace_from old new 0 rest)
      end
  end.

Definition py_replace (old new s : string) : string := replace_from old new 0 s.

(** [s.endswith(suffix)]. *)
Definition py_endswith (s suffix : string) : bool :=
  (String.length suffix <=? String.length s)%nat
  && String.eqb
       (String.substring (String.length s - String.length suffix) (String.length suffix) s)
       suffix.

(** [old in s]. *)
Fixpoint py_contains (old s : string) : bool :=
  String.prefix old s
  || match s with
     | EmptyString => false
     | String _ rest => py_contains old rest
     end.

(** ['/' in s]. *)
Fixpoint has_separator (s : string) : bool :=
  match s with
  | EmptyString => false
  | String c rest => Ascii.eqb c "/" || has_separator rest
  end.

(** [os.path.join(a, b)]: an absolute second component replaces the
    first. *)
Definition os_path_join (a b : string) : string :=
  if String.prefix "/" b then b else a ++ "/" ++ b.

End PyStr.
Export PyStr.

(** ** [DairyForecaster] *)

(** The libraries the forecaster calls, as contracts: Prophet,
    scikit-learn's metrics and numpy's square root.  A call returns or
    raises. *)
Class ForecastLibrary : Type := {
  Model : Type;
  (** [Prophet(seasonality_mode=..., interval_width=..., <fixed
      settings>)], [add_seasonality('monthly', ...)], [fit(data)]. *)
  fit : string -> Q -> list (Z * Q) -> outcome Model;
  (** the attribute [model.seasonality_mode] *)
  seasonality_mode : Model -> string;
  (** the column [yhat] of
      [model.predict(model.make_future_dataframe(periods=n))]: history
      rows first, then [n] future rows. *)
  predict : Model -> nat -> outcome (list Q);
  mean_absolute_error : list Q -> list Q -> outcome Q;
  mean_squared_error : list Q -> list Q -> outcome Q;
  mean_absolute_percentage_error : list Q -> list Q -> outcome Q;
  np_sqrt : Q -> Q
}.

Module Forecaster.
Local Open Scope string_scope.

(** A performance dict; [NoMetrics] is the empty dict [{}]. *)
Inductive Performance : Type :=
| Metrics (mae rmse mape : option Q) (note : string)
| NoMetrics.

Record Metadata : Type := mkMetadata {
  md_product : string;
  md_trained_date : string;
  md_data_points : nat;
  md_date_range : Z * Z          (* (start, end), as day numbers *)
}.

Section WithLibrary.
Context {lib : ForecastLibrary}.

(** What a pickle file can hold. *)
Inductive pyobj : Type :=
| ObjModel (m : Model)
| ObjPerformance (p : Performance)
| ObjMetadata (md : Metadata).

(** A file of the backing store: a pickled object, or content that
    cannot be opened or unpickled. *)
Inductive file : Type :=
| Pickle (o : pyobj)
| Unreadable.

(** The forecaster (its three dicts) and the backing store (path to
    file).  Paths are compared as strings. *)
Record State : Type := mkState {
  models : gmap string pyobj;
  model_performance : gmap string pyobj;
  metadata : gmap string pyobj;
  files : gmap string file
}.

Definition models_dir : string := "models".

(** [product.replace(' ', '_')] *)
Definition safe_name (p : string) : string := py_replace " " "_" p.

Definition model_path (p : string) : string :=
  os_path_join models_dir (safe_name p ++ "_model.pkl").
Definition performance_path (p : string) : string :=
  os_path_join models_dir (safe_name p ++ "_performance.pkl").
Definition metadata_path (p : string) : string :=
  os_path_join models_dir (safe_name p ++ "_metadata.pkl").

(** [os.listdir(dir)], restricted to the files directly in [dir]. *)
Definition listdir (fs : gmap string file) (dir : string) : list string :=
  omap (fun path : string =>
          let pre := dir ++ "/" in
          let name := String.substring (String.length pre)
                        (String.length path - String.length pre) path in
          if String.prefix pre path && negb (has_separator name) then Some name else None)
       (List.map fst (map_to_list fs)).

(** What the environment does to one [open(path, 'wb')] /
    [pickle.dump] pair. *)
Inductive write_result : Type :=
| WriteOk
| OpenFails      (* [open] raises: the file is untouched *)
| DumpFails.     (* [pickle.dump] raises: the file is left unreadable *)

Definition write_file (w : write_result) (path : string) (o : pyobj)
    (fs : gmap string file) : gmap string file * bool :=
  match w with
  | WriteOk => (<[path := Pickle o]> fs, true)
  | OpenFails => (fs, false)
  | DumpFails => (<[path := Unreadable]> fs, false)
  end.

Definition with_files (st : State) (fs : gmap string file) : State :=
  {| models := models st; model_performance := model_performance st;
     metadata := metadata st; files := fs |}.

(** *** Evaluation *)

Definition unavailable (note : string) : Performance := Metrics None None None note.

(** [frame.tail(n)] *)
Definition tail {A : Type} (n : nat) (l : list A) : list A :=
  skipn (List.length l - n) l.

(** [np.maximum(column, 0.1)] *)
Definition floor_at_tenth (l : list Q) : list Q := List.map (fun y => py_max y (1 # 10)) l.

(** The part of [_evaluate_model] after the size check, inside the
    [try]. *)
Definition validate (model : Model) (data : list (Z * Q)) (train_size : nat)
  : outcome Performance :=
  let train_data := firstn train_size data in
  let test_data := skipn train_size data in
  (* Train on subset *)
  let! temp_model := fit (seasonality_mode model) (8 # 10) train_data in
  (* Make predictions *)
  let! forecast := predict temp_model (List.length test_data) in
  (* Calculate metrics *)
  let y_true := List.map snd test_data in
  let y_pred := tail (List.length test_data) forecast in
  (* Ensure no negative predictions for MAPE calculation *)
  let y_pred := floor_at_tenth y_pred in
  let y_true := floor_at_tenth y_true in
  let! mae := mean_absolute_error y_true y_pred in
  let! mse := mean_squared_error y_true y_pred in
  let rmse := np_sqrt mse in
  let! mape := mean_absolute_percentage_error y_true y_pred in
  Returned (Metrics (Some mae) (Some rmse) (Some (mape * 100)%Q)
              "Validation on last 30 days").

(** The performance dict that [_evaluate_model] stores. *)
Definition evaluate (model : Model) (data : list (Z * Q)) : Performance :=
  (* Split data for validation (last 30 days) *)
  let train_size := (Z.of_nat (List.length data) - 30)%Z in
  if (train_size <? 60)%Z   (* Need minimum data for validation *)
  then unavailable "Insufficient data for validation"
  else
    match validate model data (Z.to_nat train_size) with
    | Returned performance => performance
    | Raised e => unavailable ("Error in validation: " ++ e)
    end.

(** Evaluate model performance using cross-validation metrics. *)
Definition _evaluate_model (model : Model) (data : list (Z * Q)) (p : string)
    (st : State) : State :=
  {| models := models st;
     model_performance := <[p := ObjPerformance (evaluate model data)]> (model_performance st);
     metadata := metadata st;
     files := files st |}.

(** *** The cache *)

(** Save trained model to disk with metadata.  [now] is the
    formatted [datetime.now()]; [wm], [wp], [wd] are what the
    environment does to the three writes, in order. *)
Definition save_model (now : string) (p : string) (model : Model)
    (training_data : list (Z * Q)) (wm wp wd : write_result) (st : State)
  : State * bool :=
  (* Save model *)
  let '(fs1, ok1) := write_file wm (model_path p) (ObjModel model) (files st) in
  if negb ok1 then (with_files st fs1, false)
  else
    (* Save performance metrics *)
    let performance := dict_get (model_performance st) p (ObjPerformance NoMetrics) in
    let '(fs2, ok2) := write_file wp (performance_path p) performance fs1 in
    if negb ok2 then (with_files st fs2, false)
    else
      (* Save metadata *)
      match training_data with
      | [] => (with_files st fs2, false)     (* [NaT.strftime] raises *)
      | (d, _) :: rest =>
          let ds := List.map fst rest in
          let md := {| md_product := p;
                       md_trained_date := now;
                       md_data_points := List.length training_data;
                       md_date_range := (fold_left Z.min ds d, fold_left Z.max ds d) |} in
          let '(fs3, ok3) := write_file wd (metadata_path p) (ObjMetadata md) fs2 in
          if negb ok3 then (with_files st fs3, false)
          else
            (* Store metadata in memory *)
            ({| models := models st;
                model_performance := model_performance st;
                metadata := <[p := ObjMetadata md]> (metadata st);
                files := fs3 |}, true)
      end.

(** Load a saved model from disk. *)
Definition load_model (p : string) (st : State) : State * bool :=
  (* Check if all files exist *)
  match files st !! model_path p, files st !! performance_path p,
        files st !! metadata_path p with
  | Some fm, Some fp, Some fd =>
      match fm, fp, fd with
      | Pickle model, Pickle performance, Pickle md =>
          (* Store in memory *)
          ({| models := <[p := model]> (models st);
              model_performance := <[p := performance]> (model_performance st);
              metadata := <[p := md]> (metadata st);
              files := files st |}, true)
      | _, _, _ => (st, false)
      end
  | _, _, _ => (st, false)
  end.

(** Extract product name from filename. *)
Definition product_of_file (f : string) : string :=
  py_replace "_" " " (py_replace "_model.pkl" "" f).

Definition model_files (fs : gmap string file) : list string :=
  List.filter (fun f => py_endswith f "_model.pkl") (listdir fs models_dir).

(** Load all available saved models; the second component is
    [loaded_count]. *)
Definition load_all_models (st : State) : State * nat :=
  fold_left
    (fun (acc : State * nat) (model_file : string) =>
       let '(st', loaded_count) := acc in
       let '(st'', ok) := load_model (product_of_file model_file) st' in
       (st'', if ok then S loaded_count else loaded_count))
    (model_files (files st)) (st, 0%nat).

(** [__init__]: empty dicts, then [load_all_models]. *)
Definition init (fs : gmap string file) : State :=
  fst (load_all_models {| models := ∅; model_performance := ∅; metadata := ∅; files := fs |}).

(** [if os.path.exists(path): os.remove(path)]; [removable] tells
    whether the environment lets [os.remove] succeed. *)
Definition remove_file (removable : bool) (path : string) (fs : gmap string file)
  : gmap string file * bool :=
  match fs !! path with
  | Some _ => if removable then (delete path fs, true) else (fs, false)
  | None => (fs, true)
  end.

(** Delete a saved model from disk and memory. *)
Definition delete_model (p : string) (rm rp rd : bool) (st : State) : State * bool :=
  let '(fs1, ok1) := remove_file rm (model_path p) (files st) in
  if negb ok1 then (with_files st fs1, false)
  else
    let '(fs2, ok2) := remove_file rp (performance_path p) fs1 in
    if negb ok2 then (with_files st fs2, false)
    else
      let '(fs3, ok3) := remove_file rd (metadata_path p) fs2 in
      if negb ok3 then (with_files st fs3, false)
      else
        (* Remove from memory *)
        ({| models := delete p (models st);
            model_performance := delete p (model_performance st);
            metadata := delete p (metadata st);
            files := fs3 |}, true).

(** Get list of available pre-trained models.  (The directory exists:
    [__init__] creates it.) *)
Definition get_available_models (st : State) : list string :=
  List.map product_of_file (model_files (files st)).

(** Check if a pre-trained model exists for a product. *)
Definition model_exists (p : string) (st : State) : bool :=
  bool_decide (is_Some (files st !! model_path p)).

(** Train a Prophet model for a specific product. *)
Definition train_model (now : string) (data : list (Z * Q)) (p : string)
    (mode : string) (wm wp wd : write_result) (st : State)
  : State * (bool * string) :=
  match fit mode (95 # 100) data with
  | Raised e => (st, (false, "Error training model for " ++ p ++ ": " ++ e))
  | Returned model =>
      (* Store the model *)
      let st1 := {| models := <[p := ObjModel model]> (models st);
                    model_performance := model_performance st;
                    metadata := metadata st;
                    files := files st |} in
      (* Evaluate model performance *)
      let st2 := _evaluate_model model data p st1 in
      (* Save the model to disk *)
      let '(st3, _) := save_model now p model data wm wp wd st2 in
      (st3, (true, "Model trained successfully for " ++ p))
  end.

(** [product in self.models]: a forecast can be requested. *)
Definition has_model (st : State) (p : string) : Prop := is_Some (models st !! p).

(** *** Sequences of cache operations *)

Inductive op : Type :=
| Train (now : string) (data : list (Z * Q)) (p mode : string) (wm wp wd : write_result)
| Save (now : string) (p : string) (model : Model) (data : list (Z * Q))
       (wm wp wd : write_result)
| Load (p : string)
| LoadAll
| Delete (p : string) (rm rp rd : bool).

Definition apply_op (st : State) (o : op) : State :=
  match o with
  | Train now data p mode wm wp wd => fst (train_model now data p mode wm wp wd st)
  | Save now p model data wm wp wd => fst (save_model now p model data wm wp wd st)
  | Load p => fst (load_model p st)
  | LoadAll => fst (load_all_models st)
  | Delete p rm rp rd => fst (delete_model p rm rp rd st)
  end.

Definition run (ops : list op) (st : State) : State := fold_left apply_op ops st.

(** A train whose save goes through: data to describe and three
    successful writes. *)
Definition save_goes_through (o : op) : Prop :=
  match o with
  | Train _ data _ _ wm wp wd => data <> [] /\ wm = WriteOk /\ wp = WriteOk /\ wd = WriteOk
  | _ => True
  end.

(** Every key with a model has metrics / has metadata. *)
Definition metrics_for_models (st : State) : Prop :=
  dom (models st) ⊆ dom (model_performance st).
Definition metadata_for_models (st : State) : Prop :=
  dom (models st) ⊆ dom (metadata st).

End WithLibrary.
End Forecaster.

(** ** The optimizer as the specification words it

    These definitions follow the specification's sentences, not the
    code; the theorems below compare them with the embedding above. *)

Module Claimed.
Import Optimizer.
Local Open Scope Q_scope.

(** A production plan row: every derived value is computed from the
    unrounded intermediates, rounding is applied to the reported fields
    only. *)
Definition plan_row (unit_cost unit_price safety_stock_fraction capacity : Q)
    (row : Row) : PlanRow :=
  let demand := predicted_demand row in
  let adjusted_demand := demand * (1 + safety_stock_fraction) in
  let production := Qmin adjusted_demand capacity in
  let utilization := production / capacity * 100 in
  let cost := production * unit_cost in
  let revenue := production * unit_price in
  let margin :=
    if Qlt_le_dec 0 revenue then py_round ((revenue - cost) / revenue * 100) 1 else 0 in
  {| plan_date := date row;
     forecasted_demand := demand;
     optimal_production := py_round production 0;      (* whole units *)
     capacity_utilization := py_round utilization 1;   (* percentage, 1 decimal *)
     production_cost := py_round cost 2;               (* money, 2 decimals *)
     potential_revenue := py_round revenue 2;          (* money, 2 decimals *)
     profit_margin := margin |}.

(** The capacity resolution: the override if given, else the configured
    default, else the fallback constant. *)
Definition resolved_capacity (p : string) (capacity_override : option Q) : Q :=
  match capacity_override with
  | Some c => c
  | None =>
      match default_capacities !! p with
      | Some c => c
      | None => 1000
      end
  end.

(** The inventory pass: [todo] is the series from the current row on. *)
Fixpoint inventory_pass (shelf_life_days : nat) (storage_cost : Q)
    (todo : list Row) (current_stock : Q) : list InventoryRow :=
  match todo with
  | [] => []
  | row :: rest =>
      let demand_today := predicted_demand row in
      let lookahead_future_demand :=
        py_sum (List.map predicted_demand (firstn shelf_life_days (row :: rest))) in
      let optimal_stock :=
        Qmin lookahead_future_demand (demand_today * inject_Z (Z.of_nat shelf_life_days)) in
      let reorder := demand_today * 2 in
      let order :=
        if Qlt_le_dec current_stock reorder then optimal_stock - current_stock else 0 in
      let stock := py_max 0 (current_stock + order - demand_today) in
      {| inv_date := date row;
         current_inventory := py_round stock 0;
         inv_forecasted_demand := py_round demand_today 0;
         optimal_stock_level := py_round optimal_stock 0;
         reorder_point := py_round reorder 0;
         recommended_order := py_round order 0;
         daily_storage_cost := py_round (stock * storage_cost) 2;
         stock_status :=
           if Qlt_le_dec stock reorder then "Reorder Required"%string
           else if Qlt_le_dec optimal_stock stock then "Overstock"%string
           else "Optimal"%string |}
      :: inventory_pass shelf_life_days storage_cost rest stock
  end.

(** The total of one reported column over the plan of one product, with
    the defaults the summary uses; 0 when the product has no plan. *)
Definition product_total (column : PlanRow -> Q) (forecasts : option DataFrame)
    (p : string) : Q :=
  match calculate_optimal_production forecasts p default_safety_stock None with
  | Returned (Some plan) => py_sum (List.map column plan)
  | _ => 0
  end.

End Claimed.

(** ** Sample inputs *)

Module Samples.
Local Open Scope Q_scope.

(** Two products in one frame, numbered 0, 1, 2 as [pd.concat(...,
    ignore_index=True)] does. *)
Definition two_product_frame : DataFrame :=
  mkFrame true
    (range_index [mkRow 1 "Milk" 100; mkRow 1 "Butter" 5; mkRow 2 "Butter" 7]).

(** One product unknown to every configuration table. *)
Definition unknown_product_frame : DataFrame :=
  mkFrame true (range_index [mkRow 1 "Paneer" 40; mkRow 2 "Paneer" 0]).

(** A stand-in for the external libraries, to run the forecaster on
    concrete inputs: a "model" is the seasonality mode and the number of
    training rows, fitting needs two rows, every prediction is 50. *)
Definition mean_of (f : Q -> Q -> Q) (y_true y_pred : list Q) : outcome Q :=
  if (List.length y_true =? List.length y_pred)%nat
  then Returned (py_sum (List.map (fun ab => f (fst ab) (snd ab)) (combine y_true y_pred))
                 / inject_Z (Z.of_nat (List.length y_true)))
  else Raised "Found input variables with inconsistent numbers of samples".

Definition sample_sqrt (x : Q) : Q :=
  Qmake (Z.sqrt (Qnum x * Z.pos (Qden x) * 1000000)) (Qden x * 1000).

#[export] Instance sample_library : ForecastLibrary := {|
  Model := string * nat;
  fit mode _ data :=
    if (List.length data <? 2)%nat
    then Raised "Dataframe has less than 2 non-NaN rows"
    else Returned (mode, List.length data);
  seasonality_mode m := fst m;
  predict m n := Returned (repeat 50 (snd m + n));
  mean_absolute_error := mean_of (fun a b => Qabs (a - b));
  mean_squared_error := mean_of (fun a b => (a - b) * (a - b));
  mean_absolute_percentage_error := mean_of (fun a b => Qabs (a - b) / Qabs a);
  np_sqrt := sample_sqrt
|}.

(** A daily series of [n] points, all of demand 48. *)
Definition sample_series (n : nat) : list (Z * Q) :=
  List.map (fun i => (Z.of_nat i, 48)) (seq 0 n).

Definition empty_state : Forecaster.State :=
  Forecaster.mkState ∅ ∅ ∅ ∅.

(** A store holding the three entries of one product. *)
Definition stored_ghee : Forecaster.State :=
  Forecaster.mkState ∅ ∅ ∅
    (list_to_map
       [("models/Ghee_model.pkl"%string,
         Forecaster.Pickle (Forecaster.ObjModel ("additive"%string, 120%nat)));
        ("models/Ghee_performance.pkl"%string,
         Forecaster.Pickle (Forecaster.ObjPerformance Forecaster.NoMetrics));
        ("models/Ghee_metadata.pkl"%string,
         Forecaster.Pickle (Forecaster.ObjMetadata
           (Forecaster.mkMetadata "Ghee" "2024-01-01 00:00:00" 120 (0%Z, 119%Z))))]).

End Samples.
Import Samples.

(** ** [ProductionOptimizer]: utilization across products *)

Module Capacity.
Import Optimizer.
Local Open Scope Q_scope.
Local Open Scope string_scope.

Record UtilizationRow : Type := mkUtilizationRow {
  util_date : Z;
  total_production : Q;
  avg_utilization : Q;
  utilization_status : string
}.

(** Determine utilization status. *)
Definition _get_utilization_status (utilization : Q) : string :=
  if negb (Qle_bool 60 utilization) then "Under-utilized"
  else if negb (Qle_bool utilization 90) then "Over-utilized"
  else "Optimal".

(** [groupby('date')]: the groups are keyed by the distinct dates, in
    ascending order, and each keeps its rows in frame order.
    [add_to_group] files one row. *)
Fixpoint add_to_group (r : PlanRow) (groups : list (Z * list PlanRow))
  : list (Z * list PlanRow) :=
  match groups with
  | [] => [(plan_date r, [r])]
  | (d, rs) :: rest =>
      if (plan_date r <? d)%Z then (plan_date r, [r]) :: (d, rs) :: rest
      else if (plan_date r =? d)%Z then (d, (rs ++ [r])%list) :: rest
      else (d, rs) :: add_to_group r rest
  end.

Definition groupby_date (production_plan : list PlanRow) : list (Z * list PlanRow) :=
  fold_left (fun groups r => add_to_group r groups) production_plan [].

(** [.agg({'optimal_production': 'sum', 'capacity_utilization':
    'mean'})] on one group, and the row built from it. *)
Definition utilization_row (group : Z * list PlanRow) : UtilizationRow :=
  let total := py_sum (List.map optimal_production (snd group)) in
  let utilization := mean (List.map capacity_utilization (snd group)) in
  {| util_date := fst group;
     total_production := total;
     avg_utilization := py_round utilization 1;
     utilization_status := _get_utilization_status utilization |}.

(** Calculate overall capacity utilization across all products.
    [has_date_column] is ['date' in production_plan.columns];
    [custom_capacities] is read into [capacities], which the body never
    uses. *)
Definition calculate_capacity_utilization (production_plan : option (list PlanRow))
    (has_date_column : bool) (custom_capacities : option (gmap string Q))
  : option (list UtilizationRow) :=
  match production_plan with
  | None => None
  | Some plan =>
      if (List.length plan =? 0)%nat then None
      else
        let capacities :=
          match custom_capacities with
          | Some c => if bool_decide (c = ∅) then default_capacities else c
          | None => default_capacities
          end in
        (* Group by date *)
        if has_date_column
        then Some (List.map utilization_row (groupby_date plan))
        else Some []
  end.

(** The production held by a list of groups. *)
Definition groups_total (groups : list (Z * list PlanRow)) : Q :=
  py_sum (List.map (fun g => py_sum (List.map optimal_production (snd g))) groups).

End Capacity.

(** ** The loading loop, on any list of file names *)

Module CacheLoop.
Import Forecaster.

Section WithLibrary.
Context {lib : ForecastLibrary}.

(** The loop of [load_all_models], started from any state and
    count. *)
Definition load_each (names : list string) (acc : State * nat) : State * nat :=
  fold_left
    (fun (acc : State * nat) (model_file : string) =>
       let '(st', loaded_count) := acc in
       let '(st'', ok) := load_model (product_of_file model_file) st' in
       (st'', if ok then S loaded_count else loaded_count))
    names acc.

End WithLibrary.
End CacheLoop.

(** ** [DairyForecaster]: forecasts *)

(** One row of a Prophet forecast: the date and the three columns the
    forecaster reads. *)
Record ForecastRow : Type := mkForecastRow {
  ds : Z;
  yhat : Q;
  yhat_lower : Q;
  yhat_upper : Q
}.

(** [model.predict(model.make_future_dataframe(periods=n,
    include_history=h))], as a contract: it returns the forecast rows or
    raises. *)
Class PredictionLibrary {lib : ForecastLibrary} : Type := {
  predict_frame : Model -> nat -> bool -> outcome (list ForecastRow)
}.

Module Forecasts.
Import Forecaster.
Local Open Scope string_scope.

(** A row of [export_forecasts]: the renamed columns and the product. *)
Record ExportRow : Type := mkExportRow {
  ex_date : Z;
  ex_predicted_demand : Q;
  lower_bound : Q;
  upper_bound : Q;
  ex_product : string
}.

(** One entry of [get_forecast_summary]. *)
Record PeriodSummary : Type := mkPeriodSummary {
  total_demand : Q;
  avg_daily_demand : Q;
  max_daily_demand : Q;
  min_daily_demand : Q;
  trend : string;
  confidence_lower : Q;
  confidence_upper : Q
}.

Section WithLibrary.
Context {lib : ForecastLibrary} {plib : PredictionLibrary}.

(** [np.maximum(column, 0)] on the three columns. *)
Definition clamp_row (r : ForecastRow) : ForecastRow :=
  {| ds := ds r;
     yhat := py_max (yhat r) 0;
     yhat_lower := py_max (yhat_lower r) 0;
     yhat_upper := py_max (yhat_upper r) 0 |}.

(** Generate forecast for a specific product.  An entry of [models]
    that is not a model (only a load can store one) has no
    [make_future_dataframe]; the [AttributeError] is caught like any
    other. *)
Definition generate_forecast (p : string) (periods : nat) (include_history : bool)
    (st : State) : option (list ForecastRow) * string :=
  match models st !! p with
  | None => (None, "No trained model found for " ++ p)
  | Some (ObjModel model) =>
      match predict_frame model periods include_history with
      | Returned forecast =>
          (* Ensure non-negative predictions *)
          (Some (List.map clamp_row forecast), "Forecast generated successfully")
      | Raised e => (None, "Error generating forecast for " ++ p ++ ": " ++ e)
      end
  | Some _ =>
      (None, "Error generating forecast for " ++ p
             ++ ": 'dict' object has no attribute 'make_future_dataframe'")
  end.

(** [column.max()] and [column.min()] of a non-empty column. *)
Definition column_max (first : Q) (rest : list Q) : Q := fold_left py_max rest first.
Definition column_min (first : Q) (rest : list Q) : Q := fold_left py_min rest first.

(** The dict built from [future_forecast]; [iloc[-1]] and [iloc[0]]
    raise on an empty frame. *)
Definition summarize_forecast (future_forecast : list ForecastRow)
  : outcome PeriodSummary :=
  match future_forecast with
  | [] => Raised "IndexError: single positional indexer is out-of-bounds"
  | first :: rest =>
      let ys := List.map yhat future_forecast in
      Returned
        {| total_demand := py_sum ys;
           avg_daily_demand := Optimizer.mean ys;
           max_daily_demand := column_max (yhat first) (List.map yhat rest);
           min_daily_demand := column_min (yhat first) (List.map yhat rest);
           trend :=
             if negb (Qle_bool (yhat (List.last rest first)) (yhat first))
             then "increasing" else "decreasing";
           confidence_lower := py_sum (List.map yhat_lower future_forecast);
           confidence_upper := py_sum (List.map yhat_upper future_forecast) |}
  end.

(** [f'{periods}_days'] *)
Definition period_key (periods : nat) : string :=
  DecimalString.NilZero.string_of_uint (Nat.to_uint periods) ++ "_days".

(** [for periods in periods_list: ...] of [get_forecast_summary]. *)
Fixpoint summary_entries (p : string) (periods_list : list nat) (st : State)
    (summaries : gmap string PeriodSummary) : outcome (gmap string PeriodSummary) :=
  match periods_list with
  | [] => Returned summaries
  | periods :: rest =>
      match fst (generate_forecast p periods false st) with
      | Some forecast =>
          (* Get future predictions only *)
          let future_forecast := tail periods forecast in
          let! entry := summarize_forecast future_forecast in
          summary_entries p rest st (<[period_key periods := entry]> summaries)
      | None => summary_entries p rest st summaries
      end
  end.

(** Get forecast summary for multiple periods. *)
Definition get_forecast_summary (p : string) (periods_list : list nat) (st : State)
  : outcome (option (gmap string PeriodSummary)) :=
  match models st !! p with
  | None => Returned None
  | Some _ =>
      let! summaries := summary_entries p periods_list st ∅ in
      Returned (Some summaries)
  end.

(** The default of [periods_list]. *)
Definition default_periods_list : list nat := [7; 14; 30]%nat.

(** The renamed subset of one forecast, tagged with its product. *)
Definition export_rows (p : string) (forecast : list ForecastRow) : list ExportRow :=
  List.map (fun r => {| ex_date := ds r;
                        ex_predicted_demand := yhat r;
                        lower_bound := yhat_lower r;
                        upper_bound := yhat_upper r;
                        ex_product := p |}) forecast.

(** [for product in products: ...] of [export_forecasts]: the list
    [all_forecasts]. *)
Fixpoint all_forecasts (products : list string) (periods : nat) (st : State)
  : list (list ExportRow) :=
  match products with
  | [] => []
  | p :: rest =>
      match models st !! p with
      | Some _ =>
          match fst (generate_forecast p periods false st) with
          | Some forecast => export_rows p forecast :: all_forecasts rest periods st
          | None => all_forecasts rest periods st
          end
      | None => all_forecasts rest periods st
      end
  end.

(** Export forecasts for multiple products to a DataFrame:
    [pd.concat(all_forecasts, ignore_index=True)], or the empty frame
    [pd.DataFrame()], which has no column.  The result is the pair of
    "has columns" and the numbered rows. *)
Definition export_forecasts (products : list string) (periods : nat) (st : State)
  : bool * list (nat * ExportRow) :=
  match all_forecasts products periods st with
  | [] => (false, [])
  | frames =>
      let rows := List.concat frames in
      (true, combine (seq 0 (List.length rows)) rows)
  end.

(** An exported frame as the optimizer reads it: the columns [date],
    [product] and [predicted_demand]. *)
Definition as_forecasts (exported : bool * list (nat * ExportRow)) : DataFrame :=
  {| has_product_column := fst exported;
     rows := List.map (fun lr => (fst lr,
                                  {| date := ex_date (snd lr);
                                     product := ex_product (snd lr);
                                     predicted_demand := ex_predicted_demand (snd lr) |}))
               (snd exported) |}.

End WithLibrary.
End Forecasts.

(** ** [DataProcessor.prepare_prophet_data] *)

Module DataPrep.
Local Open Scope Q_scope.
Local Open Scope string_scope.

(** A record of the sales table; [Company] and [Revenue] are read only
    when the frame has these columns. *)
Record SalesRow : Type := mkSalesRow {
  Date : Z;
  Product : string;
  Company : string;
  Quantity_Sold : Q;
  Unit_Price : Q;
  Revenue : Q
}.

Record SalesFrame : Type := mkSalesFrame {
  has_company_column : bool;
  has_revenue_column : bool;
  sales : list SalesRow
}.

(** A row of the prepared frame; a price of [None] is NaN. *)
Record ProphetRow : Type := mkProphetRow {
  p_ds : Z;
  p_y : Q;
  p_unit_price : option Q;
  p_revenue : Q
}.

(** [if company:] *)
Definition company_given (company : option string) : bool :=
  match company with
  | Some c => negb (String.eqb c "")
  | None => false
  end.

(** Filter for specific product and company if provided; add Revenue
    if not already present. *)
Definition selected_sales (df : SalesFrame) (p : string) (company : option string)
  : list SalesRow :=
  let product_data :=
    List.filter
      (fun r => String.eqb (Product r) p
                && match company with
                   | Some c => if company_given company then String.eqb (Company r) c
                               else true
                   | None => true
                   end)
      (sales df) in
  if has_revenue_column df then product_data
  else List.map (fun r => {| Date := Date r; Product := Product r; Company := Company r;
                             Quantity_Sold := Quantity_Sold r; Unit_Price := Unit_Price r;
                             Revenue := Quantity_Sold r * Unit_Price r |}) product_data.

(** [groupby(['Date'])]: groups keyed by the distinct dates, ascending,
    rows in frame order. *)
Fixpoint add_sale (r : SalesRow) (groups : list (Z * list SalesRow))
  : list (Z * list SalesRow) :=
  match groups with
  | [] => [(Date r, [r])]
  | (d, rs) :: rest =>
      if (Date r <? d)%Z then (Date r, [r]) :: (d, rs) :: rest
      else if (Date r =? d)%Z then (d, (rs ++ [r])%list) :: rest
      else (d, rs) :: add_sale r rest
  end.

Definition groupby_Date (product_data : list SalesRow) : list (Z * list SalesRow) :=
  fold_left (fun groups r => add_sale r groups) product_data [].

(** The rows of one date, if the date has a group. *)
Fixpoint lookup_date (d : Z) (groups : list (Z * list SalesRow))
  : option (list SalesRow) :=
  match groups with
  | [] => None
  | (d', rs) :: rest => if (d' =? d)%Z then Some rs else lookup_date d rest
  end.

(** [pd.date_range(start, end, freq='D')] *)
Definition date_range (start stop : Z) : list Z :=
  List.map (fun i => (start + Z.of_nat i)%Z) (seq 0 (Z.to_nat (stop - start + 1))).

(** [fillna(method='ffill')] and [fillna(method='bfill')] *)
Fixpoint ffill (previous : option Q) (column : list (option Q)) : list (option Q) :=
  match column with
  | [] => []
  | x :: rest =>
      let v := match x with Some _ => x | None => previous end in
      v :: ffill v rest
  end.

Fixpoint bfill (column : list (option Q)) : list (option Q) :=
  match column with
  | [] => []
  | x :: rest =>
      let filled := bfill rest in
      match x with
      | Some _ => x
      | None => match filled with y :: _ => y | [] => None end
      end :: filled
  end.

(** Prepare data for Prophet modeling.  [pd.date_range] raises when the
    product has no record (its bounds are NaT); filtering on a company
    raises when the frame has no such column. *)
Definition prepare_prophet_data (df : SalesFrame) (p : string) (company : option string)
  : outcome (list ProphetRow) :=
  if company_given company && negb (has_company_column df)
  then Raised "KeyError: 'Company'"
  else
    let product_data := selected_sales df p company in
    (* Aggregate by date (in case multiple entries per day) *)
    let daily_data := groupby_Date product_data in
    match List.map fst daily_data with
    | [] => Raised "ValueError: Neither `start` nor `end` can be NaT"
    | d0 :: ds =>
        (* Ensure no missing dates *)
        let range := date_range (fold_left Z.min ds d0) (fold_left Z.max ds d0) in
        let cells := List.map (fun d => (d, lookup_date d daily_data)) range in
        (* Fill missing values *)
        let prices :=
          bfill (ffill None
                   (List.map (fun c => option_map
                                         (fun rs => Optimizer.mean (List.map Unit_Price rs))
                                         (snd c)) cells)) in
        Returned
          (List.map
             (fun cp =>
                let '((d, group), price) := cp in
                {| p_ds := d;
                   p_y := match group with
                          | Some rs => py_sum (List.map Quantity_Sold rs)
                          | None => 0
                          end;
                   p_unit_price := price;
                   p_revenue := match group with
                                | Some rs => py_sum (List.map Revenue rs)
                                | None => 0
                                end |})
             (combine cells prices))
    end.

(** The two columns Prophet reads: [ds] and [y]. *)
Definition training_series (prophet_data : list ProphetRow) : list (Z * Q) :=
  List.map (fun r => (p_ds r, p_y r)) prophet_data.

(** The rows of a date, as read from the groups. *)
Definition rows_of (d : Z) (groups : list (Z * list SalesRow)) : list SalesRow :=
  match lookup_date d groups with
  | Some rs => rs
  | None => []
  end.

End DataPrep.

(** ** More sample inputs *)

Module MoreSamples.
Local Open Scope Q_scope.

(** A stand-in prediction: after the history rows (when asked for),
    [n] future days whose point estimate falls by 20 a day from 30, with
    bounds 10 below and above. *)
Definition falling_forecast (start : nat) (n : nat) : list ForecastRow :=
  List.map (fun i => let y := 30 - 20 * inject_Z (Z.of_nat i) in
                     mkForecastRow (Z.of_nat (start + i)) y (y - 10) (y + 10))
    (seq 0 n).

#[export] Instance sample_predictions : PredictionLibrary (lib := sample_library) := {|
  predict_frame m n include_history :=
    Returned ((if include_history
               then List.map (fun i => mkForecastRow (Z.of_nat i) 48 40 56) (seq 0 (snd m))
               else []) ++ falling_forecast (snd m) n)
|}.

(** A forecaster holding one trained model. *)
Definition trained_milk : Forecaster.State :=
  fst (Forecaster.train_model (lib := sample_library) "2024-01-01 00:00:00"
         (sample_series 100) "Milk" "multiplicative"
         Forecaster.WriteOk Forecaster.WriteOk Forecaster.WriteOk empty_state).

(** Sales with two records on one day and a gap of two days. *)
Definition sample_sales : DataPrep.SalesFrame :=
  DataPrep.mkSalesFrame false false
    [DataPrep.mkSalesRow 1 "Milk" "" 10 25 0;
     DataPrep.mkSalesRow 2 "Butter" "" 3 450 0;
     DataPrep.mkSalesRow 1 "Milk" "" 5 27 0;
     DataPrep.mkSalesRow 4 "Milk" "" 7 26 0].

End MoreSamples.
Import MoreSamples.

(** ** The optimizer on binary64 floats

    The production plan and the inventory plan once more, now on the
    numbers the interpreter computes with: IEEE 754 binary64 values
    (Rocq's primitive floats), Python's [round] and Python's [min] and
    [max].  A whole number below 2^53 stands for the Python int of that
    value: the operations used here agree on them. *)

Module Binary64.
Import PrimFloat.
Local Open Scope string_scope.
Local Open Scope float_scope.

(** *** Python floats *)

(** [bool(x)]: the two zeros are falsy, NaN is truthy. *)
Definition truthy (x : float) : bool := negb (x =? 0).

(** [a / b]: raises [ZeroDivisionError] on a zero divisor. *)
Definition py_div (a b : float) : outcome float :=
  if b =? 0 then Raised "ZeroDivisionError" else Returned (a / b).

(** [min(a, b)]: the second argument is taken only when it is strictly
    smaller. *)
Definition py_min (a b : float) : float := if b <? a then b else a.

(** [max(a, b)]: the second argument is taken only when it is strictly
    larger. *)
Definition py_max (a b : float) : float := if a <? b then b else a.

(** The exact value of the finite float with sign [s], mantissa [m] and
    exponent [e]. *)
Definition exact_value (s : bool) (m : positive) (e : Z) : Q :=
  let v := (inject_Z (Z.pos m) * Qpower 2 e)%Q in
  if s then (- v)%Q else v.

(** The float nearest to [k / d], ties to even. *)
Definition nearest_quotient (s : bool) (k d : positive) : float :=
  SF2Prim (SFdiv prec emax (S754_finite s k 0) (S754_finite false d 0)).

(** [round(x, ndigits)] on a float: the exact value of [x] is rounded to
    the nearest multiple of [10^-ndigits], ties to even, and the float
    nearest to that decimal is returned; zeros, infinities and NaN are
    returned as they are. *)
Definition py_round (x : float) (ndigits : nat) : float :=
  match Prim2SF x with
  | S754_finite s m e =>
      let scale := (10 ^ Z.of_nat ndigits)%Z in
      match round_half_even (exact_value s m e * inject_Z scale) with
      | Z0 => if s then (-0)%float else 0%float
      | Zpos k => nearest_quotient false k (Z.to_pos scale)
      | Zneg k => nearest_quotient true k (Z.to_pos scale)
      end
  | _ => x
  end.

(** [float(n)] of a small natural number. *)
Definition float_of_nat (n : nat) : float :=
  match n with
  | O => 0
  | S _ => nearest_quotient false (Pos.of_nat n) 1
  end.

(** *** Frames *)

(** A row of a forecast frame.  The frame holds dates (and product
    names) beside its float64 demand column, so [iterrows] yields rows
    of mixed type, in which the demand is a Python float. *)
Record Row : Type := mkRow {
  date : Z;                (* column 'date' (or 'ds'), as a day number *)
  product : string;        (* column 'product', when the frame has it *)
  predicted_demand : float (* column 'predicted_demand' (or 'yhat'), float64 *)
}.

Record DataFrame : Type := mkFrame {
  has_product_column : bool;
  rows : list (nat * Row)
}.

Definition range_index (l : list Row) : list (nat * Row) :=
  combine (seq 0 (List.length l)) l.

Definition select_product (forecasts : DataFrame) (p : string) : list (nat * Row) :=
  if has_product_column forecasts
  then List.filter (fun lr => String.eqb (product (snd lr)) p) (rows forecasts)
  else rows forecasts.

(** The two pandas calls whose result the source does not fix: the
    order in which [sort_values] leaves rows of equal date (its default
    is an unstable quicksort), and the order in which [sum] adds the
    values of a column. *)
Class Pandas : Type := {
  sort_values : list (nat * Row) -> list (nat * Row);
  column_sum : list float -> float
}.

(** *** [ProductionOptimizer] *)

Definition default_capacities : gmap string float :=
  list_to_map
    [("Milk", 2000); ("Butter", 500); ("Cheese", 400); ("Yogurt", 800); ("Ghee", 300)].

Definition production_costs : gmap string float :=
  list_to_map
    [("Milk", 15); ("Butter", 300); ("Cheese", 250); ("Yogurt", 50); ("Ghee", 400)].

Definition storage_costs : gmap string float :=
  list_to_map
    [("Milk", 0.5); ("Butter", 2); ("Cheese", 3); ("Yogurt", 1); ("Ghee", 2.5)].

Definition price_estimates : gmap string float :=
  list_to_map
    [("Milk", 25); ("Butter", 450); ("Cheese", 350); ("Yogurt", 80); ("Ghee", 600)].

(** Estimate average selling price for a product. *)
Definition _estimate_price (p : string) : float := dict_get price_estimates p 100.

Record PlanRow : Type := mkPlanRow {
  plan_date : Z;
  forecasted_demand : float;
  optimal_production : float;
  capacity_utilization : float;
  production_cost : float;
  potential_revenue : float;
  profit_margin : float
}.

(** [custom_capacity or self.default_capacities.get(product, 1000)] *)
Definition capacity_of (p : string) (custom_capacity : option float) : float :=
  match custom_capacity with
  | Some c => if truthy c then c else dict_get default_capacities p 1000
  | None => dict_get default_capacities p 1000
  end.

(** The body of the loop of [calculate_optimal_production], for one row. *)
Definition production_row (p : string) (safety_stock capacity : float) (row : Row)
  : outcome PlanRow :=
  let forecast_demand := predicted_demand row in
  (* Add safety stock *)
  let adjusted_demand := forecast_demand * (1 + safety_stock) in
  (* Apply capacity constraint *)
  let production_qty := py_min adjusted_demand capacity in
  (* Calculate utilization *)
  let! ratio := py_div production_qty capacity in
  let utilization := ratio * 100 in
  (* Calculate costs *)
  let prod_cost := production_qty * dict_get production_costs p 0 in
  (* Calculate potential revenue (using average price) *)
  let avg_price := _estimate_price p in
  let revenue := production_qty * avg_price in
  let! margin :=
    if 0 <? revenue
    then (let! m := py_div (revenue - prod_cost) revenue in
          Returned (py_round (m * 100) 1))
    else Returned 0 in
  Returned {| plan_date := date row;
              forecasted_demand := forecast_demand;
              optimal_production := py_round production_qty 0;
              capacity_utilization := py_round utilization 1;
              production_cost := py_round prod_cost 2;
              potential_revenue := py_round revenue 2;
              profit_margin := margin |}.

(** [for _, row in product_forecasts.iterrows(): ... append(...)]. *)
Fixpoint production_loop (p : string) (safety_stock capacity : float)
    (todo : list (nat * Row)) (plan : list PlanRow) : outcome (list PlanRow) :=
  match todo with
  | [] => Returned plan
  | (_, row) :: rest =>
      let! r := production_row p safety_stock capacity row in
      production_loop p safety_stock capacity rest (plan ++ [r])
  end.

(** Calculate optimal production quantities based on forecasts. *)
Definition calculate_optimal_production {pandas : Pandas} (forecasts : option DataFrame)
    (p : string) (safety_stock : float) (custom_capacity : option float)
  : outcome (option (list PlanRow)) :=
  match forecasts with
  | None => Returned None
  | Some df =>
      if (List.length (rows df) =? 0)%nat then Returned None
      else
        (* Get capacity constraint *)
        let capacity := capacity_of p custom_capacity in
        (* Get forecasts for the product *)
        let product_forecasts := select_product df p in
        if (List.length product_forecasts =? 0)%nat then Returned None
        else
          (* Sort by date *)
          let sorted := sort_values product_forecasts in
          let! plan := production_loop p safety_stock capacity sorted [] in
          Returned (Some plan)
  end.

(** *** Inventory *)

(** A number of the inventory loop.  The values read from a row and the
    parameters are Python floats; [Series.sum()] returns a numpy
    [float64] scalar, arithmetic that involves a numpy scalar returns
    one, and [round] on a numpy scalar is numpy's, not Python's. *)
Inductive number : Type :=
| PyFloat (x : float)
| NpFloat (x : float).

Definition value (a : number) : float :=
  match a with
  | PyFloat x => x
  | NpFloat x => x
  end.

(** A binary operation: the result is a numpy scalar as soon as one
    operand is. *)
Definition binary (op : float -> float -> float) (a b : number) : number :=
  match a, b with
  | PyFloat x, PyFloat y => PyFloat (op x y)
  | _, _ => NpFloat (op (value a) (value b))
  end.

Definition num_lt (a b : number) : bool := value a <? value b.

(** [min(a, b)] and [max(a, b)] return one of their arguments. *)
Definition num_min (a b : number) : number := if num_lt b a then b else a.
Definition num_max (a b : number) : number := if num_lt a b then b else a.

(** numpy's [round(x, decimals)]: [rint(x)] for no decimals, else
    [rint(x * 10^decimals) / 10^decimals], each step a float operation. *)
Definition np_round (x : float) (decimals : nat) : float :=
  match decimals with
  | O => py_round x 0
  | S _ =>
      let f := nearest_quotient false (Pos.of_nat (10 ^ decimals)) 1 in
      py_round (x * f) 0 / f
  end.

(** [round(a, ndigits)], as a float value. *)
Definition num_round (a : number) (ndigits : nat) : float :=
  match a with
  | PyFloat x => py_round x ndigits
  | NpFloat x => np_round x ndigits
  end.

Record InventoryRow : Type := mkInventoryRow {
  inv_date : Z;
  current_inventory : float;
  inv_forecasted_demand : float;
  optimal_stock_level : float;
  reorder_point : float;
  recommended_order : float;
  daily_storage_cost : float;
  stock_status : string
}.

(** Calculate total demand for next N days. *)
Definition _calculate_future_demand {pandas : Pandas} (forecasts : list (nat * Row))
    (current_index days : nat) : number :=
  let end_index := Nat.min (current_index + days) (List.length forecasts) in
  let future_data := Optimizer.iloc forecasts current_index end_index in
  NpFloat (column_sum (List.map (fun lr => predicted_demand (snd lr)) future_data)).

(** Determine stock status based on levels. *)
Definition _get_stock_status (current_stock reorder optimal_stock : number) : string :=
  if num_lt current_stock reorder then "Reorder Required"
  else if num_lt optimal_stock current_stock then "Overstock"
  else "Optimal".

(** The loop of [calculate_inventory_optimization]: [i] is the index
    label that [iterrows] yields, [current_stock] the running stock. *)
Fixpoint inventory_loop {pandas : Pandas} (product_forecasts : list (nat * Row))
    (shelf_life_days : nat) (storage_cost_per_day : float)
    (todo : list (nat * Row)) (current_stock : number) (inventory_plan : list InventoryRow)
  : list InventoryRow :=
  match todo with
  | [] => inventory_plan
  | (i, row) :: rest =>
      let demand := PyFloat (predicted_demand row) in
      (* Calculate optimal stock level (considering shelf life) *)
      let future_demand := _calculate_future_demand product_forecasts i shelf_life_days in
      let optimal_stock :=
        num_min future_demand
          (binary mul demand (PyFloat (float_of_nat shelf_life_days))) in
      (* Calculate reorder point: 2 days safety stock *)
      let reorder := binary mul demand (PyFloat 2) in
      (* Calculate recommended order quantity *)
      let order_qty :=
        if num_lt current_stock reorder then binary sub optimal_stock current_stock
        else PyFloat 0 in
      (* Update current stock *)
      let current_stock' :=
        num_max (PyFloat 0) (binary sub (binary add current_stock order_qty) demand) in
      (* Calculate storage cost *)
      let storage := binary mul current_stock' (PyFloat storage_cost_per_day) in
      inventory_loop product_forecasts shelf_life_days storage_cost_per_day rest
        current_stock'
        (inventory_plan ++
           [{| inv_date := date row;
               current_inventory := num_round current_stock' 0;
               inv_forecasted_demand := num_round demand 0;
               optimal_stock_level := num_round optimal_stock 0;
               reorder_point := num_round reorder 0;
               recommended_order := num_round order_qty 0;
               daily_storage_cost := num_round storage 2;
               stock_status := _get_stock_status current_stock' reorder optimal_stock |}])
  end.

(** Calculate optimal inventory levels to minimize waste and stockouts. *)
Definition calculate_inventory_optimization {pandas : Pandas}
    (forecasts : option DataFrame) (p : string) (current_inventory0 : float)
  : option (list InventoryRow) :=
  match forecasts with
  | None => None
  | Some df =>
      if (List.length (rows df) =? 0)%nat then None
      else
        let product_forecasts := select_product df p in
        if (List.length product_forecasts =? 0)%nat then None
        else
          let shelf_life_days := dict_get Optimizer.shelf_life p 30%nat in
          let storage_cost_per_day := dict_get storage_costs p 1 in
          Some (inventory_loop product_forecasts shelf_life_days storage_cost_per_day
                  product_forecasts (PyFloat current_inventory0) [])
  end.

End Binary64.

(** ** The rows the specification describes, on binary64 floats *)

Module Claimed64.
Import PrimFloat Binary64.
Local Open Scope string_scope.
Local Open Scope float_scope.

(** A production plan row: every derived value is computed from the
    unrounded intermediates, rounding is applied to the reported fields
    only. *)
Definition plan_row (unit_cost unit_price safety_stock_fraction capacity : float)
    (row : Row) : PlanRow :=
  let demand := predicted_demand row in
  let adjusted_demand := demand * (1 + safety_stock_fraction) in
  let production := py_min adjusted_demand capacity in
  let utilization := production / capacity * 100 in
  let cost := production * unit_cost in
  let revenue := production * unit_price in
  let margin :=
    if 0 <? revenue then py_round ((revenue - cost) / revenue * 100) 1 else 0 in
  {| plan_date := date row;
     forecasted_demand := demand;
     optimal_production := py_round production 0;      (* whole units *)
     capacity_utilization := py_round utilization 1;   (* percentage, 1 decimal *)
     production_cost := py_round cost 2;               (* money, 2 decimals *)
     potential_revenue := py_round revenue 2;          (* money, 2 decimals *)
     profit_margin := margin |}.

(** The inventory pass: [todo] is the series from the current row on,
    and the lookahead is the sum over its first [shelf_life_days] rows. *)
Fixpoint inventory_pass {pandas : Pandas} (shelf_life_days : nat) (storage_cost : float)
    (todo : list Row) (current_stock : number) : list InventoryRow :=
  match todo with
  | [] => []
  | row :: rest =>
      let demand_today := PyFloat (predicted_demand row) in
      let lookahead_future_demand :=
        NpFloat (column_sum
                   (List.map predicted_demand (firstn shelf_life_days (row :: rest)))) in
      let optimal_stock :=
        num_min lookahead_future_demand
          (binary mul demand_today (PyFloat (float_of_nat shelf_life_days))) in
      let reorder := binary mul demand_today (PyFloat 2) in
      let order :=
        if num_lt current_stock reorder then binary sub optimal_stock current_stock
        else PyFloat 0 in
      let stock :=
        num_max (PyFloat 0) (binary sub (binary add current_stock order) demand_today) in
      {| inv_date := date row;
         current_inventory := num_round stock 0;
         inv_forecasted_demand := num_round demand_today 0;
         optimal_stock_level := num_round optimal_stock 0;
         reorder_point := num_round reorder 0;
         recommended_order := num_round order 0;
         daily_storage_cost := num_round (binary mul stock (PyFloat storage_cost)) 2;
         stock_status :=
           if num_lt stock reorder then "Reorder Required"
           else if num_lt optimal_stock stock then "Overstock"
           else "Optimal" |}
      :: inventory_pass shelf_life_days storage_cost rest stock
  end.

End Claimed64.

Module Samples64.
Import PrimFloat Binary64.
Local Open Scope string_scope.
Local Open Scope float_scope.

(** A stand-in for pandas, to run the optimizer on concrete frames: a
    stable insertion sort, and a sum that adds from left to right. *)
Fixpoint insert_by_date (x : nat * Row) (l : list (nat * Row)) : list (nat * Row) :=
  match l with
  | [] => [x]
  | y :: l' =>
      if (date (snd x) <? date (snd y))%Z then x :: y :: l'
      else y :: insert_by_date x l'
  end.

#[export] Instance sample_pandas : Pandas := {|
  sort_values l := fold_right insert_by_date [] (rev l);
  column_sum l := fold_left add l 0
|}.

(** Two products in one frame, numbered 0, 1, 2. *)
Definition two_product_frame : DataFrame :=
  mkFrame true
    (range_index [mkRow 1 "Milk" 100; mkRow 2 "Butter" 55; mkRow 1 "Butter" 7]).

End Samples64.

(** * Properties *)

(** ** Arithmetic helpers *)

Section NumFacts.
Local Open Scope Q_scope.

Lemma Qle_bool_false (a b : Q) : Qle_bool a b = false <-> b < a.
Proof.
  split.
  - intros H. apply Qnot_le_lt. intros Hle. apply Qle_bool_iff in Hle. congruence.
  - intros H. destruct (Qle_bool a b) eqn:E; [|reflexivity].
    apply Qle_bool_iff in E. exfalso. exact (Qlt_not_le _ _ H E).
Qed.

Lemma py_min_Qmin (a b : Q) : py_min a b = Qmin a b.
Proof.
  unfold py_min. destruct (Qle_bool a b) eqn:E.
  - apply Qle_bool_iff in E. unfold Qmin, GenericMinMax.gmin.
    destruct (Qcompare a b) eqn:C; try reflexivity.
    apply Qgt_alt in C. exfalso. exact (Qlt_not_le _ _ C E).
  - apply Qle_bool_false in E. unfold Qmin, GenericMinMax.gmin.
    apply Qgt_alt in E. now rewrite E.
Qed.

Lemma py_max_Qmax (a b : Q) : py_max a b == Qmax a b.
Proof.
  unfold py_max. destruct (Qle_bool b a) eqn:E.
  - apply Qle_bool_iff in E. symmetry. now apply Q.max_l.
  - apply Qle_bool_false in E. symmetry. apply Q.max_r. now apply Qlt_le_weak.
Qed.

Lemma py_min_le_r (a b : Q) : py_min a b <= b.
Proof. rewrite py_min_Qmin. apply Q.le_min_r. Qed.

Lemma py_min_glb (a b c : Q) : c <= a -> c <= b -> c <= py_min a b.
Proof. intros. rewrite py_min_Qmin. now apply Q.min_glb. Qed.

Lemma py_div_returns (a b : Q) : ~ b == 0 -> py_div a b = Returned (a / b).
Proof.
  intros H. unfold py_div. destruct (Qeq_bool b 0) eqn:E; [|reflexivity].
  apply Qeq_bool_iff in E. contradiction.
Qed.

Lemma truthy_nonzero (c : Q) : truthy c = true <-> ~ c == 0.
Proof.
  unfold truthy. rewrite negb_true_iff. split.
  - intros E H. apply Qeq_bool_iff in H. congruence.
  - intros H. destruct (Qeq_bool c 0) eqn:E; [|reflexivity].
    apply Qeq_bool_iff in E. contradiction.
Qed.

(** The fractional part left by [Qfloor]. *)
Lemma Qfloor_frac (x : Q) :
  0 <= x - inject_Z (Qfloor x) /\ x - inject_Z (Qfloor x) < 1.
Proof.
  pose proof (Qfloor_le x) as Hl. pose proof (Qlt_floor x) as Hu.
  rewrite inject_Z_plus in Hu. change (inject_Z 1) with 1 in Hu.
  split; lra.
Qed.

Lemma round_half_even_cases (x : Q) :
  round_half_even x = Qfloor x
  \/ (round_half_even x = (Qfloor x + 1)%Z /\ (1 # 2) <= x - inject_Z (Qfloor x)).
Proof.
  unfold round_half_even.
  destruct (Qcompare (x - inject_Z (Qfloor x)) (1 # 2)) eqn:C.
  - apply Qeq_alt in C. destruct (Z.even (Qfloor x)); [now left|right].
    split; [reflexivity|]. lra.
  - now left.
  - apply Qgt_alt in C. right. split; [reflexivity|]. lra.
Qed.

Lemma round_half_even_ge (x : Q) (lo : Z) :
  inject_Z lo <= x -> (lo <= round_half_even x)%Z.
Proof.
  intros H. assert (lo <= Qfloor x)%Z as Hf.
  { rewrite <- (Qfloor_Z lo). now apply Qfloor_resp_le. }
  destruct (round_half_even_cases x) as [-> | [-> _]]; lia.
Qed.

Lemma round_half_even_le (x : Q) (hi : Z) :
  x <= inject_Z hi -> (round_half_even x <= hi)%Z.
Proof.
  intros H. assert (Qfloor x <= hi)%Z as Hf.
  { rewrite <- (Qfloor_Z hi). now apply Qfloor_resp_le. }
  destruct (round_half_even_cases x) as [-> | [-> Hfrac]]; [exact Hf|].
  assert (inject_Z (Qfloor x) < inject_Z hi) as Hlt by lra.
  rewrite <- Zlt_Qlt in Hlt. lia.
Qed.

(** A value below one half is never rounded up to a positive integer. *)
Lemma round_half_even_pos_inv (x : Q) :
  (0 < round_half_even x)%Z -> (1 # 2) <= x.
Proof.
  intros Hpos. apply Qnot_lt_le. intros Hlt.
  destruct (Qlt_le_dec x 0) as [Hneg | Hnn].
  - pose proof (round_half_even_le x 0 (Qlt_le_weak _ _ Hneg)). lia.
  - assert (Qfloor x = 0%Z) as Hf.
    { apply Z.le_antisymm.
      - assert (Qfloor x < 1)%Z; [|lia].
        rewrite Zlt_Qlt. pose proof (Qfloor_le x). change (inject_Z 1) with 1. lra.
      - rewrite <- (Qfloor_Z 0). now apply Qfloor_resp_le. }
    destruct (round_half_even_cases x) as [E | [_ Hfrac]].
    + rewrite E, Hf in Hpos. lia.
    + rewrite Hf in Hfrac. change (inject_Z 0) with 0 in Hfrac. lra.
Qed.

(** Rounding an integer leaves it alone. *)
Lemma round_half_even_Z (x : Q) (z : Z) : x == inject_Z z -> round_half_even x = z.
Proof.
  intros H. assert (Qfloor x = z) as Hf by (rewrite H; apply Qfloor_Z).
  unfold round_half_even. rewrite Hf.
  assert (Qcompare (x - inject_Z z) (1 # 2) = Lt) as ->; [|reflexivity].
  apply (proj1 (Qlt_alt _ _)). lra.
Qed.

Lemma py_round_0 (x : Q) : py_round x 0 = inject_Z (round_half_even (x * 1)).
Proof. reflexivity. Qed.

End NumFacts.

(** ** Facts about the production plan *)

Section ProductionFacts.
Import Optimizer.
Local Open Scope Q_scope.

Lemma default_capacity_nonzero (p : string) : ~ dict_get default_capacities p 1000 == 0.
Proof.
  unfold dict_get. destruct (default_capacities !! p) as [c|] eqn:E; [|discriminate].
  apply elem_of_list_to_map_2 in E.
  repeat (apply elem_of_cons in E; destruct E as [E|E];
          [inversion E; subst; discriminate|]).
  inversion E.
Qed.

(** The capacity that [calculate_optimal_production] divides by is never
    zero: a zero override is falsy and gives way to the default. *)
Lemma capacity_of_nonzero (p : string) (custom_capacity : option Q) :
  ~ capacity_of p custom_capacity == 0.
Proof.
  unfold capacity_of. destruct custom_capacity as [c|].
  - destruct (truthy c) eqn:E.
    + now apply truthy_nonzero.
    + apply default_capacity_nonzero.
  - apply default_capacity_nonzero.
Qed.

Lemma production_row_returns (p : string) (s cap : Q) (row : Row) :
  ~ cap == 0 ->
  production_row p s cap row =
  Returned (Claimed.plan_row (dict_get production_costs p 0) (_estimate_price p) s cap row).
Proof.
  intros Hcap. unfold production_row, Claimed.plan_row.
  rewrite (py_div_returns _ _ Hcap). cbn [bind]. rewrite py_min_Qmin.
  set (qty := Qmin _ cap).
  destruct (Qle_bool (qty * _estimate_price p) 0) eqn:E; cbn [negb bind].
  - apply Qle_bool_iff in E.
    destruct (Qlt_le_dec 0 (qty * _estimate_price p)) as [Hlt|Hle]; [|reflexivity].
    exfalso. exact (Qlt_not_le _ _ Hlt E).
  - apply Qle_bool_false in E.
    rewrite py_div_returns by (intros H0; rewrite H0 in E; discriminate E).
    cbn [bind].
    destruct (Qlt_le_dec 0 (qty * _estimate_price p)) as [Hlt|Hle]; [reflexivity|].
    exfalso. exact (Qlt_not_le _ _ E Hle).
Qed.

Lemma production_loop_returns (p : string) (s cap : Q) (todo : list (nat * Row)) :
  ~ cap == 0 ->
  forall plan,
    production_loop p s cap todo plan =
    Returned (plan ++ List.map
                (Claimed.plan_row (dict_get production_costs p 0) (_estimate_price p) s cap)
                (List.map snd todo)).
Proof.
  intros Hcap. induction todo as [|[i row] rest IH]; intros plan; cbn [production_loop].
  - now rewrite app_nil_r.
  - rewrite (production_row_returns _ _ _ _ Hcap). cbn [bind].
    rewrite IH, <- app_assoc. reflexivity.
Qed.

Lemma insert_by_date_perm (x : nat * Row) (l : list (nat * Row)) :
  Permutation (insert_by_date x l) (x :: l).
Proof.
  induction l as [|y l IH]; cbn [insert_by_date]; [reflexivity|].
  destruct (date (snd x) <? date (snd y))%Z; [reflexivity|].
  rewrite IH. apply perm_swap.
Qed.

(** Sorting only reorders the rows. *)
Lemma sort_values_perm (l : list (nat * Row)) : Permutation (sort_values l) l.
Proof.
  unfold sort_values. rewrite (Permutation_rev l) at 2.
  induction (rev l) as [|x r IH]; cbn [fold_right]; [reflexivity|].
  rewrite insert_by_date_perm. now constructor.
Qed.

Lemma insert_by_date_hd (x y : nat * Row) (l : list (nat * Row)) :
  HdRel (fun a b => (date (snd a) <= date (snd b))%Z) y l ->
  (date (snd y) <= date (snd x))%Z ->
  HdRel (fun a b => (date (snd a) <= date (snd b))%Z) y (insert_by_date x l).
Proof.
  intros Hhd Hyx. destruct l as [|z l]; cbn [insert_by_date]; [now constructor|].
  destruct (date (snd x) <? date (snd z))%Z; [now constructor|].
  inversion Hhd; subst. now constructor.
Qed.

Lemma insert_by_date_sorted (x : nat * Row) (l : list (nat * Row)) :
  Sorted (fun a b => (date (snd a) <= date (snd b))%Z) l ->
  Sorted (fun a b => (date (snd a) <= date (snd b))%Z) (insert_by_date x l).
Proof.
  induction l as [|y l IH]; intros Hs; cbn [insert_by_date].
  - repeat constructor.
  - destruct (Z.ltb_spec (date (snd x)) (date (snd y))) as [Hlt|Hge].
    + constructor; [exact Hs|]. constructor. lia.
    + inversion Hs as [|? ? Hs' Hhd]; subst.
      constructor; [now apply IH|]. now apply insert_by_date_hd.
Qed.

(** The plan is computed on rows in ascending date order. *)
Lemma sort_values_sorted (l : list (nat * Row)) :
  Sorted (fun a b => (date (snd a) <= date (snd b))%Z) (sort_values l).
Proof.
  unfold sort_values. induction (rev l) as [|x r IH]; cbn [fold_right].
  - constructor.
  - now apply insert_by_date_sorted.
Qed.

Lemma select_product_nonempty (df : DataFrame) (p : string) :
  select_product df p <> [] -> rows df <> [].
Proof.
  unfold select_product. intros H E. rewrite E in H.
  destruct (has_product_column df); now apply H.
Qed.

(** The plan of a non-empty selection, in closed form. *)
Lemma calculate_optimal_production_eq (df : DataFrame) (p : string) (s : Q)
    (custom_capacity : option Q) :
  select_product df p <> [] ->
  calculate_optimal_production (Some df) p s custom_capacity =
  Returned (Some (List.map
    (Claimed.plan_row (dict_get production_costs p 0) (_estimate_price p) s
       (capacity_of p custom_capacity))
    (List.map snd (sort_values (select_product df p))))).
Proof.
  intros Hsel. pose proof (select_product_nonempty _ _ Hsel) as Hrows.
  unfold calculate_optimal_production.
  destruct (rows df) as [|r0 rs] eqn:Er; [contradiction|]. cbn [List.length Nat.eqb].
  destruct (select_product df p) as [|s0 ss] eqn:Es; [contradiction|].
  cbn [List.length Nat.eqb].
  rewrite (production_loop_returns _ _ _ _ (capacity_of_nonzero p custom_capacity)).
  reflexivity.
Qed.

(** [calculate_optimal_production] never raises. *)
Lemma calculate_optimal_production_returns (forecasts : option DataFrame) (p : string)
    (s : Q) (custom_capacity : option Q) :
  returns (calculate_optimal_production forecasts p s custom_capacity).
Proof.
  destruct forecasts as [df|]; [|eexists; reflexivity].
  destruct (select_product df p) as [|s0 ss] eqn:Es.
  - unfold calculate_optimal_production. rewrite Es.
    destruct (List.length (rows df) =? 0)%nat; eexists; reflexivity.
  - rewrite calculate_optimal_production_eq by (rewrite Es; discriminate).
    eexists; reflexivity.
Qed.

End ProductionFacts.

(** ** Production plan: the claims *)

Section ProductionClaims.
Import Optimizer.
Local Open Scope Q_scope.

(** C8, as stated, fails: an override of 0 is given, yet the rows are
    computed against the default capacity of the product (2000 for
    Milk): 110 units are planned at 5.5% utilization. *)
Lemma C8_zero_override_not_used :
  capacity_of "Milk" (Some 0) = 2000
  /\ ~ capacity_of "Milk" (Some 0) == Claimed.resolved_capacity "Milk" (Some 0)
  /\ calculate_optimal_production (Some two_product_frame) "Milk" (1 # 10) (Some 0)
     = Returned (Some [Claimed.plan_row 15 25 (1 # 10) 2000 (mkRow 1 "Milk" 100)])
  /\ List.map (fun r => (optimal_production r, capacity_utilization r))
       [Claimed.plan_row 15 25 (1 # 10) 2000 (mkRow 1 "Milk" 100)]
     = [(110, 5.5)].
Proof.
  split; [reflexivity|]. split; [vm_compute; discriminate|].
  split; reflexivity.
Qed.

(** C8, amended.  The capacity used in every row is the override
    whenever one is given and is not zero; otherwise (no override, or a
    zero one) the product's configured default daily capacity; otherwise
    (product not in the table) the fallback constant 1000. *)
Theorem C8_capacity_resolution (df : DataFrame) (p : string) (s : Q)
    (custom_capacity : option Q) :
  select_product df p <> [] ->
  exists cap,
    calculate_optimal_production (Some df) p s custom_capacity
    = Returned (Some (List.map
        (Claimed.plan_row (dict_get production_costs p 0) (_estimate_price p) s cap)
        (List.map snd (sort_values (select_product df p)))))
    /\ (forall c, custom_capacity = Some c -> ~ c == 0 -> cap = c)
    /\ ((custom_capacity = None \/ exists c, custom_capacity = Some c /\ c == 0) ->
        (forall d, default_capacities !! p = Some d -> cap = d)
        /\ (default_capacities !! p = None -> cap = 1000)).
Proof.
  intros Hsel. exists (capacity_of p custom_capacity).
  split; [now apply calculate_optimal_production_eq|]. split.
  - intros c -> Hc. unfold capacity_of.
    apply truthy_nonzero in Hc. now rewrite Hc.
  - intros Hnone.
    assert (capacity_of p custom_capacity = dict_get default_capacities p 1000) as ->.
    { destruct Hnone as [-> | [c [-> Hc]]]; [reflexivity|].
      unfold capacity_of. destruct (truthy c) eqn:E; [|reflexivity].
      apply truthy_nonzero in E. contradiction. }
    unfold dict_get. split.
    + intros d ->. reflexivity.
    + intros ->. reflexivity.
Qed.

Lemma C8_capacity_resolution_witness :
  exists cap,
    calculate_optimal_production (Some two_product_frame) "Milk" (1 # 10) (Some 80)
    = Returned (Some (List.map
        (Claimed.plan_row (dict_get production_costs "Milk" 0) (_estimate_price "Milk")
           (1 # 10) cap)
        (List.map snd (sort_values (select_product two_product_frame "Milk")))))
    /\ (forall c, Some 80 = Some c -> ~ c == 0 -> cap = c)
    /\ ((Some 80 = None \/ exists c, Some 80 = Some c /\ c == 0) ->
        (forall d, default_capacities !! "Milk" = Some d -> cap = d)
        /\ (default_capacities !! "Milk" = None -> cap = 1000)).
Proof.
  apply (C8_capacity_resolution two_product_frame "Milk" (1 # 10) (Some 80)).
  vm_compute. discriminate.
Defined.

End ProductionClaims.

(** ** The production plan on binary64 floats *)

Section Binary64Facts.
Import PrimFloat Binary64.
Local Open Scope float_scope.

(** A float above zero is not a zero. *)
Lemma float_positive_nonzero (r : float) : (0 <? r) = true -> (r =? 0) = false.
Proof.
  rewrite FloatAxioms.ltb_spec, FloatAxioms.eqb_spec.
  change (Prim2SF 0) with (S754_zero false).
  destruct (Prim2SF r) as [s|s| |s m e]; cbn; try discriminate; destruct s; auto.
Qed.

Lemma float_default_capacity_nonzero (p : string) :
  (dict_get default_capacities p 1000 =? 0) = false.
Proof.
  unfold dict_get. destruct (default_capacities !! p) as [c|] eqn:E; [|reflexivity].
  apply elem_of_list_to_map_2 in E.
  repeat (apply elem_of_cons in E; destruct E as [E|E];
          [inversion E; subst; reflexivity|]).
  inversion E.
Qed.

(** With a capacity that is not zero neither division raises, and the
    loop body computes the row of the specification. *)
Lemma float_production_row (p : string) (s cap : float) (row : Row) :
  (cap =? 0) = false ->
  production_row p s cap row =
  Returned (Claimed64.plan_row (dict_get production_costs p 0) (_estimate_price p) s cap row).
Proof.
  intros Hcap. unfold production_row, Claimed64.plan_row, py_div.
  rewrite Hcap. cbn [bind].
  set (qty := py_min _ cap).
  destruct (0 <? qty * _estimate_price p) eqn:E; [|reflexivity].
  rewrite (float_positive_nonzero _ E). reflexivity.
Qed.

Lemma float_production_loop (p : string) (s cap : float) (todo : list (nat * Row)) :
  (cap =? 0) = false ->
  forall plan,
    production_loop p s cap todo plan =
    Returned (plan ++ List.map
                (Claimed64.plan_row (dict_get production_costs p 0) (_estimate_price p)
                   s cap)
                (List.map snd todo)).
Proof.
  intros Hcap. induction todo as [|[i row] rest IH]; intros plan; cbn [production_loop].
  - now rewrite app_nil_r.
  - rewrite (float_production_row _ _ _ _ Hcap). cbn [bind].
    rewrite IH, <- app_assoc. reflexivity.
Qed.

End Binary64Facts.

Section Binary64Claims.
Import PrimFloat Binary64.
Local Open Scope float_scope.

(** C1, amended.  On binary64 floats, for a non-empty demand series,
    any safety stock fraction and any capacity other than zero (the
    capacity the caller gives, when it is not zero; the default capacity
    of the product, 1000 for an unknown product, when the caller gives
    none), [calculate_optimal_production] returns a plan with one row
    per selected input row, in the order in which [sort_values] leaves
    them, and each plan row is the row the specification describes for
    that capacity: adjusted demand [demand * (1 + s)], production the
    minimum of that and the capacity, utilization
    [production / capacity * 100], cost and revenue from the product's
    unit cost and estimated price, margin
    [(revenue - cost) / revenue * 100] when revenue is positive and 0
    otherwise, every value derived from unrounded intermediates and
    rounded only when reported. *)
Theorem C1_plan_rows_follow_formulas {pandas : Pandas} (df : DataFrame) (p : string)
    (s capacity : float) (custom_capacity : option float) :
  select_product df p <> [] ->
  (custom_capacity = Some capacity /\ (capacity =? 0) = false)
  \/ (custom_capacity = None /\ capacity = dict_get default_capacities p 1000) ->
  exists plan,
    calculate_optimal_production (Some df) p s custom_capacity = Returned (Some plan)
    /\ Forall2
         (fun lr out =>
            out = Claimed64.plan_row (dict_get production_costs p 0) (_estimate_price p)
                    s capacity (snd lr))
         (sort_values (select_product df p)) plan.
Proof.
  intros Hsel Hcap.
  assert (capacity_of p custom_capacity = capacity /\ (capacity =? 0) = false) as [Hc Hnz].
  { destruct Hcap as [[-> Hnz] | [-> ->]].
    - split; [|exact Hnz]. unfold capacity_of, truthy. now rewrite Hnz.
    - split; [reflexivity|apply float_default_capacity_nonzero]. }
  exists (List.map
            (Claimed64.plan_row (dict_get production_costs p 0) (_estimate_price p)
               s capacity)
            (List.map snd (sort_values (select_product df p)))).
  split.
  - unfold calculate_optimal_production.
    assert (rows df <> []) as Hrows.
    { intros E. apply Hsel. unfold select_product. rewrite E.
      now destruct (has_product_column df). }
    destruct (rows df) as [|r0 rs] eqn:Er; [contradiction|]. cbn [List.length Nat.eqb].
    destruct (select_product df p) as [|s0 ss] eqn:Es; [contradiction|].
    cbn [List.length Nat.eqb]. rewrite Hc.
    rewrite (float_production_loop _ _ _ _ Hnz). reflexivity.
  - induction (sort_values (select_product df p)) as [|lr l IH]; cbn [List.map];
      constructor; [reflexivity|exact IH].
Qed.

End Binary64Claims.

Section Binary64Samples.
Import PrimFloat Binary64 Samples64.
Local Open Scope float_scope.

Lemma C1_plan_rows_follow_formulas_witness :
  exists plan,
    calculate_optimal_production (Some two_product_frame) "Butter" 0.1 (Some 60)
      = Returned (Some plan)
    /\ Forall2
         (fun lr out =>
            out = Claimed64.plan_row (dict_get production_costs "Butter" 0)
                    (_estimate_price "Butter") 0.1 60 (snd lr))
         (sort_values (select_product two_product_frame "Butter")) plan.
Proof.
  apply (C1_plan_rows_follow_formulas two_product_frame "Butter" 0.1 60 (Some 60)).
  - vm_compute. discriminate.
  - left. split; reflexivity.
Defined.

(** C1, as stated, fails at the capacity 0: the caller's capacity is
    not used, the row is computed against the default capacity of the
    product (2000 for Milk).  The code plans 110 units at 5.5%
    utilization, where the formulas of the claim give a production of
    [min(110.00000000000001, 0) = 0] and no utilization ([0 / 0]). *)
Lemma C1_zero_capacity_row :
  let claimed := Claimed64.plan_row 15 25 0.1 0 (mkRow 1 "Milk" 100) in
  exists out,
    calculate_optimal_production (Some two_product_frame) "Milk" 0.1 (Some 0)
      = Returned (Some [out])
    /\ optimal_production out = 110
    /\ capacity_utilization out = 5.5
    /\ optimal_production claimed = 0
    /\ capacity_utilization claimed = nan
    /\ out <> claimed.
Proof.
  cbv zeta. eexists. split; [vm_compute; reflexivity|].
  split; [reflexivity|]. split; [reflexivity|].
  split; [vm_compute; reflexivity|]. split; [vm_compute; reflexivity|].
  vm_compute. intros H. discriminate H.
Qed.

(** The plan of the two Butter rows, in date order.  The adjusted
    demand of the second is [55 * (1 + 0.1) = 60.500000000000007], which
    is reported as 61. *)
Example binary64_plan_of_butter :
  calculate_optimal_production (Some two_product_frame) "Butter" 0.1 None
  = Returned (Some [mkPlanRow 1 7 8 1.5 2310 3465 33.3;
                    mkPlanRow 2 55 61 12.1 18150 27225 33.3]).
Proof. vm_compute. reflexivity. Qed.

End Binary64Samples.

(** ** Rounding facts used by the bounds *)

Section RoundFacts.
Local Open Scope Q_scope.

Lemma pow10_pos (n : nat) : (0 < 10 ^ Z.of_nat n)%Z.
Proof. apply Z.pow_pos_nonneg; lia. Qed.

Lemma Qmake_sign_pos (z : Z) (d : positive) : (0 < z)%Z -> 0 < Qmake z d.
Proof. intros H. unfold Qlt. cbn. lia. Qed.

Lemma Qmake_zero (d : positive) : Qmake 0 d == 0.
Proof. reflexivity. Qed.

(** A value with at most [n] decimals is reported unchanged. *)
Lemma py_round_exact (x : Q) (n : nat) (z : Z) :
  x * inject_Z (10 ^ Z.of_nat n) == inject_Z z -> py_round x n == x.
Proof.
  intros H. unfold py_round. rewrite (round_half_even_Z _ _ H).
  pose proof (pow10_pos n) as Hp. revert H Hp.
  generalize (10 ^ Z.of_nat n)%Z. intros [|sc|sc] H Hp; try lia.
  cbn [Z.to_pos].
  transitivity (inject_Z z / inject_Z (Z.pos sc)); [apply Qmake_Qdiv|].
  rewrite <- H. field. discriminate.
Qed.

Lemma py_round_whole_bounds (x : Q) (lo hi : Z) :
  inject_Z lo <= x -> x <= inject_Z hi ->
  inject_Z lo <= py_round x 0 /\ py_round x 0 <= inject_Z hi.
Proof.
  intros Hlo Hhi. rewrite py_round_0.
  assert (x * 1 == x) as E by ring.
  split; rewrite <- Zle_Qle.
  - apply round_half_even_ge. now rewrite E.
  - apply round_half_even_le. now rewrite E.
Qed.

Lemma py_round_whole_pos_inv (x : Q) : 0 < py_round x 0 -> (1 # 2) <= x.
Proof.
  rewrite py_round_0. intros H. change 0 with (inject_Z 0) in H.
  rewrite <- Zlt_Qlt in H. apply round_half_even_pos_inv in H. lra.
Qed.

Lemma py_round_pos (x : Q) (n : nat) : 1 <= x -> 0 < py_round x n.
Proof.
  intros H. unfold py_round. apply Qmake_sign_pos.
  assert (1 <= round_half_even (x * inject_Z (10 ^ Z.of_nat n)))%Z; [|lia].
  apply round_half_even_ge. pose proof (pow10_pos n) as Hp.
  assert (1 <= 10 ^ Z.of_nat n)%Z as Hp1 by lia.
  rewrite Zle_Qle in Hp1. change (inject_Z 1) with 1 in *.
  nra.
Qed.

End RoundFacts.

Section RoundingOrder.
Local Open Scope Q_scope.

Lemma round_half_even_comp (x y : Q) : x == y -> round_half_even x = round_half_even y.
Proof.
  intros E. unfold round_half_even. rewrite (Qfloor_comp _ _ E).
  assert (Qcompare (x - inject_Z (Qfloor y)) (1 # 2)
          = Qcompare (y - inject_Z (Qfloor y)) (1 # 2)) as ->; [|reflexivity].
  apply Qcompare_comp; [|reflexivity]. now rewrite E.
Qed.

(** Equal values are reported alike. *)
Lemma py_round_comp (x y : Q) (n : nat) : x == y -> py_round x n = py_round y n.
Proof.
  intros E. unfold py_round. f_equal. apply round_half_even_comp. now rewrite E.
Qed.

Lemma Qmake_as_div (z : Z) (n : nat) :
  Qmake z (Z.to_pos (10 ^ Z.of_nat n)) == inject_Z z / inject_Z (10 ^ Z.of_nat n).
Proof.
  pose proof (pow10_pos n) as Hp. revert Hp.
  generalize (10 ^ Z.of_nat n)%Z. intros [|sc|sc] Hp; try lia.
  cbn [Z.to_pos]. apply Qmake_Qdiv.
Qed.

(** Rounding never crosses a whole number. *)
Lemma py_round_le_Z (x : Q) (n : nat) (hi : Z) :
  x <= inject_Z hi -> py_round x n <= inject_Z hi.
Proof.
  intros H. unfold py_round. rewrite Qmake_as_div.
  pose proof (pow10_pos n) as Hp. set (sc := (10 ^ Z.of_nat n)%Z) in *.
  assert (0 < inject_Z sc) as Hsc by (change 0 with (inject_Z 0); now rewrite <- Zlt_Qlt).
  apply Qle_shift_div_r; [exact Hsc|].
  rewrite <- inject_Z_mult, <- Zle_Qle. apply round_half_even_le.
  rewrite inject_Z_mult. nra.
Qed.

Lemma py_round_ge_Z (x : Q) (n : nat) (lo : Z) :
  inject_Z lo <= x -> inject_Z lo <= py_round x n.
Proof.
  intros H. unfold py_round. rewrite Qmake_as_div.
  pose proof (pow10_pos n) as Hp. set (sc := (10 ^ Z.of_nat n)%Z) in *.
  assert (0 < inject_Z sc) as Hsc by (change 0 with (inject_Z 0); now rewrite <- Zlt_Qlt).
  apply Qle_shift_div_l; [exact Hsc|].
  rewrite <- inject_Z_mult, <- Zle_Qle. apply round_half_even_ge.
  rewrite inject_Z_mult. nra.
Qed.

End RoundingOrder.

Section RoundingMonotone.
Local Open Scope Q_scope.

(** Rounding keeps the order. *)
Lemma round_half_even_mono (x y : Q) :
  x <= y -> (round_half_even x <= round_half_even y)%Z.
Proof.
  intros Hxy. destruct (Qeq_dec x y) as [E|Hne].
  - rewrite (round_half_even_comp _ _ E). lia.
  - assert (x < y) as Hlt.
    { apply Qnot_le_lt. intros Hyx. apply Hne. now apply Qle_antisym. }
    pose proof (Qfloor_resp_le _ _ Hxy) as Hf.
    destruct (round_half_even_cases x) as [-> | [-> Hx]].
    + destruct (round_half_even_cases y) as [-> | [-> _]]; lia.
    + destruct (Z.eq_dec (Qfloor x) (Qfloor y)) as [Ef|Hnf].
      * assert (round_half_even y = (Qfloor y + 1)%Z) as ->; [|lia].
        unfold round_half_even.
        destruct (Qcompare (y - inject_Z (Qfloor y)) (1 # 2)) eqn:C.
        -- apply Qeq_alt in C. rewrite Ef in Hx. lra.
        -- apply Qlt_alt in C. rewrite Ef in Hx. lra.
        -- reflexivity.
      * destruct (round_half_even_cases y) as [-> | [-> _]]; lia.
Qed.

Lemma py_round_whole_mono (x y : Q) : x <= y -> py_round x 0 <= py_round y 0.
Proof.
  intros H. rewrite !py_round_0, <- Zle_Qle. apply round_half_even_mono. lra.
Qed.

End RoundingMonotone.

(** ** Bounds on the planned quantity *)

Section ProductionBounds.
Import Optimizer.
Local Open Scope Q_scope.

(** C4, as stated, fails.  With non-negative demand everywhere:
    a capacity of 80.6 gives a reported production of 81 units; a
    negative capacity gives a negative production; a safety stock
    fraction below -1 gives a negative production as well; and a
    capacity of 0 is not used at all, 110 units are planned. *)
Lemma C4_bounds_fail :
  Forall (fun lr => 0 <= predicted_demand (snd lr)) (rows two_product_frame)
  /\ (exists r,
        calculate_optimal_production (Some two_product_frame) "Milk" (1 # 10)
          (Some (403 # 5)) = Returned (Some [r])
        /\ optimal_production r == 81
        /\ capacity_of "Milk" (Some (403 # 5)) == 80.6
        /\ ~ optimal_production r <= capacity_of "Milk" (Some (403 # 5)))
  /\ (exists r,
        calculate_optimal_production (Some two_product_frame) "Milk" (1 # 10)
          (Some (-5)) = Returned (Some [r])
        /\ ~ 0 <= optimal_production r)
  /\ (exists r,
        calculate_optimal_production (Some two_product_frame) "Milk" (-2) None
          = Returned (Some [r])
        /\ ~ 0 <= optimal_production r)
  /\ (exists r,
        calculate_optimal_production (Some two_product_frame) "Milk" (1 # 10)
          (Some 0) = Returned (Some [r])
        /\ optimal_production r == 110
        /\ ~ optimal_production r <= 0).
Proof.
  split.
  { repeat constructor; cbn; discriminate. }
  split; [|split; [|split]]; eexists; (split; [vm_compute; reflexivity|]).
  - split; [reflexivity|]. split; [reflexivity|]. vm_compute. intros H. now apply H.
  - vm_compute. intros H. now apply H.
  - vm_compute. intros H. now apply H.
  - split; [reflexivity|]. vm_compute. intros H. now apply H.
Qed.

(** C4, amended.  For a non-empty demand series with non-negative
    demand, a safety stock fraction of at least -1 and a positive
    capacity [c] (the capacity the caller gives, or the default of the
    product when the caller gives none), every row of the plan satisfies
    [0 <= optimal_production <= round(c, 0)]; so
    [optimal_production <= c] whenever [round(c, 0) <= c], as for every
    capacity whose fractional part is below one half (every whole
    capacity in particular); and a row whose adjusted demand reaches
    the capacity reports exactly [round(c, 0)], which exceeds [c] when
    [round(c, 0) <= c] fails. *)
Theorem C4_production_within_capacity (df : DataFrame) (p : string) (s c : Q)
    (custom_capacity : option Q) :
  select_product df p <> [] ->
  Forall (fun lr => 0 <= predicted_demand (snd lr)) (select_product df p) ->
  -1 <= s ->
  0 < c ->
  custom_capacity = Some c
  \/ (custom_capacity = None /\ c = dict_get default_capacities p 1000) ->
  exists plan,
    calculate_optimal_production (Some df) p s custom_capacity = Returned (Some plan)
    /\ Forall2
         (fun lr r =>
            0 <= optimal_production r
            /\ optimal_production r <= py_round c 0
            /\ (py_round c 0 <= c -> optimal_production r <= c)
            /\ (c <= predicted_demand (snd lr) * (1 + s) ->
                optimal_production r = py_round c 0))
         (sort_values (select_product df p)) plan.
Proof.
  intros Hsel Hdem Hs Hc Hcap. eexists.
  split; [now apply calculate_optimal_production_eq|].
  assert (capacity_of p custom_capacity = c) as ->.
  { destruct Hcap as [-> | [-> ->]]; [|reflexivity].
    unfold capacity_of.
    assert (truthy c = true) as -> by (apply truthy_nonzero; lra). reflexivity. }
  assert (Forall (fun lr => 0 <= predicted_demand (snd lr))
            (sort_values (select_product df p))) as Hsorted.
  { apply (Permutation_Forall (Permutation_sym (sort_values_perm _))). exact Hdem. }
  induction Hsorted as [|[i row] l Hrow _ IH]; cbn [List.map]; constructor; [|exact IH].
  cbn [snd] in *. cbn [Claimed.plan_row optimal_production].
  assert (0 <= predicted_demand row * (1 + s)) as Hadj by nra.
  set (q := Qmin _ _).
  assert (0 <= q) as Hq0 by (apply Q.min_glb; lra).
  assert (q <= c) as Hq1 by apply Q.le_min_r.
  pose proof (py_round_whole_mono _ _ Hq1) as Hmono.
  split; [exact (py_round_ge_Z q 0 0 Hq0)|]. split; [exact Hmono|]. split.
  - intros Hround. lra.
  - intros Hreach. apply py_round_comp. subst q. now apply Q.min_r.
Qed.

Lemma C4_production_within_capacity_witness :
  exists plan,
    calculate_optimal_production (Some two_product_frame) "Milk" (1 # 10) (Some (402 # 5))
      = Returned (Some plan)
    /\ Forall2
         (fun lr r =>
            0 <= optimal_production r
            /\ optimal_production r <= py_round (402 # 5) 0
            /\ (py_round (402 # 5) 0 <= 402 # 5 -> optimal_production r <= 402 # 5)
            /\ (402 # 5 <= predicted_demand (snd lr) * (1 + (1 # 10)) ->
                optimal_production r = py_round (402 # 5) 0))
         (sort_values (select_product two_product_frame "Milk")) plan.
Proof.
  apply (C4_production_within_capacity two_product_frame "Milk" (1 # 10) (402 # 5)
           (Some (402 # 5))).
  - vm_compute. discriminate.
  - vm_compute. repeat constructor; discriminate.
  - vm_compute. discriminate.
  - reflexivity.
  - left. reflexivity.
Defined.

(** At the capacity 80.4 of the witness the Milk row, whose adjusted
    demand is 110, reports 80 units, within the capacity. *)
Example plan_at_capacity_80_4 :
  exists r,
    calculate_optimal_production (Some two_product_frame) "Milk" (1 # 10) (Some (402 # 5))
      = Returned (Some [r])
    /\ optimal_production r == 80.
Proof. eexists. split; [vm_compute; reflexivity|reflexivity]. Qed.

End ProductionBounds.

(** ** Unknown products and zero revenue *)

Section MarginFacts.
Import Optimizer.
Local Open Scope Q_scope.

Lemma py_sum_acc (l : list Q) (a : Q) : fold_left Qplus l a == a + py_sum l.
Proof.
  unfold py_sum. revert a. induction l as [|x l IH]; intros a; cbn [fold_left].
  - ring.
  - rewrite IH, (IH (0 + x)). ring.
Qed.

Lemma py_sum_cons (x : Q) (l : list Q) : py_sum (x :: l) == x + py_sum l.
Proof. unfold py_sum at 1. cbn [fold_left]. rewrite py_sum_acc. ring. Qed.

(** C10.  A product absent from the cost table and from the price table
    is planned with unit cost 0 and unit price 100 (not 0): every row of
    its plan reports a production cost of 0; every row whose production
    is positive has a profit margin of 100; and every row whose reported
    production is positive also reports a positive revenue. *)
Theorem C10_unknown_product_margin (df : DataFrame) (p : string) (s : Q)
    (custom_capacity : option Q) :
  production_costs !! p = None ->
  price_estimates !! p = None ->
  select_product df p <> [] ->
  dict_get production_costs p 0 = 0
  /\ _estimate_price p = 100
  /\ exists plan,
       calculate_optimal_production (Some df) p s custom_capacity = Returned (Some plan)
       /\ Forall2
            (fun lr r =>
               let production :=
                 Qmin (predicted_demand (snd lr) * (1 + s)) (capacity_of p custom_capacity) in
               production_cost r == 0
               /\ (0 < production -> profit_margin r == 100)
               /\ (0 < optimal_production r ->
                   0 < potential_revenue r /\ profit_margin r == 100))
            (sort_values (select_product df p)) plan.
Proof.
  intros Hcost Hprice Hsel.
  assert (dict_get production_costs p 0 = 0) as Ec by (unfold dict_get; now rewrite Hcost).
  assert (_estimate_price p = 100) as Ep
    by (unfold _estimate_price, dict_get; now rewrite Hprice).
  split; [exact Ec|]. split; [exact Ep|]. eexists.
  split; [now apply calculate_optimal_production_eq|].
  rewrite Ec, Ep.
  induction (sort_values (select_product df p)) as [|[i row] l IH]; cbn [List.map];
    constructor; [|exact IH].
  cbn [snd Claimed.plan_row production_cost optimal_production potential_revenue
       profit_margin]. cbv zeta.
  set (q := Qmin _ _).
  assert (0 < q ->
          (if Qlt_le_dec 0 (q * 100)
           then py_round ((q * 100 - q * 0) / (q * 100) * 100) 1 else 0) == 100) as Hmargin.
  { intros Hq. destruct (Qlt_le_dec 0 (q * 100)) as [Hlt|Hle]; [|lra].
    rewrite (py_round_exact _ 1 1000).
    - field. lra.
    - change (inject_Z (10 ^ Z.of_nat 1)) with 10. change (inject_Z 1000) with 1000.
      field. lra. }
  split; [|split].
  - rewrite (py_round_exact _ 2 0); [ring|]. change (inject_Z 0) with 0. ring.
  - exact Hmargin.
  - intros Hpos. apply py_round_whole_pos_inv in Hpos.
    split; [apply py_round_pos; lra|]. apply Hmargin. lra.
Qed.

Lemma C10_unknown_product_margin_witness :
  dict_get production_costs "Paneer" 0 = 0
  /\ _estimate_price "Paneer" = 100
  /\ exists plan,
       calculate_optimal_production (Some unknown_product_frame) "Paneer" (1 # 10) None
         = Returned (Some plan)
       /\ Forall2
            (fun lr r =>
               let production :=
                 Qmin (predicted_demand (snd lr) * (1 + (1 # 10)))
                   (capacity_of "Paneer" None) in
               production_cost r == 0
               /\ (0 < production -> profit_margin r == 100)
               /\ (0 < optimal_production r ->
                   0 < potential_revenue r /\ profit_margin r == 100))
            (sort_values (select_product unknown_product_frame "Paneer")) plan.
Proof.
  apply (C10_unknown_product_margin unknown_product_frame "Paneer" (1 # 10) None).
  - vm_compute. reflexivity.
  - vm_compute. reflexivity.
  - vm_compute. discriminate.
Defined.

End MarginFacts.

(** ** The summary *)

Section SummaryFacts.
Import Optimizer.
Local Open Scope Q_scope.

(** The loop of the summary never raises, and its two totals are the
    sums of the per-product totals of the reported cost and revenue. *)
Lemma summary_loop_returns (forecasts : option DataFrame) (products : list string) :
  forall analysis c r,
  exists analysis' c' r',
    summary_loop forecasts products analysis c r = Returned (analysis', c', r')
    /\ c' == c + py_sum (List.map (Claimed.product_total production_cost forecasts) products)
    /\ r' == r + py_sum (List.map (Claimed.product_total potential_revenue forecasts) products).
Proof.
  induction products as [|p ps IH]; intros analysis c r; cbn [summary_loop List.map].
  - exists analysis, c, r. split; [reflexivity|]. unfold py_sum. cbn. split; ring.
  - unfold Claimed.product_total at 1 3.
    destruct (calculate_optimal_production_returns forecasts p default_safety_stock None)
      as [res Eres].
    rewrite Eres. cbn [bind].
    destruct res as [[|r0 plan]|].
    + destruct (IH analysis c r) as (a' & c' & r' & E & Hc & Hr).
      exists a', c', r'. split; [exact E|]. rewrite !py_sum_cons, Hc, Hr.
      cbn [List.map]. change (py_sum []) with 0. split; ring.
    + destruct (IH (<[p:=summarize_plan p (r0 :: plan)]> analysis)
                  (c + total_production_cost (summarize_plan p (r0 :: plan)))
                  (r + total_potential_revenue (summarize_plan p (r0 :: plan))))
        as (a' & c' & r' & E & Hc & Hr).
      exists a', c', r'. split; [exact E|]. rewrite !py_sum_cons, Hc, Hr.
      cbn [summarize_plan total_production_cost total_potential_revenue].
      split; ring.
    + destruct (IH analysis c r) as (a' & c' & r' & E & Hc & Hr).
      exists a', c', r'. split; [exact E|]. rewrite !py_sum_cons, Hc, Hr. split; ring.
Qed.

Lemma overall_margin_returns (c r : Q) :
  exists m, overall_margin c r = Returned m
    /\ (0 < r -> m = py_round ((r - c) / r * 100) 1)
    /\ (r <= 0 -> m = 0).
Proof.
  unfold overall_margin. destruct (Qle_bool r 0) eqn:E; cbn [negb].
  - apply Qle_bool_iff in E. exists 0. split; [reflexivity|]. split; [|reflexivity].
    intros H. lra.
  - apply Qle_bool_false in E. rewrite py_div_returns by lra. cbn [bind].
    eexists. split; [reflexivity|]. split; [reflexivity|]. intros H. lra.
Qed.

(** C9.  Neither the plan nor the summary ever divides by zero,
    whatever the forecasts: no frame, an empty frame, a frame without
    rows of the product, or a frame with such rows.  The plan is
    returned, and each of its rows whose unrounded potential revenue is
    0 reports a profit margin of exactly 0.  The summary is returned;
    with the two totals it accumulates (the sums over the products of
    the reported row costs and revenues, 0 for a product without plan),
    the overall margin is [(revenue - cost) / revenue * 100] (to one
    decimal) when the total revenue is positive and exactly 0 when it is
    not. *)
Theorem C9_margins_without_division_error (today : string)
    (forecasts : option DataFrame) (p : string) (s : Q) (custom_capacity : option Q)
    (products : list string) (time_horizon : nat) :
  (exists result,
     calculate_optimal_production forecasts p s custom_capacity = Returned result
     /\ forall df plan,
          forecasts = Some df -> result = Some plan ->
          Forall2
            (fun lr out =>
               let production :=
                 Qmin (predicted_demand (snd lr) * (1 + s))
                   (capacity_of p custom_capacity) in
               production * _estimate_price p == 0 -> profit_margin out = 0)
            (sort_values (select_product df p)) plan)
  /\ (exists summary cost revenue,
        generate_optimization_summary today forecasts products time_horizon
          = Returned summary
        /\ cost == py_sum (List.map (Claimed.product_total production_cost forecasts) products)
        /\ revenue
           == py_sum (List.map (Claimed.product_total potential_revenue forecasts) products)
        /\ (0 < revenue ->
            overall_profit_margin (overall_metrics summary)
            = py_round ((revenue - cost) / revenue * 100) 1)
        /\ (revenue <= 0 -> overall_profit_margin (overall_metrics summary) = 0)).
Proof.
  split.
  - destruct forecasts as [df|].
    + destruct (select_product df p) as [|s0 ss] eqn:Es.
      * exists None. split.
        -- unfold calculate_optimal_production. rewrite Es.
           destruct (List.length (rows df) =? 0)%nat; reflexivity.
        -- intros df' plan _ H. discriminate H.
      * eexists. split.
        -- apply calculate_optimal_production_eq. rewrite Es. discriminate.
        -- intros df' plan Hdf Hplan. injection Hdf as <-. injection Hplan as <-.
           induction (sort_values (select_product df p)) as [|lr l IH]; cbn [List.map];
             constructor; [|exact IH].
           cbn zeta. intros Hrev. cbn [Claimed.plan_row profit_margin].
           destruct (Qlt_le_dec 0 _) as [Hlt|Hle]; [|reflexivity].
           rewrite Hrev in Hlt. discriminate Hlt.
    + exists None. split; [reflexivity|]. intros df plan H. discriminate H.
  - unfold generate_optimization_summary.
    destruct (summary_loop_returns forecasts products ∅ 0 0) as (a & c & r & E & Hc & Hr).
    rewrite E. cbn [bind].
    destruct (overall_margin_returns c r) as (m & Em & Hpos & Hzero).
    rewrite Em. cbn [bind]. eexists. exists c, r.
    split; [reflexivity|]. cbn [overall_metrics overall_profit_margin].
    split; [rewrite Hc; ring|]. split; [rewrite Hr; ring|]. split; [exact Hpos|].
    exact Hzero.
Qed.

(** The summary of an empty frame and the summary without forecasts:
    no product has a plan, both totals are 0 and the overall margin is
    the literal 0. *)
Example summary_without_forecasts :
  forall forecasts,
    forecasts = None \/ forecasts = Some (mkFrame true []) ->
    exists summary,
      generate_optimization_summary "2024-01-01" forecasts ["Milk"; "Ghee"]%string 30
        = Returned summary
      /\ products_analysis summary = ∅
      /\ overall_potential_revenue (overall_metrics summary) == 0
      /\ overall_profit_margin (overall_metrics summary) = 0.
Proof.
  intros forecasts [-> | ->]; eexists; (split; [vm_compute; reflexivity|]);
    (split; [reflexivity|]); split; reflexivity.
Qed.

End SummaryFacts.

(** ** Inventory *)

Section InventoryFacts.
Import Optimizer.
Local Open Scope Q_scope.

Lemma skipn_tail {A : Type} (l : list A) (k : nat) (x : A) (rest : list A) :
  skipn k l = x :: rest -> skipn (S k) l = rest.
Proof.
  revert l. induction k as [|k IH]; intros [|y l] H; cbn in *; try discriminate.
  - now inversion H.
  - now apply IH.
Qed.

Lemma firstn_min_length {A : Type} (l : list A) (d : nat) :
  firstn (Nat.min d (List.length l)) l = firstn d l.
Proof.
  destruct (Nat.le_gt_cases d (List.length l)) as [H|H].
  - now rewrite Nat.min_l.
  - rewrite Nat.min_r by lia. rewrite firstn_all. symmetry. apply firstn_all2. lia.
Qed.

(** C5, at a frame holding two products.  The Butter rows carry the
    labels 1 and 2; the code slices the two selected rows at positions
    1.. and 2.., so the lookahead of the first Butter day is 7 (the
    second day alone) and that of the second day is 0, where the claim
    has 5 + 7 = 12 and 7.  The reported optimal stock levels are 7 and 0
    instead of 12 and 7. *)
Theorem C5_lookahead_sliced_at_label :
  select_product two_product_frame "Butter"
    = [(1%nat, mkRow 1 "Butter" 5); (2%nat, mkRow 2 "Butter" 7)]
  /\ _calculate_future_demand (select_product two_product_frame "Butter") 1 30 == 7
  /\ _calculate_future_demand (select_product two_product_frame "Butter") 2 30 == 0
  /\ (exists plan,
        calculate_inventory_optimization (Some two_product_frame) "Butter" 0 = Some plan
        /\ List.map optimal_stock_level plan = [inject_Z 7; inject_Z 0]
        /\ List.map recommended_order plan = [inject_Z 7; inject_Z (-2)])
  /\ List.map optimal_stock_level
       (Claimed.inventory_pass 30 2 [mkRow 1 "Butter" 5; mkRow 2 "Butter" 7] 0)
     = [inject_Z 12; inject_Z 7]
  /\ calculate_inventory_optimization (Some two_product_frame) "Butter" 0
     <> Some (Claimed.inventory_pass (dict_get shelf_life "Butter" 30%nat)
                (dict_get storage_costs "Butter" 1)
                (List.map snd (select_product two_product_frame "Butter")) 0).
Proof.
  split; [reflexivity|]. split; [reflexivity|]. split; [reflexivity|].
  split; [eexists; split; [vm_compute; reflexivity|split; reflexivity]|].
  split; [vm_compute; reflexivity|]. vm_compute. discriminate.
Qed.

End InventoryFacts.

(** ** Model evaluation *)

Section EvaluationFacts.
Import Forecaster.
Context {lib : ForecastLibrary}.

Lemma held_out_split (data : list (Z * Q)) :
  (90 <= List.length data)%nat ->
  List.length (skipn (List.length data - 30) data) = 30%nat
  /\ data = firstn (List.length data - 30) data ++ skipn (List.length data - 30) data.
Proof.
  intros H. split.
  - rewrite length_skipn. lia.
  - symmetry. apply firstn_skipn.
Qed.

Lemma evaluate_validates (model : Model) (data : list (Z * Q)) :
  (90 <= List.length data)%nat ->
  evaluate model data =
  match validate model data (List.length data - 30) with
  | Returned performance => performance
  | Raised e => unavailable ("Error in validation: " ++ e)
  end.
Proof.
  intros H. unfold evaluate.
  destruct (Z.ltb_spec (Z.of_nat (List.length data) - 30) 60) as [Hlt|Hge]; [lia|].
  replace (Z.to_nat (Z.of_nat (List.length data) - 30)) with (List.length data - 30)%nat
    by lia.
  reflexivity.
Qed.

(** C2, as stated, fails: a series of 70 points has at least 60, yet
    its evaluation is skipped with the insufficient-data note. *)
Lemma C2_seventy_points_skipped :
  List.length (sample_series 70) = 70%nat
  /\ evaluate (lib := sample_library) ("multiplicative"%string, 70%nat) (sample_series 70)
     = Metrics None None None "Insufficient data for validation".
Proof. split; reflexivity. Qed.

(** C2, amended.  Evaluation is skipped, with the three metrics
    unavailable and the note "Insufficient data for validation", exactly
    when the series has fewer than 90 points (fewer than 60 are left once
    30 are held out).  With at least 90 points the series is split into
    its prefix and its 30 most recent points, a fresh model is fitted on
    the prefix, and MAE, RMSE and MAPE are computed between the held-out
    values and the last 30 predictions (both floored at 0.1); if a
    library call raises, the metrics are unavailable with an error note.
    No exception escapes either way. *)
Theorem C2_evaluation_threshold (model : Model) (data : list (Z * Q)) :
  ((List.length data < 90)%nat ->
   evaluate model data = Metrics None None None "Insufficient data for validation")
  /\ ((90 <= List.length data)%nat ->
      let train := firstn (List.length data - 30) data in
      let held_out := skipn (List.length data - 30) data in
      List.length held_out = 30%nat
      /\ data = train ++ held_out
      /\ (forall temp_model forecast mae mse mape,
            fit (seasonality_mode model) (8 # 10) train = Returned temp_model ->
            predict temp_model 30 = Returned forecast ->
            let y_true := floor_at_tenth (List.map snd held_out) in
            let y_pred := floor_at_tenth (tail 30 forecast) in
            mean_absolute_error y_true y_pred = Returned mae ->
            mean_squared_error y_true y_pred = Returned mse ->
            mean_absolute_percentage_error y_true y_pred = Returned mape ->
            evaluate model data
            = Metrics (Some mae) (Some (np_sqrt mse)) (Some (mape * 100)%Q)
                "Validation on last 30 days")
      /\ ((exists mae rmse mape,
             evaluate model data
             = Metrics (Some mae) (Some rmse) (Some mape) "Validation on last 30 days")
          \/ (exists e,
                evaluate model data
                = Metrics None None None ("Error in validation: " ++ e)))).
Proof.
  split.
  - intros H. unfold evaluate.
    destruct (Z.ltb_spec (Z.of_nat (List.length data) - 30) 60) as [Hlt|Hge]; [reflexivity|lia].
  - intros H. cbn zeta. destruct (held_out_split data H) as [Hlen Hsplit].
    split; [exact Hlen|]. split; [exact Hsplit|].
    rewrite (evaluate_validates model data H). unfold validate. rewrite Hlen. split.
    + intros tm fc a b c Hfit Hpred Ha Hb Hc.
      rewrite Hfit. cbn [bind]. rewrite Hpred. cbn [bind].
      rewrite Ha. cbn [bind]. rewrite Hb. cbn [bind]. rewrite Hc. reflexivity.
    + destruct (fit _ _ _) as [tm|e]; cbn [bind]; [|right; now exists e].
      destruct (predict tm 30) as [fc|e]; cbn [bind]; [|right; now exists e].
      destruct (mean_absolute_error _ _) as [a|e]; cbn [bind]; [|right; now exists e].
      destruct (mean_squared_error _ _) as [b|e]; cbn [bind]; [|right; now exists e].
      destruct (mean_absolute_percentage_error _ _) as [c|e]; cbn [bind];
        [|right; now exists e].
      left. now eexists _, _, _.
Qed.

End EvaluationFacts.

Lemma C2_evaluation_threshold_witness :
  Forecaster.evaluate (lib := sample_library) ("additive"%string, 40%nat) (sample_series 40)
  = Forecaster.Metrics None None None "Insufficient data for validation"
  /\ exists mae rmse mape,
       Forecaster.evaluate (lib := sample_library) ("additive"%string, 100%nat)
         (sample_series 100)
       = Forecaster.Metrics (Some mae) (Some rmse) (Some mape) "Validation on last 30 days".
Proof.
  split.
  - apply (proj1 (C2_evaluation_threshold (lib := sample_library)
                    ("additive"%string, 40%nat) (sample_series 40))).
    vm_compute. lia.
  - assert (90 <= List.length (sample_series 100))%nat as H90 by (vm_compute; lia).
    destruct (proj2 (C2_evaluation_threshold (lib := sample_library)
                       ("additive"%string, 100%nat) (sample_series 100)) H90)
      as (_ & _ & Hok & _).
    eexists _, _, _. eapply Hok; vm_compute; reflexivity.
Defined.

(** ** The model cache *)

Section CacheFacts.
Import Forecaster.
Context {lib : ForecastLibrary}.

(** C7.  [load_model] reports failure and leaves the forecaster as it
    was whenever one of the three entries of the key is missing; when all
    three are present and readable it reports success and the three
    dicts hold, under that key, the objects read. *)
Theorem C7_load_all_or_nothing (p : string) (st : State) :
  ((files st !! model_path p = None
    \/ files st !! performance_path p = None
    \/ files st !! metadata_path p = None) ->
   load_model p st = (st, false))
  /\ (forall model performance md,
        files st !! model_path p = Some (Pickle model) ->
        files st !! performance_path p = Some (Pickle performance) ->
        files st !! metadata_path p = Some (Pickle md) ->
        exists st',
          load_model p st = (st', true)
          /\ models st' !! p = Some model
          /\ model_performance st' !! p = Some performance
          /\ metadata st' !! p = Some md
          /\ files st' = files st).
Proof.
  split.
  - intros H. unfold load_model.
    destruct (files st !! model_path p) as [fm|]; [|reflexivity].
    destruct (files st !! performance_path p) as [fp|]; [|reflexivity].
    destruct (files st !! metadata_path p) as [fd|]; [|reflexivity].
    destruct H as [H|[H|H]]; discriminate H.
  - intros model performance md Hm Hp Hd. unfold load_model. rewrite Hm, Hp, Hd.
    eexists. split; [reflexivity|]. cbn. now rewrite !lookup_insert_eq.
Qed.

(** An unreadable entry makes the load fail as well, with nothing
    stored. *)
Lemma load_model_unreadable (p : string) (st : State) :
  (files st !! model_path p = Some Unreadable
   \/ files st !! performance_path p = Some Unreadable
   \/ files st !! metadata_path p = Some Unreadable) ->
  load_model p st = (st, false).
Proof.
  intros H. unfold load_model.
  destruct (files st !! model_path p) as [[m|]|]; try reflexivity;
    destruct (files st !! performance_path p) as [[pf|]|]; try reflexivity;
    destruct (files st !! metadata_path p) as [[d|]|]; try reflexivity.
  destruct H as [H|[H|H]]; discriminate H.
Qed.

(** What a load can do to the three dicts. *)
Lemma load_model_memory (p : string) (st : State) :
  fst (load_model p st) = st
  \/ exists a b c,
       fst (load_model p st)
       = {| models := <[p := a]> (models st);
            model_performance := <[p := b]> (model_performance st);
            metadata := <[p := c]> (metadata st);
            files := files st |}.
Proof.
  unfold load_model.
  destruct (files st !! model_path p) as [[m|]|]; try (now left);
    destruct (files st !! performance_path p) as [[pf|]|]; try (now left);
    destruct (files st !! metadata_path p) as [[d|]|]; try (now left).
  right. now exists m, pf, d.
Qed.

Lemma load_model_keeps (p : string) (st : State) :
  (metrics_for_models st -> metrics_for_models (fst (load_model p st)))
  /\ (metadata_for_models st -> metadata_for_models (fst (load_model p st))).
Proof.
  unfold metrics_for_models, metadata_for_models.
  destruct (load_model_memory p st) as [-> | (a & b & c & ->)];
    [split; intros H; exact H|].
  cbn. rewrite !dom_insert_L. split; set_solver.
Qed.

Lemma load_all_models_keeps (st : State) :
  (metrics_for_models st -> metrics_for_models (fst (load_all_models st)))
  /\ (metadata_for_models st -> metadata_for_models (fst (load_all_models st))).
Proof.
  unfold load_all_models. generalize (model_files (files st)) as names.
  generalize 0%nat as n. intros n names. revert st n.
  induction names as [|f names IH]; intros st n; cbn [fold_left]; [tauto|].
  destruct (load_model (product_of_file f) st) as [st1 ok] eqn:E.
  destruct (load_model_keeps (product_of_file f) st) as [H1 H2]. rewrite E in H1, H2.
  destruct (IH st1 (if ok then S n else n)) as [H3 H4]. tauto.
Qed.

Lemma save_model_memory (now p : string) (model : Model) (data : list (Z * Q))
    (wm wp wd : write_result) (st : State) :
  models (fst (save_model now p model data wm wp wd st)) = models st
  /\ model_performance (fst (save_model now p model data wm wp wd st)) = model_performance st
  /\ (metadata (fst (save_model now p model data wm wp wd st)) = metadata st
      \/ exists md, metadata (fst (save_model now p model data wm wp wd st))
                    = <[p := md]> (metadata st)).
Proof.
  unfold save_model.
  destruct wm; cbn; try (now auto);
    destruct wp; cbn; try (now auto);
    destruct data as [|[d y] rest]; cbn; try (now auto);
    destruct wd; cbn; try (now auto).
  split; [reflexivity|]. split; [reflexivity|]. right. now eexists.
Qed.

(** A save whose three writes succeed on a non-empty series stores the
    metadata. *)
Lemma save_model_success (now p : string) (model : Model) (data : list (Z * Q))
    (st : State) :
  data <> [] ->
  snd (save_model now p model data WriteOk WriteOk WriteOk st) = true
  /\ is_Some (metadata (fst (save_model now p model data WriteOk WriteOk WriteOk st)) !! p)
  /\ is_Some (files (fst (save_model now p model data WriteOk WriteOk WriteOk st))
                !! model_path p).
Proof.
  intros Hne. destruct data as [|[d y] rest]; [contradiction|].
  unfold save_model. cbn [write_file negb fst snd metadata files].
  split; [reflexivity|]. rewrite lookup_insert_eq. split; [now eexists|].
  apply lookup_insert_is_Some'. right. apply lookup_insert_is_Some'. right.
  rewrite lookup_insert_eq. now eexists.
Qed.

Lemma delete_model_keeps (p : string) (rm rp rd : bool) (st : State) :
  (metrics_for_models st -> metrics_for_models (fst (delete_model p rm rp rd st)))
  /\ (metadata_for_models st -> metadata_for_models (fst (delete_model p rm rp rd st))).
Proof.
  unfold metrics_for_models, metadata_for_models, delete_model.
  destruct (remove_file rm _ _) as [fs1 [|]]; cbn; [|tauto].
  destruct (remove_file rp _ _) as [fs2 [|]]; cbn; [|tauto].
  destruct (remove_file rd _ _) as [fs3 [|]]; cbn; [|tauto].
  rewrite !dom_delete_L. split; set_solver.
Qed.

Lemma train_model_keeps_metrics (now : string) (data : list (Z * Q)) (p mode : string)
    (wm wp wd : write_result) (st : State) :
  metrics_for_models st ->
  metrics_for_models (fst (train_model now data p mode wm wp wd st)).
Proof.
  unfold metrics_for_models, train_model. intros H.
  destruct (fit mode (95 # 100) data) as [model|e]; [|exact H].
  set (st2 := _evaluate_model _ _ _ _).
  destruct (save_model now p model data wm wp wd st2) as [st3 ok] eqn:E.
  destruct (save_model_memory now p model data wm wp wd st2) as (Hm & Hp & _).
  rewrite E in Hm, Hp. cbn [fst] in *. rewrite Hm, Hp. subst st2. cbn.
  rewrite !dom_insert_L. set_solver.
Qed.

Lemma train_model_keeps_metadata (now : string) (data : list (Z * Q)) (p mode : string)
    (st : State) :
  data <> [] ->
  metadata_for_models st ->
  metadata_for_models (fst (train_model now data p mode WriteOk WriteOk WriteOk st)).
Proof.
  unfold metadata_for_models, train_model. intros Hne H.
  destruct (fit mode (95 # 100) data) as [model|e]; [|exact H].
  destruct data as [|[d y] rest]; [contradiction|].
  unfold save_model. cbn. rewrite !dom_insert_L. set_solver.
Qed.

Lemma apply_op_keeps_metrics (st : State) (o : op) :
  metrics_for_models st -> metrics_for_models (apply_op st o).
Proof.
  destruct o as [now data p mode wm wp wd|now p model data wm wp wd|p| |p rm rp rd];
    cbn [apply_op]; intros H.
  - now apply train_model_keeps_metrics.
  - unfold metrics_for_models in *.
    destruct (save_model_memory now p model data wm wp wd st) as (-> & -> & _). exact H.
  - now apply load_model_keeps.
  - now apply load_all_models_keeps.
  - now apply delete_model_keeps.
Qed.

Lemma apply_op_keeps_metadata (st : State) (o : op) :
  save_goes_through o ->
  metadata_for_models st -> metadata_for_models (apply_op st o).
Proof.
  destruct o as [now data p mode wm wp wd|now p model data wm wp wd|p| |p rm rp rd];
    cbn [apply_op save_goes_through]; intros Hok H.
  - destruct Hok as (Hne & -> & -> & ->). now apply train_model_keeps_metadata.
  - unfold metadata_for_models in *.
    destruct (save_model_memory now p model data wm wp wd st) as (-> & _ & [-> | [md ->]]);
      [exact H|]. rewrite dom_insert_L. set_solver.
  - now apply load_model_keeps.
  - now apply load_all_models_keeps.
  - now apply delete_model_keeps.
Qed.

Lemma init_consistent (fs : gmap string file) :
  metrics_for_models (init fs) /\ metadata_for_models (init fs).
Proof.
  unfold init.
  destruct (load_all_models_keeps
              {| models := ∅; model_performance := ∅; metadata := ∅; files := fs |})
    as [H1 H2].
  split; [apply H1|apply H2]; unfold metrics_for_models, metadata_for_models; cbn;
    set_solver.
Qed.

End CacheFacts.

(** ** The cache invariant and the listing of keys *)

Section CacheClaims.
Import Forecaster.

Lemma C7_load_all_or_nothing_witness :
  exists st',
    load_model (lib := sample_library) "Ghee" stored_ghee = (st', true)
    /\ models st' !! "Ghee"%string = Some (ObjModel ("additive"%string, 120%nat))
    /\ model_performance st' !! "Ghee"%string = Some (ObjPerformance NoMetrics)
    /\ metadata st' !! "Ghee"%string
       = Some (ObjMetadata (mkMetadata "Ghee" "2024-01-01 00:00:00" 120 (0%Z, 119%Z)))
    /\ files st' = files stored_ghee.
Proof.
  apply (proj2 (C7_load_all_or_nothing (lib := sample_library) "Ghee" stored_ghee));
    vm_compute; reflexivity.
Defined.

(** C3, as stated, fails.  On an empty store, a training whose first
    write fails still reports success and leaves the model and its
    metrics in memory, with no metadata for the key. *)
Lemma C3_model_without_metadata :
  let st := run (lib := sample_library)
              [Train "2024-01-01 00:00:00" (sample_series 100) "Milk" "multiplicative"
                 OpenFails WriteOk WriteOk]
              (init ∅) in
  train_model (lib := sample_library) "2024-01-01 00:00:00" (sample_series 100) "Milk"
    "multiplicative" OpenFails WriteOk WriteOk (init ∅)
  = (st, (true, "Model trained successfully for Milk"%string))
  /\ has_model st "Milk"
  /\ is_Some (model_performance st !! "Milk"%string)
  /\ metadata st !! "Milk"%string = None.
Proof.
  cbv zeta. split; [vm_compute; reflexivity|].
  split; [vm_compute; now eexists|]. split; [vm_compute; now eexists|].
  vm_compute. reflexivity.
Qed.

Context {lib : ForecastLibrary}.

Lemma run_keeps_metrics (ops : list op) :
  forall st, metrics_for_models st -> metrics_for_models (run ops st).
Proof.
  unfold run. induction ops as [|o ops IH]; intros st H; cbn [fold_left]; [exact H|].
  apply IH. now apply apply_op_keeps_metrics.
Qed.

Lemma run_keeps_metadata (ops : list op) :
  Forall save_goes_through ops ->
  forall st, metadata_for_models st -> metadata_for_models (run ops st).
Proof.
  unfold run. induction 1 as [|o ops Ho Hops IH]; intros st H; cbn [fold_left];
    [exact H|].
  apply IH. now apply apply_op_keeps_metadata.
Qed.

(** C3, amended.  After every sequence of cache operations on a
    forecaster started on any store, every key with a model in memory
    has metrics in memory; and it has metadata in memory as well after
    every sequence in which the save of each training goes through (a
    training whose save fails keeps the new model and metrics in memory
    without storing metadata). *)
Theorem C3_model_has_metrics_and_metadata (fs : gmap string file) (ops : list op) :
  (forall key, has_model (run ops (init fs)) key ->
               is_Some (model_performance (run ops (init fs)) !! key))
  /\ (Forall save_goes_through ops ->
      forall key, has_model (run ops (init fs)) key ->
                  is_Some (metadata (run ops (init fs)) !! key)
                  /\ is_Some (model_performance (run ops (init fs)) !! key)).
Proof.
  destruct (init_consistent fs) as [H1 H2].
  pose proof (run_keeps_metrics ops _ H1) as Hm.
  unfold has_model, metrics_for_models, metadata_for_models in *. split.
  - intros key Hk. apply elem_of_dom, Hm, elem_of_dom, Hk.
  - intros Hok key Hk. pose proof (run_keeps_metadata ops Hok _ H2) as Hd.
    split; apply elem_of_dom; [apply Hd|apply Hm]; apply elem_of_dom, Hk.
Qed.

End CacheClaims.

Lemma C3_model_has_metrics_and_metadata_witness :
  let ops :=
    [Forecaster.Train "2024-01-01 00:00:00" (sample_series 100) "Milk" "multiplicative"
       Forecaster.WriteOk Forecaster.WriteOk Forecaster.WriteOk;
     Forecaster.Load "Ghee"; Forecaster.Delete "Butter" true true true] in
  let st := Forecaster.run (lib := sample_library) ops
              (Forecaster.init (Forecaster.files stored_ghee)) in
  Forecaster.has_model st "Milk"
  /\ is_Some (Forecaster.metadata st !! "Milk"%string)
  /\ is_Some (Forecaster.model_performance st !! "Milk"%string).
Proof.
  cbv zeta.
  assert (Forecaster.has_model
            (Forecaster.run (lib := sample_library)
               [Forecaster.Train "2024-01-01 00:00:00" (sample_series 100) "Milk"
                  "multiplicative" Forecaster.WriteOk Forecaster.WriteOk Forecaster.WriteOk;
                Forecaster.Load "Ghee"; Forecaster.Delete "Butter" true true true]
               (Forecaster.init (Forecaster.files stored_ghee))) "Milk") as Hk
    by (vm_compute; now eexists).
  split; [exact Hk|].
  refine (proj2 (C3_model_has_metrics_and_metadata (lib := sample_library)
                   (Forecaster.files stored_ghee) _) _ _ Hk).
  repeat constructor; vm_compute; discriminate.
Defined.

(** ** Listing the saved keys *)

Section ListingFacts.
Import Forecaster.

(** A key with a space survives the round trip through the file
    name. *)
Lemma listing_decodes_spaces :
  let saved := save_model (lib := sample_library) "2024-01-01 00:00:00" "Cottage Cheese"
                 ("additive"%string, 100%nat) (sample_series 100)
                 WriteOk WriteOk WriteOk empty_state in
  snd saved = true /\ get_available_models (fst saved) = ["Cottage Cheese"%string].
Proof. cbv zeta. split; vm_compute; reflexivity. Qed.

(** C6, at the key "Amul_Milk" (the company page trains under keys
    of the form company_product).  The save succeeds and writes
    models/Amul_Milk_model.pkl; the listing decodes that name to
    "Amul Milk", so the saved key is not among the listed keys, and a
    forecaster started on this store holds the model under "Amul Milk"
    only. *)
Theorem C6_underscore_key_not_listed :
  let saved := save_model (lib := sample_library) "2024-01-01 00:00:00" "Amul_Milk"
                 ("additive"%string, 100%nat) (sample_series 100)
                 WriteOk WriteOk WriteOk empty_state in
  snd saved = true
  /\ model_exists "Amul_Milk" (fst saved) = true
  /\ get_available_models (fst saved) = ["Amul Milk"%string]
  /\ ~ In "Amul_Milk"%string (get_available_models (fst saved))
  /\ List.map fst (map_to_list (models (init (files (fst saved))))) = ["Amul Milk"%string].
Proof.
  cbv zeta. split; [vm_compute; reflexivity|]. split; [vm_compute; reflexivity|].
  split; [vm_compute; reflexivity|]. split; [|vm_compute; reflexivity].
  vm_compute. intros [H|[]]. discriminate H.
Qed.

End ListingFacts.

(** ** Keys that do survive the round trip *)

Section StringFacts.
Local Open Scope string_scope.

Lemma string_length_app (s t : string) :
  String.length (s ++ t) = (String.length s + String.length t)%nat.
Proof.
  induction s as [|c s IH]; [reflexivity|].
  change (S (String.length (s ++ t)) = S (String.length s + String.length t)).
  now f_equal.
Qed.

Lemma substring_all (s : string) : String.substring 0 (String.length s) s = s.
Proof.
  induction s as [|c s IH]; [reflexivity|].
  change (String c (String.substring 0 (String.length s) s) = String c s).
  now f_equal.
Qed.

Lemma substring_app_r (s t : string) :
  String.substring (String.length s) (String.length t) (s ++ t) = t.
Proof.
  induction s as [|c s IH]; cbn [String.append String.substring String.length];
    [apply substring_all|exact IH].
Qed.

Lemma prefix_refl (s : string) : String.prefix s s = true.
Proof.
  induction s as [|c s IH]; cbn; [reflexivity|].
  destruct (Ascii.ascii_dec c c); [exact IH|contradiction].
Qed.

(** [prefix] looks at no more than the first [length old] characters. *)
Lemma prefix_app_long (old u v : string) :
  (String.length old <= String.length u)%nat ->
  String.prefix old (u ++ v) = String.prefix old u.
Proof.
  revert u. induction old as [|a old IH]; intros u H;
    [destruct u; [destruct v|]; reflexivity|].
  destruct u as [|b u]; cbn in H; [lia|].
  change (String b u ++ v) with (String b (u ++ v)). cbn [String.prefix].
  destruct (Ascii.ascii_dec a b); [apply IH; lia|reflexivity].
Qed.

Lemma py_contains_suffix (old a b : string) :
  py_contains old (a ++ b) = false -> py_contains old b = false.
Proof.
  induction a as [|c a IH]; cbn [String.append]; [tauto|].
  cbn [py_contains]. intros H. apply orb_false_iff in H. now apply IH.
Qed.

Lemma py_contains_prefix (old s : string) :
  py_contains old s = false -> String.prefix old s = false.
Proof. destruct s; cbn [py_contains]; intros H; now apply orb_false_iff in H. Qed.

Lemma replace_from_skip_all (old new s : string) (k : nat) :
  (String.length s <= k)%nat -> replace_from old new k s = "".
Proof.
  revert k. induction s as [|c s IH]; intros k H; [reflexivity|].
  destruct k as [|k]; cbn in H; [lia|]. cbn. apply IH. lia.
Qed.

Lemma replace_from_0 (old new : string) (c : ascii) (rest : string) :
  replace_from old new 0 (String c rest)
  = if String.prefix old (String c rest)
    then new ++ replace_from old new (String.length old - 1) rest
    else String c (replace_from old new 0 rest).
Proof. reflexivity. Qed.

Lemma replace_whole (old : string) : old <> "" -> replace_from old "" 0 old = "".
Proof.
  destruct old as [|a r]; [contradiction|]. intros _.
  rewrite replace_from_0, prefix_refl.
  change ("" ++ ?x) with x. apply replace_from_skip_all. cbn. lia.
Qed.

Lemma string_app_assoc (s t u : string) : (s ++ t) ++ u = s ++ t ++ u.
Proof.
  induction s as [|c s IH]; [reflexivity|].
  change (String c ((s ++ t) ++ u) = String c (s ++ t ++ u)). now f_equal.
Qed.

(** Removing a suffix that occurs nowhere else. *)
Lemma replace_final_occurrence (old' : string) (x : ascii) (s : string) :
  py_contains (old' ++ String x "") (s ++ old') = false ->
  py_replace (old' ++ String x "") "" (s ++ old' ++ String x "") = s.
Proof.
  unfold py_replace. induction s as [|c s IH]; intros H.
  - change ("" ++ ?y) with y. apply replace_whole. destruct old'; discriminate.
  - change (String c s ++ ?y) with (String c (s ++ y)).
    rewrite replace_from_0.
    assert (String.prefix (old' ++ String x "")
              (String c (s ++ old' ++ String x "")) = false) as ->.
    { change (String c (s ++ old' ++ String x ""))
        with (String c s ++ old' ++ String x "").
      rewrite <- string_app_assoc, prefix_app_long.
      - apply py_contains_prefix. exact H.
      - rewrite !string_length_app. cbn. lia. }
    f_equal. apply IH.
    change (String c s ++ old') with (String c (s ++ old')) in H.
    cbn [py_contains] in H. now apply orb_false_iff in H.
Qed.

Lemma replace_char_step (a b c : ascii) (rest : string) :
  replace_from (String a "") (String b "") 0 (String c rest)
  = String (if Ascii.ascii_dec a c then b else c)
      (replace_from (String a "") (String b "") 0 rest).
Proof.
  rewrite replace_from_0. cbn [String.prefix].
  destruct (Ascii.ascii_dec a c); [|reflexivity].
  destruct rest; reflexivity.
Qed.

Lemma has_separator_app (s t : string) :
  has_separator (s ++ t) = has_separator s || has_separator t.
Proof.
  induction s as [|c s IH]; [reflexivity|].
  change (String c s ++ t) with (String c (s ++ t)). cbn [has_separator].
  now rewrite IH, orb_assoc.
Qed.

End StringFacts.

Section RoundTrip.
Import Forecaster.
Context {lib : ForecastLibrary}.
Local Open Scope string_scope.

Lemma safe_name_decodes (p : string) :
  py_contains "_" p = false -> py_replace "_" " " (safe_name p) = p.
Proof.
  unfold safe_name, py_replace. induction p as [|c p IH]; intros H; [reflexivity|].
  cbn [py_contains] in H. apply orb_false_iff in H. destruct H as [Hc Hp].
  rewrite replace_char_step. destruct (Ascii.ascii_dec " " c) as [<-|Hsp].
  - rewrite replace_char_step. destruct (Ascii.ascii_dec "_" "_"); [|contradiction].
    f_equal. now apply IH.
  - rewrite replace_char_step. destruct (Ascii.ascii_dec "_" c) as [<-|Hu].
    + cbn [String.prefix] in Hc.
      destruct (Ascii.ascii_dec "_" "_"); [destruct p; discriminate Hc|contradiction].
    + f_equal. now apply IH.
Qed.

Lemma safe_name_separator (p : string) : has_separator (safe_name p) = has_separator p.
Proof.
  unfold safe_name, py_replace. induction p as [|c p IH]; [reflexivity|].
  rewrite replace_char_step. destruct (Ascii.ascii_dec " " c) as [<-|Hsp]; cbn;
    now rewrite IH.
Qed.

Lemma model_path_plain (p : string) :
  has_separator p = false ->
  model_path p = "models/" ++ safe_name p ++ "_model.pkl".
Proof.
  intros H. unfold model_path, os_path_join.
  assert (String.prefix "/" (safe_name p ++ "_model.pkl") = false) as ->; [|reflexivity].
  pose proof (safe_name_separator p) as Hs. rewrite H in Hs.
  destruct (safe_name p) as [|c s]; [reflexivity|].
  cbn [has_separator] in Hs. apply orb_false_iff in Hs. destruct Hs as [Hc _].
  change (String c s ++ "_model.pkl") with (String c (s ++ "_model.pkl")).
  cbn [String.prefix].
  destruct (Ascii.ascii_dec "/" c) as [<-|]; [discriminate Hc|reflexivity].
Qed.

Lemma listdir_models (fs : gmap string file) (name : string) :
  is_Some (fs !! ("models/" ++ name)) ->
  has_separator name = false ->
  In name (listdir fs models_dir).
Proof.
  intros [v Hv] Hsep. unfold listdir. apply list_elem_of_In, list_elem_of_omap.
  exists ("models/" ++ name). split.
  - apply list_elem_of_In, in_map_iff. exists ("models/" ++ name, v).
    split; [reflexivity|]. apply list_elem_of_In, elem_of_map_to_list. exact Hv.
  - cbv zeta. change (models_dir ++ "/") with "models/".
    rewrite (prefix_app_long "models/" "models/" name) by (cbn; lia).
    rewrite prefix_refl, string_length_app.
    replace (String.length "models/" + String.length name - String.length "models/")%nat
      with (String.length name) by lia.
    rewrite substring_app_r, Hsep. reflexivity.
Qed.

Lemma py_endswith_app (s suffix : string) : py_endswith (s ++ suffix) suffix = true.
Proof.
  unfold py_endswith. rewrite string_length_app.
  replace (String.length s + String.length suffix - String.length suffix)%nat
    with (String.length s) by lia.
  rewrite substring_app_r, String.eqb_refl, andb_true_r.
  apply Nat.leb_le. lia.
Qed.

(** A key without underscore and without path separator, whose file
    name holds "_model.pkl" only as its ending, is listed after a
    successful save. *)
Lemma listing_contains_saved_key (now p : string) (model : Model)
    (data : list (Z * Q)) (st : State) :
  data <> [] ->
  py_contains "_" p = false ->
  has_separator p = false ->
  py_contains "_model.pkl" (safe_name p ++ "_model.pk") = false ->
  snd (save_model now p model data WriteOk WriteOk WriteOk st) = true
  /\ In p (get_available_models
             (fst (save_model now p model data WriteOk WriteOk WriteOk st))).
Proof.
  intros Hdata Hus Hsep Honce.
  destruct (save_model_success now p model data st Hdata) as (Hok & _ & Hfile).
  split; [exact Hok|]. rewrite (model_path_plain p Hsep) in Hfile.
  unfold get_available_models, model_files. apply in_map_iff.
  exists (safe_name p ++ "_model.pkl"). split.
  - unfold product_of_file.
    pose proof (replace_final_occurrence "_model.pk" "l" (safe_name p) Honce) as Hr.
    change ("_model.pk" ++ "l") with "_model.pkl" in Hr. rewrite Hr.
    now apply safe_name_decodes.
  - apply filter_In. split; [|apply py_endswith_app].
    apply listdir_models; [exact Hfile|].
    rewrite has_separator_app, safe_name_separator, Hsep. reflexivity.
Qed.

End RoundTrip.

(** * Further properties of the optimizer *)

Section PlanShape.
Import Optimizer.
Local Open Scope Q_scope.

(** X1.  The plan is absent exactly when there is no frame or no row for the
    product; the call never raises. *)
Theorem plan_absent_iff (forecasts : option DataFrame) (p : string) (s : Q)
    (custom_capacity : option Q) :
  (exists result,
     calculate_optimal_production forecasts p s custom_capacity = Returned result)
  /\ (calculate_optimal_production forecasts p s custom_capacity = Returned None
      <-> (forecasts = None
           \/ exists df, forecasts = Some df /\ select_product df p = [])).
Proof.
  split; [|split].
  - destruct forecasts as [df|]; [|eexists; reflexivity].
    destruct (select_product df p) as [|r l] eqn:E.
    + exists None. unfold calculate_optimal_production. rewrite E.
      destruct (List.length (rows df) =? 0)%nat; reflexivity.
    + eexists. apply calculate_optimal_production_eq. rewrite E. discriminate.
  - intros H. destruct forecasts as [df|]; [right|now left].
    exists df. split; [reflexivity|].
    destruct (select_product df p) as [|r l] eqn:E; [reflexivity|].
    rewrite calculate_optimal_production_eq in H by (rewrite E; discriminate).
    discriminate H.
  - intros [-> | (df & -> & E)]; [reflexivity|].
    unfold calculate_optimal_production. rewrite E.
    destruct (List.length (rows df) =? 0)%nat; reflexivity.
Qed.

Lemma Sorted_plan_dates (f : Row -> PlanRow) (l : list (nat * Row)) :
  (forall row, plan_date (f row) = date row) ->
  Sorted (fun a b => (date (snd a) <= date (snd b))%Z) l ->
  Sorted (fun a b => (plan_date a <= plan_date b)%Z) (List.map f (List.map snd l)).
Proof.
  intros Hf. induction 1 as [|x l Hs IH Hhd]; cbn [List.map]; constructor.
  - exact IH.
  - destruct Hhd as [|y l Hxy]; cbn [List.map]; constructor. now rewrite !Hf.
Qed.

(** X2.  A plan has one row per selected row, in ascending date order, and
    carries the dates and demands of the selection. *)
Theorem plan_rows_in_date_order (df : DataFrame) (p : string) (s : Q)
    (custom_capacity : option Q) :
  select_product df p <> [] ->
  exists plan,
    calculate_optimal_production (Some df) p s custom_capacity = Returned (Some plan)
    /\ List.length plan = List.length (select_product df p)
    /\ Sorted (fun a b => (plan_date a <= plan_date b)%Z) plan
    /\ Permutation (List.map (fun r => (plan_date r, forecasted_demand r)) plan)
         (List.map (fun lr => (date (snd lr), predicted_demand (snd lr)))
            (select_product df p)).
Proof.
  intros Hsel. eexists. split; [now apply calculate_optimal_production_eq|].
  split; [|split].
  - rewrite !length_map. apply Permutation_length, sort_values_perm.
  - apply Sorted_plan_dates; [reflexivity|apply sort_values_sorted].
  - rewrite !List.map_map. cbn [Claimed.plan_row plan_date forecasted_demand].
    apply Permutation_map, sort_values_perm.
Qed.

Lemma plan_rows_in_date_order_witness :
  exists plan,
    calculate_optimal_production (Some two_product_frame) "Butter" (1 # 10) None
      = Returned (Some plan)
    /\ List.length plan = List.length (select_product two_product_frame "Butter")
    /\ Sorted (fun a b => (plan_date a <= plan_date b)%Z) plan
    /\ Permutation (List.map (fun r => (plan_date r, forecasted_demand r)) plan)
         (List.map (fun lr => (date (snd lr), predicted_demand (snd lr)))
            (select_product two_product_frame "Butter")).
Proof.
  apply (plan_rows_in_date_order two_product_frame "Butter" (1 # 10) None).
  vm_compute. discriminate.
Defined.

End PlanShape.

Section UtilizationAndMargin.
Import Optimizer.
Local Open Scope Q_scope.

Lemma default_capacity_positive (p : string) : 0 < dict_get default_capacities p 1000.
Proof.
  unfold dict_get. destruct (default_capacities !! p) as [c|] eqn:E; [|reflexivity].
  apply elem_of_list_to_map_2 in E.
  repeat (apply elem_of_cons in E; destruct E as [E|E];
          [inversion E; subst; reflexivity|]).
  inversion E.
Qed.

(** With no override, or a non-negative one, the capacity in use is
    positive. *)
Lemma capacity_of_positive (p : string) (custom_capacity : option Q) :
  (forall c, custom_capacity = Some c -> 0 <= c) -> 0 < capacity_of p custom_capacity.
Proof.
  intros H. unfold capacity_of. destruct custom_capacity as [c|].
  - destruct (truthy c) eqn:E; [|apply default_capacity_positive].
    apply truthy_nonzero in E. specialize (H c eq_refl).
    apply Qle_lteq in H. destruct H as [H|H]; [exact H|]. exfalso. apply E. now symmetry.
  - apply default_capacity_positive.
Qed.

(** X3.  With no override, or a non-negative one, no row reports more than
    100% utilization; a row whose adjusted demand reaches the capacity
    reports exactly 100%; and with non-negative demand and a safety
    stock fraction of at least -1 no row reports a negative
    utilization. *)
Theorem utilization_at_most_hundred (df : DataFrame) (p : string) (s : Q)
    (custom_capacity : option Q) :
  select_product df p <> [] ->
  (forall c, custom_capacity = Some c -> 0 <= c) ->
  exists plan,
    calculate_optimal_production (Some df) p s custom_capacity = Returned (Some plan)
    /\ Forall2
         (fun lr r =>
            capacity_utilization r <= 100
            /\ (capacity_of p custom_capacity <= predicted_demand (snd lr) * (1 + s) ->
                capacity_utilization r == 100)
            /\ (0 <= predicted_demand (snd lr) -> -1 <= s -> 0 <= capacity_utilization r))
         (sort_values (select_product df p)) plan.
Proof.
  intros Hsel Hcustom. pose proof (capacity_of_positive p _ Hcustom) as Hcap.
  eexists. split; [now apply calculate_optimal_production_eq|].
  induction (sort_values (select_product df p)) as [|[i row] l IH]; cbn [List.map];
    constructor; [|exact IH].
  cbn [snd Claimed.plan_row capacity_utilization].
  set (cap := capacity_of p custom_capacity) in *.
  set (q := Qmin _ cap).
  assert (q <= cap) as Hq by apply Q.le_min_r.
  assert (q / cap * 100 == (q * 100) / cap) as Ediv by (field; lra).
  assert (q / cap * 100 <= 100) as Hle.
  { rewrite Ediv. apply Qle_shift_div_r; [exact Hcap|]. lra. }
  split; [|split].
  - change 100 with (inject_Z 100) at 2. apply py_round_le_Z. exact Hle.
  - intros Hfull. assert (q == cap) as Eq by (apply Q.min_r; exact Hfull).
    rewrite (py_round_exact _ 1 1000).
    + rewrite Eq. field. lra.
    + rewrite Eq. change (inject_Z (10 ^ Z.of_nat 1)) with 10.
      change (inject_Z 1000) with 1000. field. lra.
  - intros Hd Hs. change 0 with (inject_Z 0). apply py_round_ge_Z.
    change (inject_Z 0) with 0.
    assert (0 <= q) as Hq0 by (apply Q.min_glb; [nra|lra]).
    rewrite Ediv. apply Qle_shift_div_l; [exact Hcap|]. lra.
Qed.

Lemma utilization_at_most_hundred_witness :
  exists plan,
    calculate_optimal_production (Some two_product_frame) "Milk" (1 # 10) (Some 80)
      = Returned (Some plan)
    /\ Forall2
         (fun lr r =>
            capacity_utilization r <= 100
            /\ (capacity_of "Milk" (Some 80) <= predicted_demand (snd lr) * (1 + (1 # 10)) ->
                capacity_utilization r == 100)
            /\ (0 <= predicted_demand (snd lr) -> -1 <= 1 # 10 ->
                0 <= capacity_utilization r))
         (sort_values (select_product two_product_frame "Milk")) plan.
Proof.
  apply (utilization_at_most_hundred two_product_frame "Milk" (1 # 10) (Some 80)).
  - vm_compute. discriminate.
  - intros c Hc. injection Hc as <-. vm_compute. discriminate.
Defined.

Lemma price_estimate_positive (p : string) (price : Q) :
  price_estimates !! p = Some price -> 0 < price.
Proof.
  intros E. apply elem_of_list_to_map_2 in E.
  repeat (apply elem_of_cons in E; destruct E as [E|E];
          [inversion E; subst; reflexivity|]).
  inversion E.
Qed.

(** X4.  For a product of the cost and price tables the reported margin does
    not depend on demand, safety stock or capacity: every row with a
    positive production reports [(price - cost) / price * 100] to one
    decimal, and every other row reports 0. *)
Theorem margin_fixed_by_product (df : DataFrame) (p : string) (s : Q)
    (custom_capacity : option Q) (cost price : Q) :
  production_costs !! p = Some cost ->
  price_estimates !! p = Some price ->
  select_product df p <> [] ->
  exists plan,
    calculate_optimal_production (Some df) p s custom_capacity = Returned (Some plan)
    /\ Forall2
         (fun lr r =>
            let production :=
              Qmin (predicted_demand (snd lr) * (1 + s)) (capacity_of p custom_capacity) in
            (0 < production ->
             profit_margin r = py_round ((price - cost) / price * 100) 1)
            /\ (production <= 0 -> profit_margin r = 0))
         (sort_values (select_product df p)) plan.
Proof.
  intros Hcost Hprice Hsel. pose proof (price_estimate_positive p price Hprice) as Hpos.
  eexists. split; [now apply calculate_optimal_production_eq|].
  assert (dict_get production_costs p 0 = cost) as -> by (unfold dict_get; now rewrite Hcost).
  assert (_estimate_price p = price) as ->
    by (unfold _estimate_price, dict_get; now rewrite Hprice).
  induction (sort_values (select_product df p)) as [|[i row] l IH]; cbn [List.map];
    constructor; [|exact IH].
  cbn [snd Claimed.plan_row profit_margin]. cbv zeta. set (q := Qmin _ _).
  split; intros Hq; destruct (Qlt_le_dec 0 (q * price)) as [Hlt|Hle];
    try reflexivity; try nra.
  apply py_round_comp. field. split; lra.
Qed.

Lemma margin_fixed_by_product_witness :
  exists plan,
    calculate_optimal_production (Some two_product_frame) "Milk" (1 # 10) None
      = Returned (Some plan)
    /\ Forall2
         (fun lr r =>
            let production :=
              Qmin (predicted_demand (snd lr) * (1 + (1 # 10))) (capacity_of "Milk" None) in
            (0 < production -> profit_margin r = py_round ((25 - 15) / 25 * 100) 1)
            /\ (production <= 0 -> profit_margin r = 0))
         (sort_values (select_product two_product_frame "Milk")) plan.
Proof.
  apply (margin_fixed_by_product two_product_frame "Milk" (1 # 10) None 15 25).
  - vm_compute. reflexivity.
  - vm_compute. reflexivity.
  - vm_compute. discriminate.
Defined.

End UtilizationAndMargin.

Section InventoryMore.
Import Optimizer.
Local Open Scope Q_scope.

Lemma storage_cost_positive (p : string) : 0 < dict_get storage_costs p 1.
Proof.
  unfold dict_get. destruct (storage_costs !! p) as [c|] eqn:E; [|reflexivity].
  apply elem_of_list_to_map_2 in E.
  repeat (apply elem_of_cons in E; destruct E as [E|E];
          [inversion E; subst; reflexivity|]).
  inversion E.
Qed.

Lemma py_max_ge_l (a b : Q) : a <= py_max a b.
Proof.
  unfold py_max. destruct (Qle_bool b a) eqn:E; [apply Qle_refl|].
  apply Qle_bool_false in E. now apply Qlt_le_weak.
Qed.

Lemma inventory_loop_shape (pf : list (nat * Row)) (d : nat) (c : Q)
    (todo : list (nat * Row)) :
  0 <= c ->
  forall stock plan,
    Forall (fun r => 0 <= current_inventory r /\ 0 <= daily_storage_cost r) plan ->
    Forall (fun r => 0 <= current_inventory r /\ 0 <= daily_storage_cost r)
      (inventory_loop pf d c todo stock plan)
    /\ List.length (inventory_loop pf d c todo stock plan)
       = (List.length plan + List.length todo)%nat.
Proof.
  intros Hc. induction todo as [|[i row] rest IH]; intros stock plan Hplan;
    cbn [inventory_loop List.length].
  - split; [exact Hplan|lia].
  - set (stock' := py_max 0 _). set (new_row := mkInventoryRow _ _ _ _ _ _ _ _).
    destruct (IH stock' (plan ++ [new_row])) as [H1 H2].
    + apply Forall_app. split; [exact Hplan|]. constructor; [|constructor].
      assert (0 <= stock') as Hs by apply py_max_ge_l.
      subst new_row. cbn [current_inventory daily_storage_cost]. split.
      * change 0 with (inject_Z 0). apply py_round_ge_Z. exact Hs.
      * change 0 with (inject_Z 0). apply py_round_ge_Z. change (inject_Z 0) with 0. nra.
    + split; [exact H1|]. rewrite H2, length_app. cbn [List.length]. lia.
Qed.

(** X5.  The inventory plan has one row per selected row, and no row
    reports a negative stock or a negative storage cost, whatever the
    demand and the opening inventory. *)
Theorem inventory_never_negative (df : DataFrame) (p : string) (inv : Q) :
  select_product df p <> [] ->
  exists plan,
    calculate_inventory_optimization (Some df) p inv = Some plan
    /\ List.length plan = List.length (select_product df p)
    /\ Forall (fun r => 0 <= current_inventory r /\ 0 <= daily_storage_cost r) plan.
Proof.
  intros Hsel. pose proof (select_product_nonempty _ _ Hsel) as Hrows.
  unfold calculate_inventory_optimization.
  destruct (rows df) as [|r0 rs] eqn:Er; [contradiction|]. cbn [List.length Nat.eqb].
  destruct (select_product df p) as [|s0 ss] eqn:Es; [contradiction|].
  cbn [List.length Nat.eqb]. eexists. split; [reflexivity|].
  destruct (inventory_loop_shape (s0 :: ss) (dict_get shelf_life p 30%nat)
              (dict_get storage_costs p 1) (s0 :: ss)
              (Qlt_le_weak _ _ (storage_cost_positive p)) inv [] (List.Forall_nil _))
    as [H1 H2].
  split; [exact H2|exact H1].
Qed.

Lemma inventory_never_negative_witness :
  exists plan,
    calculate_inventory_optimization (Some two_product_frame) "Butter" (-3) = Some plan
    /\ List.length plan = List.length (select_product two_product_frame "Butter")
    /\ Forall (fun r => 0 <= current_inventory r /\ 0 <= daily_storage_cost r) plan.
Proof.
  apply (inventory_never_negative two_product_frame "Butter" (-3)).
  vm_compute. discriminate.
Defined.

End InventoryMore.

(** ** The inventory plan on binary64 floats *)

Section Binary64Inventory.
Import PrimFloat Binary64.
Context {pandas : Pandas}.

Lemma combine_seq_labels {A : Type} (l : list A) (k : nat) :
  List.map fst (combine (seq k (List.length l)) l) = seq k (List.length l)
  /\ List.map snd (combine (seq k (List.length l)) l) = l.
Proof.
  revert k. induction l as [|r l IH]; intros k;
    cbn [List.length seq combine List.map fst snd]; [split; reflexivity|].
  destruct (IH (S k)) as [H1 H2]. now rewrite H1, H2.
Qed.

(** When the label of the current row is its position, the lookahead
    window is the next [days] rows from the current one. *)
Lemma float_future_demand_at_position (pf todo : list (nat * Row)) (k days : nat) :
  skipn k pf = todo -> todo <> [] ->
  _calculate_future_demand pf k days
  = NpFloat (column_sum (List.map predicted_demand (firstn days (List.map snd todo)))).
Proof.
  intros Hskip Hne. unfold _calculate_future_demand, Optimizer.iloc. rewrite Hskip.
  assert (List.length pf = (k + List.length todo)%nat) as Hlen.
  { rewrite <- Hskip, length_skipn.
    assert (k < List.length pf)%nat; [|lia].
    destruct (Nat.le_gt_cases (List.length pf) k) as [H|H]; [|exact H].
    rewrite skipn_all2 in Hskip by exact H. now subst. }
  replace (Nat.min (k + days) (List.length pf) - k)%nat
    with (Nat.min days (List.length todo)) by lia.
  rewrite firstn_min_length, firstn_map, List.map_map. reflexivity.
Qed.

Lemma float_inventory_loop_positional (pf : list (nat * Row)) (d : nat) (c : float)
    (todo : list (nat * Row)) :
  forall k stock plan,
    skipn k pf = todo ->
    List.map fst todo = seq k (List.length todo) ->
    inventory_loop pf d c todo stock plan
    = plan ++ Claimed64.inventory_pass d c (List.map snd todo) stock.
Proof.
  induction todo as [|[i row] rest IH]; intros k stock plan Hskip Hlab.
  - cbn. now rewrite app_nil_r.
  - cbn [List.map List.length seq fst] in Hlab. inversion Hlab as [[Hi Hrest]]. subst i.
    cbn [inventory_loop].
    rewrite (float_future_demand_at_position pf ((k, row) :: rest) k d Hskip)
      by discriminate.
    rewrite (IH (S k)); [|now apply skipn_tail in Hskip|exact Hrest].
    rewrite <- app_assoc. reflexivity.
Qed.

(** X6.  On binary64 floats, on a frame of freshly numbered rows that
    holds one product only (no product column, or every row of the
    product asked for), the inventory plan is the forward pass: at each
    row the lookahead is the column sum over the next shelf-life rows
    from the current one, truncated at the end of the series. *)
Theorem inventory_forward_pass_single_product (has_column : bool) (l : list Row)
    (p : string) (inv : float) :
  l <> [] ->
  (has_column = true -> Forall (fun row => product row = p) l) ->
  calculate_inventory_optimization (Some (mkFrame has_column (range_index l))) p inv
  = Some (Claimed64.inventory_pass (dict_get Optimizer.shelf_life p 30%nat)
            (dict_get storage_costs p 1%float) l (PyFloat inv)).
Proof.
  intros Hne Hprod. destruct (combine_seq_labels l 0) as [H1 H2].
  fold (range_index l) in H1, H2.
  assert (select_product (mkFrame has_column (range_index l)) p = range_index l) as Hsel.
  { unfold select_product. cbn [has_product_column rows].
    destruct has_column; [|reflexivity]. specialize (Hprod eq_refl).
    apply forallb_filter_id, forallb_forall. intros [i row] Hin. cbn [snd].
    apply String.eqb_eq. rewrite List.Forall_forall in Hprod. apply Hprod.
    rewrite <- H2. apply (in_map snd) in Hin. exact Hin. }
  assert (range_index l <> []) as Hne'.
  { intros E. apply Hne. rewrite <- H2, E. reflexivity. }
  unfold calculate_inventory_optimization. cbn [rows]. rewrite Hsel.
  destruct (range_index l) as [|r0 rs] eqn:Er; [contradiction|].
  cbn [List.length Nat.eqb].
  rewrite (float_inventory_loop_positional _ _ _ _ 0%nat); [|reflexivity|].
  - now rewrite H2.
  - rewrite H1. f_equal. rewrite <- H2 at 1. now rewrite length_map.
Qed.

End Binary64Inventory.

Section Binary64InventorySamples.
Import PrimFloat Binary64 Samples64.

Lemma inventory_forward_pass_single_product_witness :
  calculate_inventory_optimization
    (Some (mkFrame true (range_index [mkRow 1 "Butter" 5; mkRow 2 "Butter" 7]))) "Butter" 0
  = Some (Claimed64.inventory_pass (dict_get Optimizer.shelf_life "Butter" 30%nat)
            (dict_get storage_costs "Butter" 1%float)
            [mkRow 1 "Butter" 5; mkRow 2 "Butter" 7] (PyFloat 0)).
Proof.
  apply (inventory_forward_pass_single_product true
           [mkRow 1 "Butter" 5; mkRow 2 "Butter" 7] "Butter" 0%float).
  - discriminate.
  - intros _. repeat constructor.
Defined.

(** The plan of the witness.  The first day orders the lookahead of
    12 units and keeps 7 after the demand of 5; the second day finds 7
    units, below its reorder point of 14, and orders nothing more, its
    lookahead being 7. *)
Example binary64_inventory_of_butter :
  calculate_inventory_optimization
    (Some (mkFrame true (range_index [mkRow 1 "Butter" 5; mkRow 2 "Butter" 7]))) "Butter" 0
  = Some [mkInventoryRow 1 7 5 12 10 12 14 "Reorder Required";
          mkInventoryRow 2 0 7 7 14 0 0 "Reorder Required"].
Proof. vm_compute. reflexivity. Qed.

(** The two roundings differ: 2.675 is the float
    2.67499999999999982..., which Python rounds to 2.67, while numpy
    rounds [2.675 * 100 = 267.5] to 268. *)
Example python_and_numpy_rounding :
  py_round 2.675 2 = 2.67%float /\ np_round 2.675 2 = 2.68%float.
Proof. split; vm_compute; reflexivity. Qed.

End Binary64InventorySamples.

Section SummaryMore.
Import Optimizer.
Local Open Scope Q_scope.

Lemma plan_nonempty (df : DataFrame) (p : string) (s : Q) (custom_capacity : option Q) :
  select_product df p <> [] ->
  exists r plan,
    calculate_optimal_production (Some df) p s custom_capacity = Returned (Some (r :: plan)).
Proof.
  intros Hsel. rewrite calculate_optimal_production_eq by exact Hsel.
  pose proof (Permutation_length (sort_values_perm (select_product df p))) as Hlen.
  destruct (sort_values (select_product df p)) as [|x l].
  - destruct (select_product df p); [contradiction|discriminate Hlen].
  - cbn [List.map]. now eexists _, _.
Qed.

Lemma plan_of_empty_selection (df : DataFrame) (p : string) (s : Q)
    (custom_capacity : option Q) :
  select_product df p = [] ->
  calculate_optimal_production (Some df) p s custom_capacity = Returned None.
Proof.
  intros E. unfold calculate_optimal_production. rewrite E.
  destruct (List.length (rows df) =? 0)%nat; reflexivity.
Qed.

(** The analysis dict after the loop: entries are added for the listed
    products that have rows, and nothing else changes. *)
Lemma summary_loop_analysis (df : DataFrame) (products : list string) :
  forall analysis c r analysis' c' r',
    summary_loop (Some df) products analysis c r = Returned (analysis', c', r') ->
    forall p,
      (In p products -> select_product df p <> [] ->
       exists plan,
         calculate_optimal_production (Some df) p default_safety_stock None
           = Returned (Some plan)
         /\ analysis' !! p = Some (summarize_plan p plan))
      /\ ((~ In p products \/ select_product df p = []) -> analysis' !! p = analysis !! p).
Proof.
  induction products as [|q ps IH]; intros analysis c r analysis' c' r' E p;
    cbn [summary_loop] in E.
  - injection E as <- <- <-. split; [intros []|reflexivity].
  - destruct (select_product df q) as [|x l] eqn:Esel.
    + rewrite plan_of_empty_selection in E by exact Esel. cbn [bind] in E.
      destruct (IH _ _ _ _ _ _ E p) as [H1 H2]. split.
      * intros [<-|Hin] Hp; [congruence|now apply H1].
      * intros [Hnot|Hp]; apply H2; [left; intros Hin; apply Hnot; now right|now right].
    + destruct (plan_nonempty df q default_safety_stock None) as (r0 & plan & Eplan);
        [rewrite Esel; discriminate|].
      rewrite Eplan in E. cbn [bind] in E.
      destruct (IH _ _ _ _ _ _ E p) as [H1 H2]. split.
      * intros Hin Hp. destruct (in_dec string_dec p ps) as [Hps|Hps]; [now apply H1|].
        destruct Hin as [<-|Hin]; [|contradiction].
        exists (r0 :: plan). split; [exact Eplan|].
        rewrite H2 by now left. apply lookup_insert_eq.
      * intros [Hnot|Hp].
        -- rewrite H2 by (left; intros Hin; apply Hnot; now right).
           apply lookup_insert_ne. intros ->. apply Hnot. now left.
        -- rewrite H2 by now right. apply lookup_insert_ne. intros ->. congruence.
Qed.

(** X7.  The summary counts every listed product, analyses exactly the
    listed products that have rows in the frame, and leaves a product
    without rows out instead of failing. *)
Theorem summary_covers_products_with_rows (today : string) (df : DataFrame)
    (products : list string) (time_horizon : nat) :
  exists summary,
    generate_optimization_summary today (Some df) products time_horizon = Returned summary
    /\ total_products summary = List.length products
    /\ forall p,
         (In p products -> select_product df p <> [] ->
          exists plan,
            calculate_optimal_production (Some df) p default_safety_stock None
              = Returned (Some plan)
            /\ products_analysis summary !! p = Some (summarize_plan p plan))
         /\ ((~ In p products \/ select_product df p = []) ->
             products_analysis summary !! p = None).
Proof.
  unfold generate_optimization_summary.
  destruct (summary_loop_returns (Some df) products ∅ 0 0) as (a & c & r & E & _ & _).
  rewrite E. cbn [bind].
  destruct (overall_margin_returns c r) as (m & Em & _ & _). rewrite Em. cbn [bind].
  eexists. split; [reflexivity|]. split; [reflexivity|]. intros p.
  destruct (summary_loop_analysis df products _ _ _ _ _ _ E p) as [H1 H2].
  cbn [products_analysis]. split; [exact H1|].
  intros H. rewrite (H2 H). apply lookup_empty.
Qed.

End SummaryMore.

Section CapacityFacts.
Import Optimizer Capacity.
Local Open Scope Q_scope.

Lemma py_sum_app_one (l : list Q) (x : Q) : py_sum (l ++ [x]) == py_sum l + x.
Proof.
  induction l as [|y l IH]; cbn [app].
  - rewrite py_sum_cons. unfold py_sum. cbn. ring.
  - rewrite !py_sum_cons, IH. ring.
Qed.

Lemma add_to_group_total (r : PlanRow) (groups : list (Z * list PlanRow)) :
  groups_total (add_to_group r groups) == groups_total groups + optimal_production r.
Proof.
  unfold groups_total. induction groups as [|[d rs] rest IH]; cbn [add_to_group].
  - cbn [List.map snd]. rewrite !py_sum_cons. change (py_sum []) with 0. ring.
  - destruct (plan_date r <? d)%Z.
    + cbn [List.map snd]. rewrite !py_sum_cons. change (py_sum []) with 0. ring.
    + destruct (plan_date r =? d)%Z; cbn [List.map snd].
      * rewrite !py_sum_cons, List.map_app. cbn [List.map].
        rewrite py_sum_app_one. ring.
      * rewrite !py_sum_cons, IH. ring.
Qed.

Lemma add_to_group_dates (r : PlanRow) (groups : list (Z * list PlanRow)) (d : Z) :
  In d (List.map fst (add_to_group r groups))
  <-> d = plan_date r \/ In d (List.map fst groups).
Proof.
  induction groups as [|[d' rs] rest IH]; cbn [add_to_group].
  - cbn. intuition.
  - destruct (Z.ltb_spec (plan_date r) d'); [cbn; intuition|].
    destruct (Z.eqb_spec (plan_date r) d') as [E|E]; cbn [List.map fst In].
    + subst d'. intuition.
    + rewrite IH. intuition.
Qed.

Lemma add_to_group_hd (r : PlanRow) (groups : list (Z * list PlanRow)) (d : Z) :
  (d < plan_date r)%Z ->
  HdRel Z.lt d (List.map fst groups) ->
  HdRel Z.lt d (List.map fst (add_to_group r groups)).
Proof.
  intros Hd Hhd. destruct groups as [|[d' rs] rest]; cbn [add_to_group].
  - cbn. now constructor.
  - inversion Hhd; subst.
    destruct (plan_date r <? d')%Z; [cbn; now constructor|].
    destruct (plan_date r =? d')%Z; cbn; now constructor.
Qed.

Lemma add_to_group_sorted (r : PlanRow) (groups : list (Z * list PlanRow)) :
  Sorted Z.lt (List.map fst groups) ->
  Sorted Z.lt (List.map fst (add_to_group r groups)).
Proof.
  induction groups as [|[d rs] rest IH]; intros Hs; cbn [add_to_group].
  - cbn. repeat constructor.
  - destruct (Z.ltb_spec (plan_date r) d) as [Hlt|Hge].
    + cbn [List.map fst]. constructor; [exact Hs|]. now constructor.
    + destruct (Z.eqb_spec (plan_date r) d) as [E|E]; [exact Hs|].
      cbn [List.map fst] in *. inversion Hs as [|? ? Hs' Hhd]; subst.
      constructor; [now apply IH|]. apply add_to_group_hd; [lia|exact Hhd].
Qed.

Lemma groupby_date_facts (plan : list PlanRow) :
  forall groups,
    Sorted Z.lt (List.map fst groups) ->
    let result := fold_left (fun g r => add_to_group r g) plan groups in
    Sorted Z.lt (List.map fst result)
    /\ (forall d, In d (List.map fst result)
                  <-> In d (List.map plan_date plan) \/ In d (List.map fst groups))
    /\ groups_total result
       == groups_total groups + py_sum (List.map optimal_production plan).
Proof.
  induction plan as [|r plan IH]; intros groups Hs; cbn [fold_left List.map].
  - cbv zeta. split; [exact Hs|]. split; [cbn; intuition|].
    change (py_sum []) with 0. ring.
  - cbv zeta. destruct (IH (add_to_group r groups) (add_to_group_sorted r groups Hs))
      as (H1 & H2 & H3).
    split; [exact H1|]. split.
    + intros d. rewrite H2, add_to_group_dates. cbn [In]. intuition.
    + rewrite H3, add_to_group_total, py_sum_cons. ring.
Qed.

(** X8.  The utilization report of a non-empty plan has one row per
    distinct date of the plan, in ascending date order, and its
    production totals add up to the production of the plan: no row is
    lost or counted twice. *)
Theorem utilization_report_by_date (plan : list PlanRow)
    (custom_capacities : option (gmap string Q)) :
  plan <> [] ->
  exists report,
    calculate_capacity_utilization (Some plan) true custom_capacities = Some report
    /\ Sorted Z.lt (List.map util_date report)
    /\ (forall d, In d (List.map util_date report) <-> In d (List.map plan_date plan))
    /\ py_sum (List.map total_production report)
       == py_sum (List.map optimal_production plan).
Proof.
  intros Hne. unfold calculate_capacity_utilization.
  destruct plan as [|r0 plan]; [contradiction|]. cbn [List.length Nat.eqb].
  eexists. split; [reflexivity|].
  destruct (groupby_date_facts (r0 :: plan) [] (Sorted_nil _)) as (H1 & H2 & H3).
  cbv zeta in H1, H2, H3. fold (groupby_date (r0 :: plan)) in H1, H2, H3.
  rewrite !List.map_map. cbn [utilization_row util_date total_production].
  split; [exact H1|]. split.
  - intros d. rewrite H2. cbn [List.map In]. intuition.
  - unfold groups_total in H3. rewrite H3. cbn [List.map].
    change (py_sum []) with 0. ring.
Qed.

End CapacityFacts.

(** * Further properties of the model cache *)

Section PathFacts.
Import Forecaster.
Local Open Scope string_scope.

Lemma substring_skip (b t : string) (k n : nat) :
  String.substring (String.length b + k) n (b ++ t) = String.substring k n t.
Proof.
  induction b as [|c b IH]; [reflexivity|].
  change (String c b ++ t) with (String c (b ++ t)).
  change (String.length (String c b) + k)%nat with (S (String.length b + k)).
  cbn [String.substring]. exact IH.
Qed.

(** Whether a long enough ending is the suffix asked for does not
    depend on what precedes it. *)
Lemma py_endswith_skip (b t suffix : string) :
  (String.length suffix <= String.length t)%nat ->
  py_endswith (b ++ t) suffix = py_endswith t suffix.
Proof.
  intros H. unfold py_endswith. rewrite string_length_app.
  replace (String.length b + String.length t - String.length suffix)%nat
    with (String.length b + (String.length t - String.length suffix))%nat by lia.
  rewrite substring_skip. f_equal.
  apply eq_true_iff_eq. rewrite !Nat.leb_le. lia.
Qed.

(** A path of the store is a prefix, the safe name and the ending of
    its kind. *)
Lemma os_path_join_ends (name : string) :
  exists pre, os_path_join models_dir name = pre ++ name.
Proof.
  unfold os_path_join. destruct (String.prefix "/" name).
  - now exists "".
  - exists "models/". reflexivity.
Qed.

Lemma path_ending (name ending suffix : string) :
  (String.length suffix <= String.length ending)%nat ->
  py_endswith (os_path_join models_dir (name ++ ending)) suffix
  = py_endswith ending suffix.
Proof.
  intros H. destruct (os_path_join_ends (name ++ ending)) as [pre ->].
  rewrite <- string_app_assoc. now apply py_endswith_skip.
Qed.

Lemma model_path_not_performance (p q : string) : model_path p <> performance_path q.
Proof.
  intros E. apply (f_equal (fun s => py_endswith s "_model.pkl")) in E.
  unfold model_path, performance_path in E.
  rewrite !path_ending in E by (cbn; lia). vm_compute in E. discriminate E.
Qed.

Lemma model_path_not_metadata (p q : string) : model_path p <> metadata_path q.
Proof.
  intros E. apply (f_equal (fun s => py_endswith s "_model.pkl")) in E.
  unfold model_path, metadata_path in E.
  rewrite !path_ending in E by (cbn; lia). vm_compute in E. discriminate E.
Qed.

Lemma performance_path_not_metadata (p q : string) :
  performance_path p <> metadata_path q.
Proof.
  intros E. apply (f_equal (fun s => py_endswith s "_metadata.pkl")) in E.
  unfold performance_path, metadata_path in E.
  rewrite !path_ending in E by (cbn; lia). vm_compute in E. discriminate E.
Qed.

(** Keys with the same safe name share their three paths. *)
Lemma paths_of_safe_name (p q : string) :
  safe_name q = safe_name p ->
  model_path q = model_path p
  /\ performance_path q = performance_path p
  /\ metadata_path q = metadata_path p.
Proof. unfold model_path, performance_path, metadata_path. now intros ->. Qed.

End PathFacts.

Section SaveLoad.
Import Forecaster.
Context {lib : ForecastLibrary}.
Local Open Scope string_scope.

(** X10.  A save succeeds exactly when its three writes succeed and the
    training series is not empty; a save that fails changes none of the
    three dicts (it may still have written some of the files). *)
Theorem save_succeeds_iff (now p : string) (model : Model) (data : list (Z * Q))
    (wm wp wd : write_result) (st : State) :
  (snd (save_model now p model data wm wp wd st) = true
   <-> wm = WriteOk /\ wp = WriteOk /\ wd = WriteOk /\ data <> [])
  /\ (snd (save_model now p model data wm wp wd st) = false ->
      models (fst (save_model now p model data wm wp wd st)) = models st
      /\ model_performance (fst (save_model now p model data wm wp wd st))
         = model_performance st
      /\ metadata (fst (save_model now p model data wm wp wd st)) = metadata st).
Proof.
  unfold save_model.
  destruct wm; cbn [write_file negb fst snd with_files models model_performance metadata];
    try (split; [split; [discriminate|intros (H & _); discriminate H]|now auto]);
  destruct wp; cbn [write_file negb fst snd with_files models model_performance metadata];
    try (split; [split; [discriminate|intros (_ & H & _); discriminate H]|now auto]);
  destruct data as [|[d y] rest];
    cbn [write_file negb fst snd with_files models model_performance metadata];
    try (split; [split; [discriminate|intros (_ & _ & _ & H); now contradiction H]|now auto]);
  destruct wd; cbn [write_file negb fst snd with_files models model_performance metadata];
    try (split; [split; [discriminate|intros (_ & _ & H & _); discriminate H]|now auto]).
  split; [|discriminate]. split; [|reflexivity]. intros _. repeat split. discriminate.
Qed.

(** The store after a successful save. *)
Lemma save_model_written (now p : string) (model : Model) (data : list (Z * Q))
    (st : State) :
  data <> [] ->
  exists md,
    md_product md = p /\ md_data_points md = List.length data
    /\ save_model now p model data WriteOk WriteOk WriteOk st
       = ({| models := models st;
             model_performance := model_performance st;
             metadata := <[p := ObjMetadata md]> (metadata st);
             files :=
               <[metadata_path p := Pickle (ObjMetadata md)]>
                 (<[performance_path p :=
                      Pickle (dict_get (model_performance st) p (ObjPerformance NoMetrics))]>
                    (<[model_path p := Pickle (ObjModel model)]> (files st))) |}, true).
Proof.
  intros Hne. destruct data as [|[d y] rest]; [contradiction|].
  eexists. split; [|split]; [| |reflexivity]; reflexivity.
Qed.

(** X11.  Save, then load under a key with the same safe name (the key
    itself, or one that differs from it in spaces against underscores):
    the load succeeds and the dicts hold, under the loading key, the
    model saved, the metrics written with it and the metadata of the
    save, which names the saving key and counts the training points. *)
Theorem save_then_load (now p q : string) (model : Model) (data : list (Z * Q))
    (st : State) :
  data <> [] ->
  safe_name q = safe_name p ->
  exists st' md,
    load_model q (fst (save_model now p model data WriteOk WriteOk WriteOk st)) = (st', true)
    /\ models st' !! q = Some (ObjModel model)
    /\ model_performance st' !! q
       = Some (dict_get (model_performance st) p (ObjPerformance NoMetrics))
    /\ metadata st' !! q = Some (ObjMetadata md)
    /\ md_product md = p
    /\ md_data_points md = List.length data.
Proof.
  intros Hne Hsafe. destruct (save_model_written now p model data st Hne)
    as (md & Hp & Hn & ->).
  destruct (paths_of_safe_name p q Hsafe) as (Em & Ep & Ed).
  cbn [fst]. unfold load_model. cbn [files]. rewrite Em, Ep, Ed.
  rewrite lookup_insert_ne by (apply not_eq_sym, model_path_not_metadata).
  rewrite lookup_insert_ne by (apply not_eq_sym, model_path_not_performance).
  rewrite lookup_insert_eq.
  rewrite (lookup_insert_ne _ (metadata_path p) (performance_path p))
    by (apply not_eq_sym, performance_path_not_metadata).
  rewrite !lookup_insert_eq.
  eexists _, md. split; [reflexivity|].
  cbn [models model_performance metadata]. rewrite !lookup_insert_eq. auto.
Qed.

End SaveLoad.

Lemma save_then_load_witness :
  exists st' md,
    Forecaster.load_model (lib := sample_library) "Cottage_Cheese"
      (fst (Forecaster.save_model "2024-01-01 00:00:00" "Cottage Cheese"
              ("additive"%string, 100%nat) (sample_series 100)
              Forecaster.WriteOk Forecaster.WriteOk Forecaster.WriteOk empty_state))
    = (st', true)
    /\ Forecaster.models st' !! "Cottage_Cheese"%string
       = Some (Forecaster.ObjModel ("additive"%string, 100%nat))
    /\ Forecaster.model_performance st' !! "Cottage_Cheese"%string
       = Some (dict_get (Forecaster.model_performance empty_state) "Cottage Cheese"
                 (Forecaster.ObjPerformance Forecaster.NoMetrics))
    /\ Forecaster.metadata st' !! "Cottage_Cheese"%string = Some (Forecaster.ObjMetadata md)
    /\ Forecaster.md_product md = "Cottage Cheese"%string
    /\ Forecaster.md_data_points md = List.length (sample_series 100).
Proof.
  apply (save_then_load (lib := sample_library) "2024-01-01 00:00:00" "Cottage Cheese"
           "Cottage_Cheese" ("additive"%string, 100%nat) (sample_series 100) empty_state).
  - vm_compute. discriminate.
  - vm_compute. reflexivity.
Defined.

Section DeleteFacts.
Import Forecaster.
Context {lib : ForecastLibrary}.
Local Open Scope string_scope.

Lemma remove_file_allowed (path : string) (fs : gmap string file) :
  remove_file true path fs = (delete path fs, true).
Proof.
  unfold remove_file. destruct (fs !! path) eqn:E; [reflexivity|].
  now rewrite delete_id.
Qed.

(** X12.  A delete that the environment lets through reports success,
    leaves none of the three entries of the key in the store, purges
    the key from the three dicts and touches no other key of the dicts
    and no other path; afterwards the key does not exist and cannot be
    loaded. *)
Theorem delete_removes_key (p : string) (st : State) :
  exists st',
    delete_model p true true true st = (st', true)
    /\ files st' !! model_path p = None
    /\ files st' !! performance_path p = None
    /\ files st' !! metadata_path p = None
    /\ models st' !! p = None
    /\ model_performance st' !! p = None
    /\ metadata st' !! p = None
    /\ model_exists p st' = false
    /\ load_model p st' = (st', false)
    /\ (forall k, k <> p ->
          models st' !! k = models st !! k
          /\ model_performance st' !! k = model_performance st !! k
          /\ metadata st' !! k = metadata st !! k)
    /\ (forall path, path <> model_path p -> path <> performance_path p ->
          path <> metadata_path p -> files st' !! path = files st !! path).
Proof.
  unfold delete_model. rewrite !remove_file_allowed. cbn [negb].
  eexists. split; [reflexivity|]. cbn [files models model_performance metadata].
  assert (delete (metadata_path p) (delete (performance_path p)
            (delete (model_path p) (files st))) !! model_path p = None) as Hm.
  { rewrite lookup_delete_ne by (apply not_eq_sym, model_path_not_metadata).
    rewrite lookup_delete_ne by (apply not_eq_sym, model_path_not_performance).
    apply lookup_delete_eq. }
  split; [exact Hm|].
  split; [rewrite lookup_delete_ne by (apply not_eq_sym, performance_path_not_metadata);
          apply lookup_delete_eq|].
  split; [apply lookup_delete_eq|].
  rewrite !lookup_delete_eq. split; [reflexivity|]. split; [reflexivity|].
  split; [reflexivity|]. split.
  { unfold model_exists. cbn [files]. rewrite Hm. apply bool_decide_eq_false.
    intros [x Hx]. discriminate Hx. }
  split; [unfold load_model; cbn [files]; now rewrite Hm|]. split.
  - intros k Hk. now rewrite !lookup_delete_ne by (apply not_eq_sym; exact Hk).
  - intros path H1 H2 H3. now rewrite !lookup_delete_ne by (apply not_eq_sym; assumption).
Qed.

(** X13.  Deleting a key that has no entry in the store and none in the
    dicts succeeds and changes nothing, whatever the environment would
    do to a removal. *)
Theorem delete_unknown_key (p : string) (rm rp rd : bool) (st : State) :
  files st !! model_path p = None ->
  files st !! performance_path p = None ->
  files st !! metadata_path p = None ->
  models st !! p = None ->
  model_performance st !! p = None ->
  metadata st !! p = None ->
  delete_model p rm rp rd st = (st, true).
Proof.
  intros Hm Hp Hd Hmm Hmp Hmd. unfold delete_model, remove_file.
  rewrite Hm. cbn [negb]. rewrite Hp. cbn [negb]. rewrite Hd. cbn [negb].
  rewrite !delete_id by assumption. now destruct st.
Qed.

(** X14.  A delete that reports failure has purged nothing from the three
    dicts. *)
Theorem failed_delete_keeps_memory (p : string) (rm rp rd : bool) (st : State) :
  snd (delete_model p rm rp rd st) = false ->
  models (fst (delete_model p rm rp rd st)) = models st
  /\ model_performance (fst (delete_model p rm rp rd st)) = model_performance st
  /\ metadata (fst (delete_model p rm rp rd st)) = metadata st.
Proof.
  unfold delete_model.
  destruct (remove_file rm _ _) as [fs1 [|]]; cbn [negb fst snd]; [|now auto].
  destruct (remove_file rp _ _) as [fs2 [|]]; cbn [negb fst snd]; [|now auto].
  destruct (remove_file rd _ _) as [fs3 [|]]; cbn [negb fst snd]; [discriminate|now auto].
Qed.

End DeleteFacts.

Lemma delete_unknown_key_witness :
  Forecaster.delete_model (lib := sample_library) "Butter" false false false stored_ghee
  = (stored_ghee, true).
Proof.
  apply (delete_unknown_key (lib := sample_library) "Butter" false false false stored_ghee);
    vm_compute; reflexivity.
Defined.

Lemma failed_delete_keeps_memory_witness :
  let st := fst (Forecaster.load_model (lib := sample_library) "Ghee" stored_ghee) in
  Forecaster.models (fst (Forecaster.delete_model "Ghee" true false true st))
  = Forecaster.models st
  /\ Forecaster.model_performance (fst (Forecaster.delete_model "Ghee" true false true st))
     = Forecaster.model_performance st
  /\ Forecaster.metadata (fst (Forecaster.delete_model "Ghee" true false true st))
     = Forecaster.metadata st.
Proof.
  cbv zeta.
  apply (failed_delete_keeps_memory (lib := sample_library) "Ghee" true false true).
  vm_compute. reflexivity.
Defined.

Section LoadAll.
Import Forecaster CacheLoop.
Context {lib : ForecastLibrary}.
Local Open Scope string_scope.

Lemma load_model_files (p : string) (st : State) :
  files (fst (load_model p st)) = files st.
Proof.
  destruct (load_model_memory p st) as [-> | (a & b & c & ->)]; reflexivity.
Qed.

Lemma load_model_reads (k : string) (st : State) (m pf md : pyobj) :
  files st !! model_path k = Some (Pickle m) ->
  files st !! performance_path k = Some (Pickle pf) ->
  files st !! metadata_path k = Some (Pickle md) ->
  load_model k st
  = ({| models := <[k := m]> (models st);
        model_performance := <[k := pf]> (model_performance st);
        metadata := <[k := md]> (metadata st);
        files := files st |}, true).
Proof. intros Hm Hp Hd. unfold load_model. now rewrite Hm, Hp, Hd. Qed.

(** Loading any key keeps what a readable key has loaded. *)
Lemma load_model_keeps_loaded (p k : string) (st : State) (m pf md : pyobj) :
  files st !! model_path k = Some (Pickle m) ->
  files st !! performance_path k = Some (Pickle pf) ->
  files st !! metadata_path k = Some (Pickle md) ->
  models st !! k = Some m /\ model_performance st !! k = Some pf
  /\ metadata st !! k = Some md ->
  models (fst (load_model p st)) !! k = Some m
  /\ model_performance (fst (load_model p st)) !! k = Some pf
  /\ metadata (fst (load_model p st)) !! k = Some md.
Proof.
  intros Hm Hp Hd Hloaded. destruct (decide (p = k)) as [->|Hne].
  - rewrite (load_model_reads k st m pf md Hm Hp Hd). cbn.
    now rewrite !lookup_insert_eq.
  - destruct (load_model_memory p st) as [-> | (a & b & c & ->)]; [exact Hloaded|].
    cbn. now rewrite !lookup_insert_ne by exact Hne.
Qed.

Lemma load_model_other_key (p k : string) (st : State) :
  p <> k ->
  models (fst (load_model p st)) !! k = models st !! k
  /\ model_performance (fst (load_model p st)) !! k = model_performance st !! k
  /\ metadata (fst (load_model p st)) !! k = metadata st !! k.
Proof.
  intros Hne. destruct (load_model_memory p st) as [-> | (a & b & c & ->)]; [auto|].
  cbn. now rewrite !lookup_insert_ne by exact Hne.
Qed.

Lemma load_each_cons (f : string) (names : list string) (st : State) (n : nat) :
  load_each (f :: names) (st, n)
  = load_each names
      (fst (load_model (product_of_file f) st),
       if snd (load_model (product_of_file f) st) then S n else n).
Proof.
  unfold load_each. cbn [fold_left].
  now destruct (load_model (product_of_file f) st) as [st1 ok].
Qed.

Lemma load_each_files (names : list string) :
  forall st n, files (fst (load_each names (st, n))) = files st.
Proof.
  induction names as [|f names IH]; intros st n; [reflexivity|].
  rewrite load_each_cons, IH. apply load_model_files.
Qed.

Lemma load_each_keeps_loaded (names : list string) (k : string) (m pf md : pyobj) :
  forall st n,
    files st !! model_path k = Some (Pickle m) ->
    files st !! performance_path k = Some (Pickle pf) ->
    files st !! metadata_path k = Some (Pickle md) ->
    models st !! k = Some m /\ model_performance st !! k = Some pf
    /\ metadata st !! k = Some md ->
    models (fst (load_each names (st, n))) !! k = Some m
    /\ model_performance (fst (load_each names (st, n))) !! k = Some pf
    /\ metadata (fst (load_each names (st, n))) !! k = Some md.
Proof.
  induction names as [|f names IH]; intros st n Hm Hp Hd Hloaded; [exact Hloaded|].
  rewrite load_each_cons. apply IH; rewrite ?load_model_files; try assumption.
  now apply load_model_keeps_loaded.
Qed.

Lemma load_each_loads (names : list string) (f : string) (m pf md : pyobj) :
  In f names ->
  forall st n,
    files st !! model_path (product_of_file f) = Some (Pickle m) ->
    files st !! performance_path (product_of_file f) = Some (Pickle pf) ->
    files st !! metadata_path (product_of_file f) = Some (Pickle md) ->
    models (fst (load_each names (st, n))) !! product_of_file f = Some m
    /\ model_performance (fst (load_each names (st, n))) !! product_of_file f = Some pf
    /\ metadata (fst (load_each names (st, n))) !! product_of_file f = Some md.
Proof.
  induction names as [|g names IH]; intros Hin st n Hm Hp Hd; [destruct Hin|].
  rewrite load_each_cons. destruct Hin as [->|Hin].
  - apply load_each_keeps_loaded; rewrite ?load_model_files; try assumption.
    rewrite (load_model_reads _ st m pf md Hm Hp Hd). cbn.
    now rewrite !lookup_insert_eq.
  - apply IH; rewrite ?load_model_files; assumption.
Qed.

Lemma load_each_other_key (names : list string) (k : string) :
  (forall f, In f names -> product_of_file f <> k) ->
  forall st n,
    models (fst (load_each names (st, n))) !! k = models st !! k
    /\ model_performance (fst (load_each names (st, n))) !! k = model_performance st !! k
    /\ metadata (fst (load_each names (st, n))) !! k = metadata st !! k.
Proof.
  induction names as [|g names IH]; intros Hall st n; [auto|].
  rewrite load_each_cons.
  destruct (IH (fun f Hf => Hall f (or_intror Hf))
              (fst (load_model (product_of_file g) st))
              (if snd (load_model (product_of_file g) st) then S n else n))
    as (H1 & H2 & H3).
  destruct (load_model_other_key (product_of_file g) k st (Hall g (or_introl eq_refl)))
    as (G1 & G2 & G3).
  rewrite H1, H2, H3. auto.
Qed.

(** X15.  [load_all_models] loads every listed key whose three entries are
    readable, whatever state the entries of the other keys are in; it
    leaves the store as it is, and it leaves alone the dict entries of
    the keys that no listed file name decodes to. *)
Theorem load_all_loads_each_readable_key (st : State) :
  files (fst (load_all_models st)) = files st
  /\ (forall f m pf md,
        In f (model_files (files st)) ->
        files st !! model_path (product_of_file f) = Some (Pickle m) ->
        files st !! performance_path (product_of_file f) = Some (Pickle pf) ->
        files st !! metadata_path (product_of_file f) = Some (Pickle md) ->
        models (fst (load_all_models st)) !! product_of_file f = Some m
        /\ model_performance (fst (load_all_models st)) !! product_of_file f = Some pf
        /\ metadata (fst (load_all_models st)) !! product_of_file f = Some md)
  /\ (forall k,
        (forall f, In f (model_files (files st)) -> product_of_file f <> k) ->
        models (fst (load_all_models st)) !! k = models st !! k
        /\ model_performance (fst (load_all_models st)) !! k = model_performance st !! k
        /\ metadata (fst (load_all_models st)) !! k = metadata st !! k).
Proof.
  change (load_all_models st) with (load_each (model_files (files st)) (st, 0%nat)).
  split; [apply load_each_files|]. split.
  - intros f m pf md Hin Hm Hp Hd. now apply load_each_loads.
  - intros k Hall. now apply load_each_other_key.
Qed.

End LoadAll.

Section TrainAndRestart.
Import Forecaster CacheLoop.
Context {lib : ForecastLibrary}.
Local Open Scope string_scope.

(** What a training whose save goes through leaves behind. *)
Lemma train_model_saved (now : string) (data : list (Z * Q)) (p mode : string)
    (model : Model) (st : State) :
  fit mode (95 # 100) data = Returned model ->
  data <> [] ->
  exists st' md,
    train_model now data p mode WriteOk WriteOk WriteOk st
    = (st', (true, "Model trained successfully for " ++ p))
    /\ md_product md = p /\ md_data_points md = List.length data
    /\ models st' = <[p := ObjModel model]> (models st)
    /\ model_performance st'
       = <[p := ObjPerformance (evaluate model data)]> (model_performance st)
    /\ metadata st' = <[p := ObjMetadata md]> (metadata st)
    /\ files st' !! model_path p = Some (Pickle (ObjModel model))
    /\ files st' !! performance_path p
       = Some (Pickle (ObjPerformance (evaluate model data)))
    /\ files st' !! metadata_path p = Some (Pickle (ObjMetadata md))
    /\ snd (save_model now p model data WriteOk WriteOk WriteOk
              (_evaluate_model model data p
                 {| models := <[p := ObjModel model]> (models st);
                    model_performance := model_performance st;
                    metadata := metadata st;
                    files := files st |})) = true
    /\ files st'
       = files (fst (save_model now p model data WriteOk WriteOk WriteOk
                       (_evaluate_model model data p
                          {| models := <[p := ObjModel model]> (models st);
                             model_performance := model_performance st;
                             metadata := metadata st;
                             files := files st |}))).
Proof.
  intros Hfit Hne. unfold train_model. rewrite Hfit.
  set (st2 := _evaluate_model _ _ _ _).
  destruct (save_model_written now p model data st2 Hne) as (md & Hp & Hn & E).
  rewrite E. eexists _, md. split; [reflexivity|].
  split; [exact Hp|]. split; [exact Hn|].
  cbn [models model_performance metadata files fst snd]. subst st2.
  cbn [_evaluate_model models model_performance metadata files].
  split; [reflexivity|]. split; [reflexivity|]. split; [reflexivity|].
  unfold dict_get. rewrite lookup_insert_eq.
  split; [|split; [|split; [|split]]]; try reflexivity.
  - rewrite lookup_insert_ne by (apply not_eq_sym, model_path_not_metadata).
    rewrite lookup_insert_ne by (apply not_eq_sym, model_path_not_performance).
    apply lookup_insert_eq.
  - rewrite lookup_insert_ne by (apply not_eq_sym, performance_path_not_metadata).
    apply lookup_insert_eq.
  - apply lookup_insert_eq.
Qed.

(** X17.  Training reports success as soon as the fit succeeds, whatever
    happens to the writes, and then a forecast can be requested for the
    key and its metrics are those of the evaluation; when the fit raises,
    training reports the failure and changes neither the dicts nor the
    store. *)
Theorem train_reports_fit_outcome (now : string) (data : list (Z * Q)) (p mode : string)
    (wm wp wd : write_result) (st : State) :
  (forall e, fit mode (95 # 100) data = Raised e ->
     train_model now data p mode wm wp wd st
     = (st, (false, "Error training model for " ++ p ++ ": " ++ e)))
  /\ (forall model, fit mode (95 # 100) data = Returned model ->
        snd (train_model now data p mode wm wp wd st)
        = (true, "Model trained successfully for " ++ p)
        /\ models (fst (train_model now data p mode wm wp wd st)) !! p
           = Some (ObjModel model)
        /\ model_performance (fst (train_model now data p mode wm wp wd st)) !! p
           = Some (ObjPerformance (evaluate model data))
        /\ (forall k, k <> p ->
              models (fst (train_model now data p mode wm wp wd st)) !! k = models st !! k)).
Proof.
  split.
  - intros e He. unfold train_model. now rewrite He.
  - intros model Hfit. unfold train_model. rewrite Hfit.
    set (st2 := _evaluate_model _ _ _ _).
    destruct (save_model now p model data wm wp wd st2) as [st3 ok] eqn:E.
    destruct (save_model_memory now p model data wm wp wd st2) as (Hm & Hp & _).
    rewrite E in Hm, Hp. cbn [fst snd] in *. rewrite Hm, Hp. subst st2.
    cbn [_evaluate_model models model_performance].
    rewrite !lookup_insert_eq. repeat split.
    intros k Hk. now rewrite lookup_insert_ne by (apply not_eq_sym; exact Hk).
Qed.

(** X18.  A model trained and saved under a key without underscore and
    without path separator, whose file name holds "_model.pkl" only as
    its ending, is there again after a restart: a forecaster started on
    the store left by the training holds, under the same key, the model,
    the metrics of its evaluation and the metadata of the save. *)
Theorem trained_model_survives_restart (now : string) (data : list (Z * Q))
    (p mode : string) (model : Model) (st : State) :
  fit mode (95 # 100) data = Returned model ->
  data <> [] ->
  py_contains "_" p = false ->
  has_separator p = false ->
  py_contains "_model.pkl" (safe_name p ++ "_model.pk") = false ->
  let st' := fst (train_model now data p mode WriteOk WriteOk WriteOk st) in
  models (init (files st')) !! p = Some (ObjModel model)
  /\ model_performance (init (files st')) !! p = Some (ObjPerformance (evaluate model data))
  /\ exists md,
       metadata (init (files st')) !! p = Some (ObjMetadata md)
       /\ md_product md = p /\ md_data_points md = List.length data.
Proof.
  intros Hfit Hne Hus Hsep Honce. cbv zeta.
  destruct (train_model_saved now data p mode model st Hfit Hne)
    as (st' & md & E & Hp & Hn & _ & _ & _ & Fm & Fp & Fd & Hok & Hfiles).
  rewrite E. cbn [fst].
  destruct (listing_contains_saved_key now p model data
              (_evaluate_model model data p
                 {| models := <[p := ObjModel model]> (models st);
                    model_performance := model_performance st;
                    metadata := metadata st;
                    files := files st |}) Hne Hus Hsep Honce) as [_ Hlisted].
  unfold get_available_models in Hlisted. rewrite <- Hfiles in Hlisted.
  apply in_map_iff in Hlisted. destruct Hlisted as (f & Hf & Hin).
  unfold init.
  change (load_all_models
            {| models := ∅; model_performance := ∅; metadata := ∅; files := files st' |})
    with (load_each (model_files (files st'))
            ({| models := ∅; model_performance := ∅; metadata := ∅; files := files st' |},
             0%nat)).
  destruct (load_each_loads (model_files (files st')) f (ObjModel model)
              (ObjPerformance (evaluate model data)) (ObjMetadata md) Hin
              {| models := ∅; model_performance := ∅; metadata := ∅; files := files st' |}
              0%nat) as (H1 & H2 & H3); cbn [files]; rewrite ?Hf; try assumption.
  rewrite Hf in H1, H2, H3. split; [exact H1|]. split; [exact H2|].
  exists md. auto.
Qed.

End TrainAndRestart.

Lemma trained_model_survives_restart_witness :
  let st' := fst (Forecaster.train_model (lib := sample_library) "2024-01-01 00:00:00"
                    (sample_series 100) "Cottage Cheese" "multiplicative"
                    Forecaster.WriteOk Forecaster.WriteOk Forecaster.WriteOk empty_state) in
  Forecaster.models (Forecaster.init (Forecaster.files st')) !! "Cottage Cheese"%string
  = Some (Forecaster.ObjModel ("multiplicative"%string, 100%nat))
  /\ Forecaster.model_performance (Forecaster.init (Forecaster.files st'))
       !! "Cottage Cheese"%string
     = Some (Forecaster.ObjPerformance
               (Forecaster.evaluate ("multiplicative"%string, 100%nat) (sample_series 100)))
  /\ exists md,
       Forecaster.metadata (Forecaster.init (Forecaster.files st')) !! "Cottage Cheese"%string
       = Some (Forecaster.ObjMetadata md)
       /\ Forecaster.md_product md = "Cottage Cheese"%string
       /\ Forecaster.md_data_points md = List.length (sample_series 100).
Proof.
  apply (trained_model_survives_restart (lib := sample_library) "2024-01-01 00:00:00"
           (sample_series 100) "Cottage Cheese" "multiplicative"
           ("multiplicative"%string, 100%nat) empty_state);
    vm_compute; try reflexivity; discriminate.
Defined.

(** X16.  A key without underscore and without path separator, whose file
    name holds "_model.pkl" only as its ending, is among the listed keys
    after a successful save. *)
Theorem saved_plain_key_is_listed {lib : ForecastLibrary} (now p : string)
    (model : Model) (data : list (Z * Q)) (st : Forecaster.State) :
  data <> [] ->
  py_contains "_" p = false ->
  has_separator p = false ->
  py_contains "_model.pkl" (Forecaster.safe_name p ++ "_model.pk") = false ->
  snd (Forecaster.save_model now p model data
         Forecaster.WriteOk Forecaster.WriteOk Forecaster.WriteOk st) = true
  /\ In p (Forecaster.get_available_models
             (fst (Forecaster.save_model now p model data
                     Forecaster.WriteOk Forecaster.WriteOk Forecaster.WriteOk st))).
Proof. apply listing_contains_saved_key. Qed.

Lemma saved_plain_key_is_listed_witness :
  snd (Forecaster.save_model (lib := sample_library) "2024-01-01 00:00:00" "Cottage Cheese"
         ("additive"%string, 100%nat) (sample_series 100)
         Forecaster.WriteOk Forecaster.WriteOk Forecaster.WriteOk empty_state) = true
  /\ In "Cottage Cheese"%string
       (Forecaster.get_available_models
          (fst (Forecaster.save_model (lib := sample_library) "2024-01-01 00:00:00"
                  "Cottage Cheese" ("additive"%string, 100%nat) (sample_series 100)
                  Forecaster.WriteOk Forecaster.WriteOk Forecaster.WriteOk empty_state))).
Proof.
  apply (saved_plain_key_is_listed (lib := sample_library) "2024-01-01 00:00:00"
           "Cottage Cheese" ("additive"%string, 100%nat) (sample_series 100) empty_state);
    vm_compute; try reflexivity; discriminate.
Defined.

Lemma utilization_report_by_date_witness :
  exists report,
    Capacity.calculate_capacity_utilization
      (Some [Claimed.plan_row 15 25 (1 # 10) 2000 (mkRow 1 "Milk" 100);
             Claimed.plan_row 300 450 (1 # 10) 500 (mkRow 1 "Butter" 5);
             Claimed.plan_row 300 450 (1 # 10) 500 (mkRow 2 "Butter" 7)]) true None
    = Some report
    /\ Sorted Z.lt (List.map Capacity.util_date report)
    /\ (forall d, In d (List.map Capacity.util_date report)
                  <-> In d (List.map Optimizer.plan_date
                              [Claimed.plan_row 15 25 (1 # 10) 2000 (mkRow 1 "Milk" 100);
                               Claimed.plan_row 300 450 (1 # 10) 500 (mkRow 1 "Butter" 5);
                               Claimed.plan_row 300 450 (1 # 10) 500 (mkRow 2 "Butter" 7)]))
    /\ (py_sum (List.map Capacity.total_production report)
        == py_sum (List.map Optimizer.optimal_production
                     [Claimed.plan_row 15 25 (1 # 10) 2000 (mkRow 1 "Milk" 100);
                      Claimed.plan_row 300 450 (1 # 10) 500 (mkRow 1 "Butter" 5);
                      Claimed.plan_row 300 450 (1 # 10) 500 (mkRow 2 "Butter" 7)]))%Q.
Proof.
  apply utilization_report_by_date. discriminate.
Defined.

(** * Properties of the forecasts *)

Section ForecastFacts.
Import Forecaster Forecasts.
Context {lib : ForecastLibrary} {plib : PredictionLibrary}.
Local Open Scope Q_scope.

Lemma py_max_zero_nonneg (y : Q) : 0 <= py_max y 0.
Proof.
  unfold py_max. destruct (Qle_bool 0 y) eqn:E; [now apply Qle_bool_iff|apply Qle_refl].
Qed.

Lemma py_max_zero_id (y : Q) : 0 <= y -> py_max y 0 = y.
Proof. intros H. unfold py_max. apply Qle_bool_iff in H. now rewrite H. Qed.

Lemma py_max_zero_mono (a b : Q) : a <= b -> py_max a 0 <= py_max b 0.
Proof.
  intros H. unfold py_max.
  destruct (Qle_bool 0 a) eqn:Ea; destruct (Qle_bool 0 b) eqn:Eb;
    try apply Qle_bool_iff in Ea; try apply Qle_bool_iff in Eb;
    try apply Qle_bool_false in Ea; try apply Qle_bool_false in Eb; lra.
Qed.

(** X19.  A forecast that is returned is the prediction of the model held
    under the key with its three columns floored at zero: same dates,
    nothing negative, non-negative estimates untouched, and the order
    between an estimate and its bounds preserved. *)
Theorem forecast_is_floored_prediction (p : string) (periods : nat)
    (include_history : bool) (st : State) (forecast : list ForecastRow) :
  fst (generate_forecast p periods include_history st) = Some forecast ->
  exists model raw,
    models st !! p = Some (ObjModel model)
    /\ predict_frame model periods include_history = Returned raw
    /\ Forall2
         (fun a b =>
            ds b = ds a
            /\ 0 <= yhat b /\ 0 <= yhat_lower b /\ 0 <= yhat_upper b
            /\ (0 <= yhat a -> yhat b = yhat a)
            /\ (yhat_lower a <= yhat a -> yhat_lower b <= yhat b)
            /\ (yhat a <= yhat_upper a -> yhat b <= yhat_upper b))
         raw forecast.
Proof.
  unfold generate_forecast. intros H.
  destruct (models st !! p) as [[model|pf|md]|]; try discriminate H.
  destruct (predict_frame model periods include_history) as [raw|e] eqn:E;
    [|discriminate H].
  cbn [fst] in H. injection H as <-. exists model, raw.
  split; [reflexivity|]. split; [exact E|]. clear E.
  induction raw as [|a raw IH]; cbn [List.map]; constructor; [|exact IH].
  cbn [clamp_row ds yhat yhat_lower yhat_upper].
  split; [reflexivity|]. repeat split; try apply py_max_zero_nonneg.
  - apply py_max_zero_id.
  - apply py_max_zero_mono.
  - apply py_max_zero_mono.
Qed.

End ForecastFacts.

Lemma forecast_is_floored_prediction_witness :
  exists model raw,
    Forecaster.models trained_milk !! "Milk"%string = Some (Forecaster.ObjModel model)
    /\ predict_frame model 3 false = Returned raw
    /\ Forall2
         (fun a b =>
            ds b = ds a
            /\ (0 <= yhat b)%Q /\ (0 <= yhat_lower b)%Q /\ (0 <= yhat_upper b)%Q
            /\ ((0 <= yhat a)%Q -> yhat b = yhat a)
            /\ ((yhat_lower a <= yhat a)%Q -> (yhat_lower b <= yhat b)%Q)
            /\ ((yhat a <= yhat_upper a)%Q -> (yhat b <= yhat_upper b)%Q))
         raw
         [mkForecastRow 100 30 20 40; mkForecastRow 101 10 0 20;
          mkForecastRow 102 0 0 0].
Proof.
  apply (forecast_is_floored_prediction (lib := sample_library) "Milk" 3 false trained_milk).
  vm_compute. reflexivity.
Defined.

Section ExportFacts.
Import Forecaster Forecasts Optimizer.
Context {lib : ForecastLibrary} {plib : PredictionLibrary}.
Local Open Scope Q_scope.

Lemma generate_forecast_nonneg (p : string) (periods : nat) (h : bool) (st : State)
    (forecast : list ForecastRow) :
  fst (generate_forecast p periods h st) = Some forecast ->
  Forall (fun r => 0 <= yhat r) forecast.
Proof.
  unfold generate_forecast. intros H.
  destruct (models st !! p) as [[model|pf|md]|]; try discriminate H.
  destruct (predict_frame model periods h) as [raw|e]; [|discriminate H].
  cbn [fst] in H. injection H as <-. apply Forall_map, List.Forall_forall.
  intros r _. cbn [clamp_row yhat]. unfold py_max.
  destruct (Qle_bool 0 (yhat r)) eqn:E; [now apply Qle_bool_iff|apply Qle_refl].
Qed.

Lemma all_forecasts_nonneg (products : list string) (periods : nat) (st : State) :
  Forall (Forall (fun r => 0 <= ex_predicted_demand r)) (all_forecasts products periods st).
Proof.
  induction products as [|p ps IH]; cbn [all_forecasts]; [constructor|].
  destruct (models st !! p); [|exact IH].
  destruct (fst (generate_forecast p periods false st)) as [fc|] eqn:E; [|exact IH].
  constructor; [|exact IH]. unfold export_rows. apply Forall_map.
  cbn [ex_predicted_demand]. exact (generate_forecast_nonneg _ _ _ _ _ E).
Qed.

Lemma combine_seq_snd {A : Type} (l : list A) (k : nat) :
  List.map snd (combine (seq k (List.length l)) l) = l
  /\ List.map fst (combine (seq k (List.length l)) l) = seq k (List.length l).
Proof.
  revert k. induction l as [|x l IH]; intros k; cbn; [split; reflexivity|].
  destruct (IH (S k)) as [H1 H2]. now rewrite H1, H2.
Qed.

(** The exported frame is numbered 0, 1, 2, ... and holds no negative
    demand. *)
Lemma export_forecasts_rows (products : list string) (periods : nat) (st : State) :
  List.map fst (snd (export_forecasts products periods st))
  = seq 0 (List.length (snd (export_forecasts products periods st)))
  /\ Forall (fun lr => 0 <= ex_predicted_demand (snd lr))
       (snd (export_forecasts products periods st)).
Proof.
  unfold export_forecasts. pose proof (all_forecasts_nonneg products periods st) as Hnn.
  destruct (all_forecasts products periods st) as [|f fs] eqn:E; [split; constructor|].
  cbn [snd]. set (R := List.concat (f :: fs)).
  destruct (combine_seq_snd R 0) as [H1 H2]. split.
  - rewrite H2. f_equal. rewrite length_combine, length_seq. lia.
  - assert (Forall (fun r => 0 <= ex_predicted_demand r) R) as HR.
    { subst R. apply Forall_concat. exact Hnn. }
    apply List.Forall_forall. intros [i e] Hin. rewrite List.Forall_forall in HR.
    apply HR. rewrite <- H1. apply (in_map snd) in Hin. exact Hin.
Qed.

Lemma default_capacity_whole (p : string) :
  exists n : Z, dict_get default_capacities p 1000 = inject_Z n.
Proof.
  unfold dict_get. destruct (default_capacities !! p) as [c|] eqn:E;
    [|now exists 1000%Z].
  apply elem_of_list_to_map_2 in E.
  repeat (apply elem_of_cons in E; destruct E as [E|E];
          [inversion E; subst; eexists; reflexivity|]).
  inversion E.
Qed.

(** Bounds of one plan row against a positive whole capacity. *)
Lemma plan_row_bounds (cost price s cap : Q) (n : Z) (row : Row) :
  0 <= predicted_demand row -> -1 <= s -> cap = inject_Z n -> 0 < cap ->
  let r := Claimed.plan_row cost price s cap row in
  0 <= optimal_production r /\ optimal_production r <= cap
  /\ 0 <= capacity_utilization r /\ capacity_utilization r <= 100.
Proof.
  intros Hd Hs -> Hcap. cbv zeta.
  cbn [Claimed.plan_row optimal_production capacity_utilization].
  set (q := Qmin _ _).
  assert (0 <= q) as Hq0 by (apply Q.min_glb; [nra|lra]).
  assert (q <= inject_Z n) as Hq1 by apply Q.le_min_r.
  assert (q / inject_Z n * 100 == (q * 100) / inject_Z n) as Ediv by (field; lra).
  destruct (py_round_whole_bounds q 0 n Hq0 Hq1) as [H0 H1].
  split; [exact H0|]. split; [exact H1|]. split.
  - change 0 with (inject_Z 0). apply py_round_ge_Z. change (inject_Z 0) with 0.
    rewrite Ediv. apply Qle_shift_div_l; [exact Hcap|]. lra.
  - change 100 with (inject_Z 100) at 2. apply py_round_le_Z.
    rewrite Ediv. apply Qle_shift_div_r; [exact Hcap|]. change (inject_Z 100) with 100. lra.
Qed.

(** X20.  Export, then plan: on the frame exported by the forecaster, with
    the default capacity of the product and a safety stock fraction of
    at least -1, every planned row has a production between 0 and the
    capacity and a utilization between 0 and 100. *)
Theorem exported_forecasts_plan_within_capacity (products : list string) (periods : nat)
    (st : State) (p : string) (s : Q) :
  select_product (as_forecasts (export_forecasts products periods st)) p <> [] ->
  -1 <= s ->
  exists plan,
    calculate_optimal_production
      (Some (as_forecasts (export_forecasts products periods st))) p s None
    = Returned (Some plan)
    /\ Forall (fun r => 0 <= optimal_production r
                        /\ optimal_production r <= capacity_of p None
                        /\ 0 <= capacity_utilization r
                        /\ capacity_utilization r <= 100) plan.
Proof.
  intros Hsel Hs. eexists. split; [now apply calculate_optimal_production_eq|].
  destruct (default_capacity_whole p) as [n Hn].
  pose proof (default_capacity_positive p) as Hpos.
  apply Forall_map, Forall_map.
  apply (Permutation_Forall (Permutation_sym (sort_values_perm _))).
  apply List.Forall_forall. intros [i row] Hin. cbn [snd].
  apply (plan_row_bounds _ _ s (capacity_of p None) n row); try assumption.
  unfold select_product in Hin.
  assert (In (i, row) (rows (as_forecasts (export_forecasts products periods st)))) as Hrow.
  { destruct (has_product_column _); [apply filter_In in Hin; tauto|exact Hin]. }
  unfold as_forecasts in Hrow. cbn [rows] in Hrow. apply in_map_iff in Hrow.
  destruct Hrow as ([j e] & Heq & He). injection Heq as _ <-. cbn [predicted_demand snd].
  destruct (export_forecasts_rows products periods st) as [_ Hnn].
  rewrite List.Forall_forall in Hnn. exact (Hnn _ He).
Qed.

End ExportFacts.

Lemma exported_forecasts_plan_within_capacity_witness :
  exists plan,
    Optimizer.calculate_optimal_production
      (Some (Forecasts.as_forecasts
               (Forecasts.export_forecasts ["Milk"; "Ghee"]%string 3 trained_milk)))
      "Milk" (1 # 10) None
    = Returned (Some plan)
    /\ Forall (fun r => (0 <= Optimizer.optimal_production r)%Q
                        /\ (Optimizer.optimal_production r
                            <= Optimizer.capacity_of "Milk" None)%Q
                        /\ (0 <= Optimizer.capacity_utilization r)%Q
                        /\ (Optimizer.capacity_utilization r <= 100)%Q) plan.
Proof.
  apply (exported_forecasts_plan_within_capacity (lib := sample_library)
           ["Milk"; "Ghee"]%string 3 trained_milk "Milk" (1 # 10)).
  - vm_compute. discriminate.
  - vm_compute. discriminate.
Defined.

Section SummaryOfForecast.
Import Forecaster Forecasts.
Context {lib : ForecastLibrary} {plib : PredictionLibrary}.
Local Open Scope Q_scope.

Lemma py_max_ge_r (a b : Q) : b <= py_max a b.
Proof.
  unfold py_max. destruct (Qle_bool b a) eqn:E; [now apply Qle_bool_iff|apply Qle_refl].
Qed.

Lemma py_min_le_l (a b : Q) : py_min a b <= a.
Proof.
  unfold py_min. destruct (Qle_bool a b) eqn:E; [apply Qle_refl|].
  apply Qle_bool_false in E. now apply Qlt_le_weak.
Qed.

Lemma column_max_bounds (l : list Q) :
  forall a, a <= column_max a l /\ Forall (fun x => x <= column_max a l) l.
Proof.
  unfold column_max. induction l as [|x l IH]; intros a; cbn [fold_left].
  - split; [apply Qle_refl|constructor].
  - destruct (IH (py_max a x)) as [H1 H2]. split.
    + eapply Qle_trans; [apply py_max_ge_l|exact H1].
    + constructor; [|exact H2]. eapply Qle_trans; [apply py_max_ge_r|exact H1].
Qed.

Lemma column_min_bounds (l : list Q) :
  forall a, column_min a l <= a /\ Forall (fun x => column_min a l <= x) l.
Proof.
  unfold column_min. induction l as [|x l IH]; intros a; cbn [fold_left].
  - split; [apply Qle_refl|constructor].
  - destruct (IH (py_min a x)) as [H1 H2]. split.
    + eapply Qle_trans; [exact H1|apply py_min_le_l].
    + constructor; [|exact H2]. eapply Qle_trans; [exact H1|apply py_min_le_r].
Qed.

Lemma column_min_lower (c : Q) (l : list Q) :
  forall a, c <= a -> Forall (fun x => c <= x) l -> c <= column_min a l.
Proof.
  unfold column_min. induction l as [|x l IH]; intros a Ha Hl; cbn [fold_left];
    [exact Ha|].
  inversion Hl; subst. apply IH; [now apply py_min_glb|assumption].
Qed.

Lemma column_max_member (l : list Q) : forall a, In (column_max a l) (a :: l).
Proof.
  unfold column_max. induction l as [|x l IH]; intros a; cbn [fold_left]; [now left|].
  destruct (IH (py_max a x)) as [H|H].
  - rewrite <- H. unfold py_max. destruct (Qle_bool x a); [now left|right; now left].
  - right. now right.
Qed.

Lemma py_sum_nonneg (l : list Q) : Forall (fun x => 0 <= x) l -> 0 <= py_sum l.
Proof.
  induction 1 as [|x l Hx _ IH]; [apply Qle_refl|]. rewrite py_sum_cons. lra.
Qed.

(** A sum of non-negative values is at least each of them. *)
Lemma py_sum_ge_member (l : list Q) :
  Forall (fun x => 0 <= x) l -> forall x, In x l -> x <= py_sum l.
Proof.
  induction 1 as [|y l Hy Hl IH]; intros x Hin; [destruct Hin|].
  rewrite py_sum_cons. pose proof (py_sum_nonneg l Hl) as Hs.
  destruct Hin as [<-|Hin]; [lra|]. specialize (IH x Hin). lra.
Qed.

Lemma mean_of_nonneg (l : list Q) :
  l <> [] -> Forall (fun x => 0 <= x) l ->
  0 <= Optimizer.mean l /\ Optimizer.mean l <= py_sum l.
Proof.
  intros Hne HF. pose proof (py_sum_nonneg l HF) as Hs. unfold Optimizer.mean.
  assert (1 <= inject_Z (Z.of_nat (List.length l))) as Hn.
  { change 1 with (inject_Z 1). rewrite <- Zle_Qle.
    destruct l; [contradiction|cbn [List.length]; lia]. }
  split; [apply Qle_shift_div_l|apply Qle_shift_div_r]; try lra; nra.
Qed.

Lemma generate_forecast_clamped (p : string) (periods : nat) (h : bool) (st : State)
    (forecast : list ForecastRow) :
  fst (generate_forecast p periods h st) = Some forecast ->
  Forall (fun r => 0 <= yhat r /\ 0 <= yhat_lower r /\ 0 <= yhat_upper r) forecast.
Proof.
  unfold generate_forecast. intros H.
  destruct (models st !! p) as [[model|pf|md]|]; try discriminate H.
  destruct (predict_frame model periods h) as [raw|e]; [|discriminate H].
  cbn [fst] in H. injection H as <-. apply Forall_map, List.Forall_forall.
  intros r _. cbn [clamp_row yhat yhat_lower yhat_upper].
  repeat split; apply py_max_ge_r.
Qed.

(** What one entry says about the window it summarises. *)
Lemma summarize_forecast_facts (window : list ForecastRow) (e : PeriodSummary) :
  summarize_forecast window = Returned e ->
  Forall (fun r => 0 <= yhat r /\ 0 <= yhat_lower r /\ 0 <= yhat_upper r) window ->
  0 <= min_daily_demand e
  /\ min_daily_demand e <= max_daily_demand e
  /\ max_daily_demand e <= total_demand e
  /\ 0 <= avg_daily_demand e
  /\ avg_daily_demand e <= total_demand e
  /\ 0 <= confidence_lower e
  /\ 0 <= confidence_upper e.
Proof.
  intros H Hnn. destruct window as [|first rest]; [discriminate H|].
  cbn [summarize_forecast] in H. injection H as <-.
  cbn [min_daily_demand avg_daily_demand max_daily_demand total_demand
       confidence_lower confidence_upper].
  assert (Forall (fun x => 0 <= x) (List.map yhat (first :: rest))) as Hy.
  { apply List.Forall_map. eapply List.Forall_impl; [|exact Hnn]. now intros r [? _]. }
  assert (List.map yhat (first :: rest) <> []) as Hne by (cbn [List.map]; discriminate).
  destruct (column_max_bounds (List.map yhat rest) (yhat first)) as [M1 _].
  destruct (column_min_bounds (List.map yhat rest) (yhat first)) as [m1 _].
  destruct (mean_of_nonneg _ Hne Hy) as [A1 A2].
  split.
  { cbn [List.map] in Hy. inversion Hy; subst. now apply column_min_lower. }
  split; [lra|]. split.
  { apply (py_sum_ge_member _ Hy). cbn [List.map]. apply column_max_member. }
  split; [exact A1|]. split; [exact A2|].
  rewrite List.Forall_forall in Hnn.
  assert (forall f : ForecastRow -> Q,
            (forall r, In r (first :: rest) -> 0 <= f r) ->
            0 <= py_sum (List.map f (first :: rest))) as Hsum.
  { intros f Hf. apply py_sum_nonneg. rewrite List.Forall_forall. intros x Hx.
    apply in_map_iff in Hx. destruct Hx as (r & <- & Hr). now apply Hf. }
  split; apply Hsum; intros r Hr; destruct (Hnn r Hr) as (? & ? & ?); assumption.
Qed.

Lemma summary_entries_invariant (P : PeriodSummary -> Prop) (p : string) (st : State)
    (periods_list : list nat) :
  (forall periods forecast e,
     fst (generate_forecast p periods false st) = Some forecast ->
     summarize_forecast (tail periods forecast) = Returned e -> P e) ->
  forall summaries result,
    (forall key e, summaries !! key = Some e -> P e) ->
    summary_entries p periods_list st summaries = Returned result ->
    forall key e, result !! key = Some e -> P e.
Proof.
  intros HP. induction periods_list as [|n ns IH]; intros summaries result Hs H;
    cbn [summary_entries] in H.
  - injection H as <-. exact Hs.
  - destruct (fst (generate_forecast p n false st)) as [fc|] eqn:E; [|now apply (IH _ _ Hs)].
    destruct (summarize_forecast (tail n fc)) as [entry|msg] eqn:Es; [|discriminate H].
    cbn [bind] in H. apply (IH _ _) with (2 := H).
    intros key e Hk. destruct (decide (period_key n = key)) as [<-|Hne].
    + rewrite lookup_insert_eq in Hk. injection Hk as <-. exact (HP _ _ _ E Es).
    + rewrite lookup_insert_ne in Hk by exact Hne. now apply (Hs key).
Qed.

(** X21.  In every entry of a forecast summary that is returned, no
    figure is negative, the minimum daily demand is at most the maximum,
    and neither the maximum nor the average exceeds the total. *)
Theorem forecast_summary_entries_consistent (p : string) (periods_list : list nat)
    (st : State) (summaries : gmap string PeriodSummary) :
  get_forecast_summary p periods_list st = Returned (Some summaries) ->
  forall key e,
    summaries !! key = Some e ->
    0 <= min_daily_demand e
    /\ min_daily_demand e <= max_daily_demand e
    /\ max_daily_demand e <= total_demand e
    /\ 0 <= avg_daily_demand e
    /\ avg_daily_demand e <= total_demand e
    /\ 0 <= confidence_lower e
    /\ 0 <= confidence_upper e.
Proof.
  unfold get_forecast_summary. intros H.
  destruct (models st !! p); [|discriminate H].
  destruct (summary_entries p periods_list st ∅) as [result|msg] eqn:E; [|discriminate H].
  cbn [bind] in H. injection H as <-.
  apply (summary_entries_invariant _ p st periods_list) with (3 := E).
  - intros periods forecast e Hfc Hs. apply (summarize_forecast_facts _ _ Hs).
    unfold tail. apply Forall_drop. exact (generate_forecast_clamped _ _ _ _ _ Hfc).
  - intros key e Hk. rewrite lookup_empty in Hk. discriminate Hk.
Qed.

End SummaryOfForecast.

Lemma forecast_summary_entries_consistent_witness :
  match Forecasts.get_forecast_summary (lib := sample_library) "Milk"
          Forecasts.default_periods_list trained_milk with
  | Returned (Some summaries) =>
      match summaries !! "7_days"%string with
      | Some e =>
          (0 <= Forecasts.min_daily_demand e)%Q
          /\ (Forecasts.min_daily_demand e <= Forecasts.max_daily_demand e)%Q
          /\ (Forecasts.max_daily_demand e <= Forecasts.total_demand e)%Q
          /\ (0 <= Forecasts.avg_daily_demand e)%Q
          /\ (Forecasts.avg_daily_demand e <= Forecasts.total_demand e)%Q
          /\ (0 <= Forecasts.confidence_lower e)%Q
          /\ (0 <= Forecasts.confidence_upper e)%Q
      | None => False
      end
  | _ => False
  end.
Proof.
  destruct (Forecasts.get_forecast_summary (lib := sample_library) "Milk"
              Forecasts.default_periods_list trained_milk) as [[summaries|]|msg] eqn:E.
  - destruct (summaries !! "7_days"%string) as [e|] eqn:Ek.
    + exact (forecast_summary_entries_consistent (lib := sample_library) "Milk"
               Forecasts.default_periods_list trained_milk summaries E
               "7_days"%string e Ek).
    + vm_compute in E. injection E as <-. vm_compute in Ek. discriminate Ek.
  - vm_compute in E. discriminate E.
  - vm_compute in E. discriminate E.
Defined.

(** * Properties of the data preparation *)

Section DataPrepFacts.
Import DataPrep.
Local Open Scope Z_scope.

Lemma add_sale_keys (P : Z -> Prop) (r : SalesRow) (groups : list (Z * list SalesRow)) :
  P (Date r) -> Forall P (List.map fst groups) ->
  Forall P (List.map fst (add_sale r groups)).
Proof.
  intros Hr. induction groups as [|[d rs] rest IH]; intros HF; cbn [add_sale].
  - cbn. now repeat constructor.
  - cbn [List.map fst] in HF. inversion HF as [|? ? Hd Hrest]; subst.
    destruct (Date r <? d); [cbn; now repeat constructor|].
    destruct (Date r =? d); cbn [List.map fst]; constructor; auto.
Qed.

Lemma add_sale_sorted (r : SalesRow) (groups : list (Z * list SalesRow)) :
  StronglySorted Z.lt (List.map fst groups) ->
  StronglySorted Z.lt (List.map fst (add_sale r groups)).
Proof.
  induction groups as [|[d rs] rest IH]; intros Hs; cbn [add_sale].
  - cbn. repeat constructor.
  - cbn [List.map fst] in Hs. inversion Hs as [|? ? Hs' Hall]; subst.
    destruct (Z.ltb_spec (Date r) d) as [Hlt|Hge].
    + cbn [List.map fst]. constructor; [exact Hs|]. constructor; [exact Hlt|].
      eapply List.Forall_impl; [|exact Hall]. intros k Hk. lia.
    + destruct (Z.eqb_spec (Date r) d) as [E|E]; [exact Hs|].
      cbn [List.map fst]. constructor; [now apply IH|].
      apply add_sale_keys; [lia|exact Hall].
Qed.

Lemma lookup_date_below (d : Z) (groups : list (Z * list SalesRow)) :
  Forall (fun k => d < k) (List.map fst groups) -> lookup_date d groups = None.
Proof.
  induction groups as [|[d' rs] rest IH]; intros HF; [reflexivity|].
  cbn [List.map fst] in HF. inversion HF; subst. cbn [lookup_date].
  destruct (Z.eqb_spec d' d); [lia|]. now apply IH.
Qed.

(** Filing a row adds it to the rows of its date and to no other. *)
Lemma rows_of_add_sale (d : Z) (r : SalesRow) (groups : list (Z * list SalesRow)) :
  StronglySorted Z.lt (List.map fst groups) ->
  rows_of d (add_sale r groups)
  = (rows_of d groups ++ (if Date r =? d then [r] else []))%list.
Proof.
  unfold rows_of. induction groups as [|[d' rs] rest IH]; intros Hs; cbn [add_sale].
  - cbn [lookup_date]. destruct (Date r =? d); reflexivity.
  - cbn [List.map fst] in Hs. inversion Hs as [|? ? Hs' Hall]; subst.
    destruct (Z.ltb_spec (Date r) d') as [Hlt|Hge].
    + cbn [lookup_date]. destruct (Z.eqb_spec (Date r) d) as [E|E].
      * destruct (Z.eqb_spec d' d); [lia|].
        rewrite lookup_date_below; [reflexivity|].
        eapply List.Forall_impl; [|exact Hall]. intros k Hk. lia.
      * now rewrite app_nil_r.
    + destruct (Z.eqb_spec (Date r) d') as [E|E]; cbn [lookup_date].
      * destruct (Z.eqb_spec d' d) as [E'|E'].
        -- destruct (Z.eqb_spec (Date r) d); [reflexivity|lia].
        -- destruct (Z.eqb_spec (Date r) d); [lia|]. now rewrite app_nil_r.
      * destruct (Z.eqb_spec d' d) as [E'|E'].
        -- destruct (Z.eqb_spec (Date r) d); [lia|]. now rewrite app_nil_r.
        -- now apply IH.
Qed.

Lemma add_sale_dates (r : SalesRow) (groups : list (Z * list SalesRow)) (k : Z) :
  In k (List.map fst (add_sale r groups)) <-> k = Date r \/ In k (List.map fst groups).
Proof.
  induction groups as [|[d rs] rest IH]; cbn [add_sale].
  - cbn. intuition.
  - destruct (Z.ltb_spec (Date r) d); [cbn; intuition|].
    destruct (Z.eqb_spec (Date r) d) as [E|E]; cbn [List.map fst In].
    + subst d. intuition.
    + rewrite IH. intuition.
Qed.

Lemma groupby_Date_facts (selected : list SalesRow) :
  forall groups,
    StronglySorted Z.lt (List.map fst groups) ->
    let result := fold_left (fun g r => add_sale r g) selected groups in
    StronglySorted Z.lt (List.map fst result)
    /\ (forall d, rows_of d result
                  = (rows_of d groups ++ List.filter (fun r => Date r =? d) selected)%list)
    /\ (forall k, In k (List.map fst result)
                  <-> In k (List.map Date selected) \/ In k (List.map fst groups)).
Proof.
  induction selected as [|r rows IH]; intros groups Hs; cbn [fold_left].
  - cbv zeta. split; [exact Hs|]. split; [intros d; now rewrite app_nil_r|].
    cbn. intuition.
  - cbv zeta. destruct (IH (add_sale r groups) (add_sale_sorted r groups Hs))
      as (H1 & H2 & H3).
    split; [exact H1|]. split.
    + intros d. rewrite H2, rows_of_add_sale by exact Hs. cbn [List.filter].
      destruct (Date r =? d); [now rewrite <- app_assoc|now rewrite app_nil_r].
    + intros k. rewrite H3, add_sale_dates. cbn [List.map In]. intuition.
Qed.

Lemma fold_min_facts (l : list Z) :
  forall a, fold_left Z.min l a <= a
            /\ Forall (fun x => fold_left Z.min l a <= x) l
            /\ In (fold_left Z.min l a) (a :: l).
Proof.
  induction l as [|x l IH]; intros a; cbn [fold_left].
  - split; [lia|]. split; [constructor|now left].
  - destruct (IH (Z.min a x)) as (H1 & H2 & H3). split; [lia|]. split.
    + constructor; [lia|exact H2].
    + destruct H3 as [H3|H3]; [|right; now right].
      rewrite <- H3. destruct (Z.min_spec a x) as [[_ ->]|[_ ->]];
        [now left|right; now left].
Qed.

Lemma fold_max_facts (l : list Z) :
  forall a, a <= fold_left Z.max l a
            /\ Forall (fun x => x <= fold_left Z.max l a) l
            /\ In (fold_left Z.max l a) (a :: l).
Proof.
  induction l as [|x l IH]; intros a; cbn [fold_left].
  - split; [lia|]. split; [constructor|now left].
  - destruct (IH (Z.max a x)) as (H1 & H2 & H3). split; [lia|]. split.
    + constructor; [lia|exact H2].
    + destruct H3 as [H3|H3]; [|right; now right].
      rewrite <- H3. destruct (Z.max_spec a x) as [[_ ->]|[_ ->]];
        [right; now left|now left].
Qed.

Lemma ffill_length (column : list (option Q)) :
  forall previous, List.length (ffill previous column) = List.length column.
Proof.
  induction column as [|x l IH]; intros previous; cbn [ffill List.length];
    [reflexivity|]. now rewrite IH.
Qed.

Lemma bfill_length (column : list (option Q)) :
  List.length (bfill column) = List.length column.
Proof.
  induction column as [|x l IH]; cbn [bfill List.length]; [reflexivity|]. now rewrite IH.
Qed.

Lemma combine_fst {A B : Type} (l1 : list A) (l2 : list B) :
  List.length l2 = List.length l1 -> List.map fst (combine l1 l2) = l1.
Proof.
  revert l2. induction l1 as [|x l1 IH]; intros [|y l2] H; cbn in *;
    try reflexivity; try discriminate.
  f_equal. apply IH. lia.
Qed.

Lemma prepared_series_facts (df : SalesFrame) (p : string)
    (company : option string) (prophet_data : list ProphetRow) :
  prepare_prophet_data df p company = Returned prophet_data ->
  exists first last,
    In first (List.map Date (selected_sales df p company))
    /\ In last (List.map Date (selected_sales df p company))
    /\ (forall r, In r (selected_sales df p company) -> first <= Date r <= last)
    /\ List.map p_ds prophet_data = date_range first last
    /\ Forall
         (fun row =>
            p_y row
            = py_sum (List.map Quantity_Sold
                        (List.filter (fun r => Date r =? p_ds row)
                           (selected_sales df p company))))
         prophet_data.
Proof.
  unfold prepare_prophet_data.
  destruct (company_given company && negb (has_company_column df)); [discriminate|].
  set (selected := selected_sales df p company).
  destruct (groupby_Date_facts selected [] (SSorted_nil _)) as (_ & Hrows & Hkeys).
  cbv zeta in Hrows, Hkeys. fold (groupby_Date selected) in Hrows, Hkeys.
  destruct (List.map fst (groupby_Date selected)) as [|d0 ds] eqn:Ek; [discriminate|].
  intros H. injection H as <-.
  destruct (fold_min_facts ds d0) as (m1 & m2 & m3).
  destruct (fold_max_facts ds d0) as (M1 & M2 & M3).
  set (lo := fold_left Z.min ds d0) in *. set (hi := fold_left Z.max ds d0) in *.
  assert (forall k, In k (d0 :: ds) <-> In k (List.map Date selected)) as Hk.
  { intros k. rewrite Hkeys. cbn. intuition. }
  exists lo, hi. split; [now apply Hk|]. split; [now apply Hk|]. split.
  { intros r Hr. assert (In (Date r) (d0 :: ds)) as Hin by (apply Hk; now apply in_map).
    rewrite List.Forall_forall in m2, M2. destruct Hin as [<-|Hin]; [lia|].
    split; [now apply m2|now apply M2]. }
  set (cells := List.map (fun d => (d, lookup_date d (groupby_Date selected)))
                  (date_range lo hi)).
  set (prices := bfill _).
  assert (List.length prices = List.length cells) as Hlen.
  { subst prices. now rewrite bfill_length, ffill_length, length_map. }
  split.
  - rewrite List.map_map.
    transitivity (List.map fst (List.map fst (combine cells prices))).
    + rewrite List.map_map. apply map_ext. intros [[d g] price]. reflexivity.
    + rewrite (combine_fst cells prices Hlen). subst cells. rewrite List.map_map.
      cbn [fst]. apply map_id.
  - apply List.Forall_forall. intros row Hrow. apply in_map_iff in Hrow.
    destruct Hrow as ([[d g] price] & <- & Hin). cbn [p_y p_ds].
    apply in_combine_l in Hin. subst cells. apply in_map_iff in Hin.
    destruct Hin as (d' & Heq & _). injection Heq as -> <-.
    specialize (Hrows d). change (rows_of d []) with (@nil SalesRow) in Hrows.
    cbn [app] in Hrows. rewrite <- Hrows.
    unfold rows_of. destruct (lookup_date d (groupby_Date selected)); reflexivity.
Qed.

(** X22.  The prepared series has one point per day from the first to the
    last day on which the product has a record, and the value of each
    day is the total quantity sold that day: days with several records
    are added up, days without record count 0. *)
Theorem prophet_data_is_daily_series (df : SalesFrame) (p : string)
    (company : option string) (prophet_data : list ProphetRow) :
  prepare_prophet_data df p company = Returned prophet_data ->
  exists first last,
    In first (List.map Date (selected_sales df p company))
    /\ In last (List.map Date (selected_sales df p company))
    /\ (forall r, In r (selected_sales df p company) -> first <= Date r <= last)
    /\ List.map p_ds prophet_data = date_range first last
    /\ Forall
         (fun row =>
            p_y row
            = py_sum (List.map Quantity_Sold
                        (List.filter (fun r => Date r =? p_ds row)
                           (selected_sales df p company))))
         prophet_data.
Proof. apply prepared_series_facts. Qed.

End DataPrepFacts.

Lemma prophet_data_is_daily_series_witness :
  exists first last,
    In first (List.map DataPrep.Date (DataPrep.selected_sales sample_sales "Milk" None))
    /\ In last (List.map DataPrep.Date (DataPrep.selected_sales sample_sales "Milk" None))
    /\ (forall r, In r (DataPrep.selected_sales sample_sales "Milk" None) ->
                  (first <= DataPrep.Date r <= last)%Z)
    /\ List.map DataPrep.p_ds
         [DataPrep.mkProphetRow 1 15 (Some (52 # 2)%Q) 385;
          DataPrep.mkProphetRow 2 0 (Some (52 # 2)%Q) 0;
          DataPrep.mkProphetRow 3 0 (Some (52 # 2)%Q) 0;
          DataPrep.mkProphetRow 4 7 (Some 26%Q) 182]
       = DataPrep.date_range first last
    /\ Forall
         (fun row =>
            DataPrep.p_y row
            = py_sum (List.map DataPrep.Quantity_Sold
                        (List.filter (fun r => (DataPrep.Date r =? DataPrep.p_ds row)%Z)
                           (DataPrep.selected_sales sample_sales "Milk" None))))
         [DataPrep.mkProphetRow 1 15 (Some (52 # 2)%Q) 385;
          DataPrep.mkProphetRow 2 0 (Some (52 # 2)%Q) 0;
          DataPrep.mkProphetRow 3 0 (Some (52 # 2)%Q) 0;
          DataPrep.mkProphetRow 4 7 (Some 26%Q) 182].
Proof.
  apply (prophet_data_is_daily_series sample_sales "Milk" None).
  vm_compute. reflexivity.
Defined.

Section DataPrepEdges.
Import DataPrep.
Local Open Scope Z_scope.

(** X23.  The preparation returns a series exactly when the product has at
    least one record (and the frame has a company column if a company is
    asked for); otherwise it raises. *)
Theorem prophet_data_needs_a_record (df : SalesFrame) (p : string)
    (company : option string) :
  returns (prepare_prophet_data df p company)
  <-> (company_given company = true -> has_company_column df = true)
      /\ selected_sales df p company <> [].
Proof.
  unfold prepare_prophet_data, returns.
  set (selected := selected_sales df p company).
  destruct (groupby_Date_facts selected [] (SSorted_nil _)) as (_ & _ & Hkeys).
  cbv zeta in Hkeys. fold (groupby_Date selected) in Hkeys.
  destruct (company_given company) eqn:Ec; destruct (has_company_column df) eqn:Eh;
    cbn [andb negb].
  2: { split; [intros [a H]; discriminate H|]. intros [H _]. now specialize (H eq_refl). }
  all: destruct (List.map fst (groupby_Date selected)) as [|d0 ds] eqn:Ek;
    (split; [intros [a H]|intros [_ Hne]]);
    try discriminate H; try (eexists; reflexivity).
  all: try (split; [auto|]; intros Hsel;
            assert (In d0 (d0 :: ds)) as Hin by (now left);
            apply Hkeys in Hin; rewrite Hsel in Hin; cbn in Hin; tauto).
  all: destruct selected as [|r rest]; [contradiction|];
    assert (In (Date r) []) as Hin by (apply Hkeys; left; now left); destruct Hin.
Qed.

End DataPrepEdges.

Section PrepareThenEvaluate.
Import DataPrep Forecaster.
Context {lib : ForecastLibrary}.
Local Open Scope Z_scope.

Lemma evaluate_short (model : Model) (data : list (Z * Q)) :
  (List.length data < 90)%nat ->
  evaluate model data = Metrics None None None "Insufficient data for validation".
Proof.
  intros H. unfold evaluate.
  destruct (Z.ltb_spec (Z.of_nat (List.length data) - 30) 60) as [Hlt|Hge];
    [reflexivity|lia].
Qed.

(** X24.  Prepare, then evaluate: the training series has one point per day
    from the first to the last record of the product, so a product
    whose records all lie within 89 days of each other is trained
    without validation metrics. *)
Theorem short_history_is_not_validated (df : SalesFrame) (p : string)
    (company : option string) (prophet_data : list ProphetRow) (model : Model) :
  prepare_prophet_data df p company = Returned prophet_data ->
  (forall r r', In r (selected_sales df p company) ->
                In r' (selected_sales df p company) -> Date r' - Date r < 89) ->
  training_series prophet_data <> []
  /\ evaluate model (training_series prophet_data)
     = Metrics None None None "Insufficient data for validation".
Proof.
  intros H Hspan.
  destruct (prepared_series_facts df p company prophet_data H)
    as (first & last & Hf & Hl & Hbounds & Hds & _).
  apply in_map_iff in Hf. destruct Hf as (rf & <- & Hrf).
  apply in_map_iff in Hl. destruct Hl as (rl & <- & Hrl).
  pose proof (Hspan rf rl Hrf Hrl) as Hlt. pose proof (Hbounds rl Hrl) as [Hle _].
  assert (List.length (training_series prophet_data)
          = Z.to_nat (Date rl - Date rf + 1)) as Hlen.
  { unfold training_series. rewrite length_map.
    rewrite <- (length_map p_ds), Hds. unfold date_range.
    now rewrite length_map, length_seq. }
  split.
  - intros E. rewrite E in Hlen. cbn [List.length] in Hlen. lia.
  - apply evaluate_short. rewrite Hlen. lia.
Qed.

End PrepareThenEvaluate.

Lemma prophet_data_needs_a_record_witness :
  returns (DataPrep.prepare_prophet_data sample_sales "Milk" None)
  /\ ~ returns (DataPrep.prepare_prophet_data sample_sales "Ghee" None).
Proof.
  split.
  - apply (proj2 (prophet_data_needs_a_record sample_sales "Milk" None)).
    split; [discriminate|vm_compute; discriminate].
  - intros H. apply (proj1 (prophet_data_needs_a_record sample_sales "Ghee" None)) in H.
    destruct H as [_ H]. apply H. vm_compute. reflexivity.
Defined.

Lemma short_history_is_not_validated_witness :
  DataPrep.training_series
    [DataPrep.mkProphetRow 1 15 (Some (52 # 2)%Q) 385;
     DataPrep.mkProphetRow 2 0 (Some (52 # 2)%Q) 0;
     DataPrep.mkProphetRow 3 0 (Some (52 # 2)%Q) 0;
     DataPrep.mkProphetRow 4 7 (Some 26%Q) 182] <> []
  /\ Forecaster.evaluate (lib := sample_library) ("additive"%string, 4%nat)
       (DataPrep.training_series
          [DataPrep.mkProphetRow 1 15 (Some (52 # 2)%Q) 385;
           DataPrep.mkProphetRow 2 0 (Some (52 # 2)%Q) 0;
           DataPrep.mkProphetRow 3 0 (Some (52 # 2)%Q) 0;
           DataPrep.mkProphetRow 4 7 (Some 26%Q) 182])
     = Forecaster.Metrics None None None "Insufficient data for validation".
Proof.
  apply (short_history_is_not_validated (lib := sample_library) sample_sales "Milk" None).
  - vm_compute. reflexivity.
  - intros r r' Hr Hr'. vm_compute in Hr, Hr'.
    repeat (destruct Hr as [<-|Hr]; [|]); try contradiction;
      repeat (destruct Hr' as [<-|Hr']; [|]); try contradiction; vm_compute; reflexivity.
Defined.

(** * The margin recommendation *)

Section MarginAdvice.
Import Optimizer.
Local Open Scope Q_scope.

Lemma py_sum_constant (m : Q) (l : list Q) :
  Forall (fun x => x = m) l ->
  py_sum l == inject_Z (Z.of_nat (List.length l)) * m.
Proof.
  induction 1 as [|x l -> _ IH].
  - change (py_sum []) with 0. change (inject_Z (Z.of_nat (@List.length Q []))) with 0.
    ring.
  - rewrite py_sum_cons, IH. cbn [List.length]. rewrite Nat2Z.inj_succ.
    unfold Z.succ. rewrite inject_Z_plus. change (inject_Z 1) with 1. ring.
Qed.

Lemma mean_constant (m : Q) (l : list Q) :
  l <> [] -> Forall (fun x => x = m) l -> mean l == m.
Proof.
  intros Hne HF. unfold mean. rewrite (py_sum_constant m l HF).
  assert (0 < inject_Z (Z.of_nat (List.length l))) as Hn.
  { change 0 with (inject_Z 0). rewrite <- Zlt_Qlt.
    destruct l; [contradiction|cbn [List.length]; lia]. }
  field. lra.
Qed.

(** The margin of every product of the two tables is at least 20. *)
Lemma table_margin_at_least_twenty (p : string) (cost price : Q) :
  production_costs !! p = Some cost ->
  price_estimates !! p = Some price ->
  20 <= py_round ((price - cost) / price * 100) 1.
Proof.
  intros Hc Hp. apply elem_of_list_to_map_2 in Hc. apply elem_of_list_to_map_2 in Hp.
  repeat (apply elem_of_cons in Hc; destruct Hc as [Hc|Hc];
          [inversion Hc; subst; clear Hc;
           repeat (apply elem_of_cons in Hp; destruct Hp as [Hp|Hp];
                   [inversion Hp; subst; vm_compute; discriminate|]);
           inversion Hp|]).
  inversion Hc.
Qed.

(** X9.  For a product of the cost and price tables, the advice to review
    pricing or costs is never given on a plan in which every day has a
    positive demand: the margin of such a plan is the fixed margin of the
    product, which is above the 20% threshold. *)
Theorem margin_advice_needs_idle_days (df : DataFrame) (p : string) (cost price : Q) :
  production_costs !! p = Some cost ->
  price_estimates !! p = Some price ->
  select_product df p <> [] ->
  Forall (fun lr => 0 < predicted_demand (snd lr)) (select_product df p) ->
  exists plan,
    calculate_optimal_production (Some df) p default_safety_stock None
      = Returned (Some plan)
    /\ ~ In "Review pricing strategy or production costs to improve margins"%string
           (_generate_product_recommendations plan).
Proof.
  intros Hcost Hprice Hsel Hdem.
  pose proof (price_estimate_positive p price Hprice) as Hpos.
  pose proof (default_capacity_positive p) as Hcap.
  pose proof (table_margin_at_least_twenty p cost price Hcost Hprice) as Hm.
  eexists. split; [now apply calculate_optimal_production_eq|].
  assert (dict_get production_costs p 0 = cost) as -> by (unfold dict_get; now rewrite Hcost).
  assert (_estimate_price p = price) as ->
    by (unfold _estimate_price, dict_get; now rewrite Hprice).
  change (capacity_of p None) with (dict_get default_capacities p 1000).
  set (plan := List.map _ _).
  assert (plan <> []) as Hne.
  { subst plan. pose proof (Permutation_length (sort_values_perm (select_product df p))) as L.
    destruct (sort_values (select_product df p)); [|discriminate].
    destruct (select_product df p); [contradiction|discriminate L]. }
  assert (Forall (fun x => x = py_round ((price - cost) / price * 100) 1)
            (List.map profit_margin plan)) as Hall.
  { subst plan. rewrite !List.map_map. apply Forall_map.
    apply (Permutation_Forall (Permutation_sym (sort_values_perm _))).
    eapply List.Forall_impl; [|exact Hdem]. intros [i row] Hrow. cbn [snd] in *.
    cbn [Claimed.plan_row profit_margin]. set (q := Qmin _ _).
    assert (0 < q) as Hq.
    { apply Q.min_glb_lt; [|exact Hcap]. unfold default_safety_stock.
      apply Qmult_lt_0_compat; [exact Hrow|reflexivity]. }
    destruct (Qlt_le_dec 0 (q * price)) as [Hlt|Hle]; [|nra].
    apply py_round_comp. field. split; lra. }
  assert (mean (List.map profit_margin plan) == py_round ((price - cost) / price * 100) 1)
    as Hmean.
  { apply mean_constant; [|exact Hall]. intros E. apply Hne.
    destruct plan; [reflexivity|discriminate E]. }
  unfold _generate_product_recommendations.
  assert (Qle_bool 20 (mean (List.map profit_margin plan)) = true) as ->.
  { apply Qle_bool_iff. rewrite Hmean. exact Hm. }
  cbn [negb]. intros Hin. apply in_app_or in Hin. destruct Hin as [Hin|Hin].
  - destruct (negb (Qle_bool 60 _)); [destruct Hin as [H|[]]; discriminate H|].
    destruct (negb (Qle_bool _ 90)); [destruct Hin as [H|[]]; discriminate H|destruct Hin].
  - cbn [app] in Hin. destruct (high_variability _);
      [destruct Hin as [H|[]]; discriminate H|destruct Hin].
Qed.

Lemma margin_advice_needs_idle_days_witness :
  exists plan,
    calculate_optimal_production (Some two_product_frame) "Butter" default_safety_stock None
      = Returned (Some plan)
    /\ ~ In "Review pricing strategy or production costs to improve margins"%string
           (_generate_product_recommendations plan).
Proof.
  apply (margin_advice_needs_idle_days two_product_frame "Butter" 300 450).
  - vm_compute. reflexivity.
  - vm_compute. reflexivity.
  - vm_compute. discriminate.
  - vm_compute. repeat constructor.
Defined.

End MarginAdvice.
